(** * The ledger core of [database.py]: a shallow embedding

    The [Database] class of [src/database.py] keeps account balances, an audit
    trail of balance changes, deposit transactions and an administrative log
    in an SQLite file.  This development embeds

    - the Python values the class computes with ([decimal.Decimal], the [str]
      of a decimal and of a float),
    - the part of SQLite the class relies on (storage classes, the REAL
      column affinity, primary keys, explicit transactions),
    - the methods of the class that read and write the ledger, statement by
      statement, in a state and exception monad over the store, the open
      connections and the logger,

    and then proves the properties of the ledger.  It goes on with the
    initialization of the database ([init_db] and the singleton), the
    configuration of [src/config.py] (the attributes read from the
    environment and the methods that write the file .env) and the keyboards
    of [src/keyboards.py]. *)

From Stdlib Require Import ZArith NArith List String Ascii Bool Lia.
From Stdlib Require Import Floats.SpecFloat DecimalString DecimalPos DecimalN QArith.
Import ListNotations.
Open Scope string_scope.
Open Scope Z_scope.

(** ** Python values *)

Module Py.

(** Exceptions carry the class they belong to and the text [str(e)] gives. *)
Inductive ExceptionClass : Type :=
| OperationalError      (* sqlite3.OperationalError *)
| IntegrityError        (* sqlite3.IntegrityError *)
| InvalidOperation      (* decimal.InvalidOperation *)
| ValueError
| TypeError
| AttributeError.

Record Exception : Type := mkException {
  exc_class : ExceptionClass;
  exc_str : string
}.

Inductive result (A : Type) : Type :=
| Ok (a : A)
| Raise (e : Exception).
Arguments Ok {A} a.
Arguments Raise {A} e.

(** [decimal.Decimal]: a sign, a coefficient and an exponent, or one of the
    special values.  Signalling NaNs and NaN payloads are left out. *)
Inductive Decimal : Type :=
| DFinite (neg : bool) (coeff : N) (exp : Z)
| DInfinity (neg : bool)
| DNaN.

(** The decimal digits of a natural number, ["0"] for zero. *)
Definition digits (n : N) : string := NilEmpty.string_of_uint (N.to_uint n).

Definition ndigits (n : N) : Z := Z.of_nat (String.length (digits n)).

Fixpoint zeros (n : nat) : string :=
  match n with
  | O => ""
  | S n' => String "0" (zeros n')
  end.

Definition sign_str (neg : bool) : string := if neg then "-" else "".

(** ["%+d" % z] *)
Definition signed_str (z : Z) : string :=
  (if z <? 0 then "-" else "+") ++ digits (Z.abs_N z).

(** [str(z)] for an [int] *)
Definition int_str (z : Z) : string :=
  (if z <? 0 then "-" else "") ++ digits (Z.abs_N z).

(** [Decimal.__str__]: plain notation while the exponent is at most zero and
    the number is not too small, scientific notation otherwise. *)
Definition Decimal_str (d : Decimal) : string :=
  match d with
  | DNaN => "NaN"
  | DInfinity neg => sign_str neg ++ "Infinity"
  | DFinite neg c e =>
      let int := digits c in
      let len := Z.of_nat (String.length int) in
      let leftdigits := e + len in
      let dotplace :=
        if (e <=? 0) && (-6 <? leftdigits) then leftdigits else 1 in
      let intpart :=
        if dotplace <=? 0 then "0"
        else if len <=? dotplace then int ++ zeros (Z.to_nat (dotplace - len))
        else substring 0 (Z.to_nat dotplace) int in
      let fracpart :=
        if dotplace <=? 0 then "." ++ zeros (Z.to_nat (- dotplace)) ++ int
        else if len <=? dotplace then ""
        else "." ++ substring (Z.to_nat dotplace) (Z.to_nat (len - dotplace)) int in
      let exp :=
        if leftdigits =? dotplace then ""
        else "E" ++ signed_str (leftdigits - dotplace) in
      sign_str neg ++ intpart ++ fracpart ++ exp
  end.

(** Rounding of a coefficient to at most [prec] digits, ties to even: the
    rounding of the default context, also used to find the digits of a
    float. *)
Definition round_half_even (prec : Z) (c : N) (e : Z) : N * Z :=
  let n := ndigits c in
  if n <=? prec then (c, e)
  else
    let k := n - prec in
    let p := (10 ^ Z.to_N k)%N in
    let q := (c / p)%N in
    let r := (c mod p)%N in
    let q' := if ((p <? 2 * r) || ((2 * r =? p) && N.odd q))%N
              then (q + 1)%N else q in
    if prec <? ndigits q' then ((q' / 10)%N, e + k + 1) else (q', e + k).

(** The precision of the default context ([getcontext().prec]). *)
Definition context_prec : Z := 28.

Definition signed (neg : bool) (c : N) : Z :=
  if neg then - Z.of_N c else Z.of_N c.

(** The coefficient of a finite decimal at a smaller exponent [e']. *)
Definition rescale (c : N) (e e' : Z) : N := (c * 10 ^ Z.to_N (e - e'))%N.

(** [Decimal.__add__] in the default context: the exact sum at the smaller
    exponent, rounded to [context_prec] digits; the sum of opposite
    infinities signals [InvalidOperation], which the default context traps.
    The exponent limits of the context (beyond 10^999999) are left out. *)
Definition Decimal_add (x y : Decimal) : result Decimal :=
  match x, y with
  | DNaN, _ | _, DNaN => Ok DNaN
  | DInfinity sx, DInfinity sy =>
      if Bool.eqb sx sy then Ok (DInfinity sx)
      else Raise (mkException InvalidOperation "[<class 'decimal.InvalidOperation'>]")
  | DInfinity sx, DFinite _ _ _ => Ok (DInfinity sx)
  | DFinite _ _ _, DInfinity sy => Ok (DInfinity sy)
  | DFinite sx cx ex, DFinite sy cy ey =>
      let e := Z.min ex ey in
      let s := signed sx (rescale cx ex e) + signed sy (rescale cy ey e) in
      let neg := if s =? 0 then sx && sy else s <? 0 in
      let '(c, e') := round_half_even context_prec (Z.abs_N s) e in
      Ok (DFinite neg c e')
  end.

(** [d < 0] and [d > 0]: a comparison with NaN signals [InvalidOperation]. *)
Definition Decimal_lt_0 (d : Decimal) : result bool :=
  match d with
  | DFinite neg c _ => Ok (neg && negb (c =? 0)%N)
  | DInfinity neg => Ok neg
  | DNaN => Raise (mkException InvalidOperation "[<class 'decimal.InvalidOperation'>]")
  end.

Definition Decimal_gt_0 (d : Decimal) : result bool :=
  match d with
  | DFinite neg c _ => Ok (negb neg && negb (c =? 0)%N)
  | DInfinity neg => Ok (negb neg)
  | DNaN => Raise (mkException InvalidOperation "[<class 'decimal.InvalidOperation'>]")
  end.

(** *** Reading numbers from text *)

Definition is_digit (a : ascii) : bool :=
  let n := nat_of_ascii a in (48 <=? n)%nat && (n <=? 57)%nat.

Definition digit_val (a : ascii) : N := N.of_nat (nat_of_ascii a - 48).

(** The leading digits of [s]: the number they extend [acc] to, how many
    they are, and the rest of the text. *)
Fixpoint span_digits (s : string) (acc : N) (count : Z) : N * Z * string :=
  match s with
  | String a s' =>
      if is_digit a then span_digits s' (acc * 10 + digit_val a)%N (count + 1)
      else (acc, count, s)
  | EmptyString => (acc, count, s)
  end.

Definition take_sign (s : string) : bool * string :=
  match s with
  | String "-" s' => (true, s')
  | String "+" s' => (false, s')
  | _ => (false, s)
  end.

(** A numeric literal: sign, digits, an optional fraction and an optional
    exponent, and nothing after them.  The result is the sign, the
    coefficient, the exponent and whether the literal is an integer one
    (neither point nor exponent). *)
Record literal : Type := mkLiteral {
  lit_neg : bool;
  lit_coeff : N;
  lit_exp : Z;
  lit_integer : bool
}.

(** The exponent part at the head of [s], when there is one: its value and
    the rest of the text. *)
Definition scan_exponent (s : string) : option (Z * string) :=
  match s with
  | String a s' =>
      if (a =? "e")%char || (a =? "E")%char then
        let '(neg, s1) := take_sign s' in
        let '(n, k, rest) := span_digits s1 0%N 0 in
        if 0 <? k then Some (signed neg n, rest) else None
      else None
  | EmptyString => None
  end.

(** The longest numeric literal at the head of [s], and the rest. *)
Definition scan_number (s : string) : option (literal * string) :=
  let '(neg, s0) := take_sign s in
  let '(ci, ni, s1) := span_digits s0 0%N 0 in
  let '(c, nf, point, s2) :=
    match s1 with
    | String "." s1' =>
        let '(c, nf, s2) := span_digits s1' ci 0 in (c, nf, true, s2)
    | _ => (ci, 0, false, s1)
    end in
  if 0 <? ni + nf then
    match scan_exponent s2 with
    | Some (x, rest) => Some (mkLiteral neg c (x - nf) false, rest)
    | None => Some (mkLiteral neg c (- nf) (negb point), s2)
    end
  else None.

(** A text that is a numeric literal and nothing more (white space around
    it, which SQLite and Python skip, is not). *)
Definition parse_number (s : string) : option literal :=
  match scan_number s with
  | Some (l, EmptyString) => Some l
  | _ => None
  end.

Definition lower (a : ascii) : ascii :=
  let n := nat_of_ascii a in
  if (65 <=? n)%nat && (n <=? 90)%nat then ascii_of_nat (n + 32) else a.

Fixpoint lowercase (s : string) : string :=
  match s with
  | EmptyString => EmptyString
  | String a s' => String (lower a) (lowercase s')
  end.

(** [Decimal(s)] for a string: a number, an infinity or a NaN; anything
    else is a conversion syntax error.  (Surrounding white space and
    underscores, which Python also accepts, are not.) *)
Definition Decimal_of_str (s : string) : result Decimal :=
  match parse_number s with
  | Some l => Ok (DFinite (lit_neg l) (lit_coeff l) (lit_exp l))
  | None =>
      let '(neg, body) := take_sign s in
      let b := lowercase body in
      if (b =? "inf")%string || (b =? "infinity")%string then Ok (DInfinity neg)
      else if (b =? "nan")%string then Ok DNaN
      else Raise (mkException InvalidOperation "[<class 'decimal.ConversionSyntax'>]")
  end.

(** *** Floats *)

(** A Python [float] is an IEEE 754 binary64 number. *)
Definition float : Type := spec_float.
Definition prec : Z := 53.
Definition emax : Z := 1024.

(** The float nearest to [(-1)^neg * c * 10^e], ties to even: what
    [float(s)] gives for a numeric literal. *)
Definition float_nearest (neg : bool) (c : N) (e : Z) : float :=
  match c with
  | N0 => S754_zero neg
  | Npos p =>
      if 0 <=? e
      then binary_normalize prec emax (signed neg (c * 10 ^ Z.to_N e)%N) 0 neg
      else SFdiv prec emax (S754_finite neg p 0)
                           (S754_finite false (10 ^ Z.to_pos (- e))%positive 0)
  end.

(** The float of an [int]. *)
Definition float_of_int (z : Z) : float := binary_normalize prec emax z 0 false.

(** The exact value [m * 2^e] of a finite float, as coefficient and
    decimal exponent. *)
Definition exact_decimal (m : positive) (e : Z) : N * Z :=
  if 0 <=? e then ((Npos m * 2 ^ Z.to_N e)%N, 0)
  else ((Npos m * 5 ^ Z.to_N (- e))%N, e).

(** The shortest digit string that reads back as the float [f]: the exact
    value rounded to [n], [n + 1], ... digits until it does; 17 digits
    always do. *)
Fixpoint shortest_digits (fuel : nat) (n : Z) (f : float) (c : N) (e : Z) : N * Z :=
  match fuel with
  | O => round_half_even 17 c e
  | S fuel' =>
      let '(c', e') := round_half_even n c e in
      if SFeqb (float_nearest false c' e') f then (c', e')
      else shortest_digits fuel' (n + 1) f c e
  end.

(** The exponent of a float in [repr]: a sign and at least two digits. *)
Definition repr_exponent (x : Z) : string :=
  (if x <? 0 then "-" else "+") ++
  (if Z.abs x <? 10 then "0" else "") ++ digits (Z.abs_N x).

(** [repr(f)], which is also [str(f)]: the shortest digits, in plain
    notation while the decimal point falls within them or at most 16 places
    to the right or 4 to the left, in scientific notation otherwise. *)
Definition float_str (f : float) : string :=
  match f with
  | S754_nan => "nan"
  | S754_infinity neg => sign_str neg ++ "inf"
  | S754_zero neg => sign_str neg ++ "0.0"
  | S754_finite neg m e =>
      let '(c0, e0) := exact_decimal m e in
      let '(c, x) := shortest_digits 16 1 (S754_finite false m e) c0 e0 in
      let ds := digits c in
      let n := Z.of_nat (String.length ds) in
      let decpt := x + n in
      sign_str neg ++
      (if (decpt <=? -4) || (16 <? decpt) then
         substring 0 1 ds ++
         (if 1 <? n then "." ++ substring 1 (Z.to_nat (n - 1)) ds else "") ++
         "e" ++ repr_exponent (decpt - 1)
       else if decpt <=? 0 then "0." ++ zeros (Z.to_nat (- decpt)) ++ ds
       else if n <=? decpt then ds ++ zeros (Z.to_nat (decpt - n)) ++ ".0"
       else substring 0 (Z.to_nat decpt) ds ++ "." ++
            substring (Z.to_nat decpt) (Z.to_nat (n - decpt)) ds)
  end.

End Py.

(** ** SQLite values *)

Module Sqlite.
Import Py.

(** The storage classes (BLOB, which nothing here binds, is left out). *)
Inductive value : Type :=
| Null
| Integer (n : Z)
| Real (r : float)
| Text (s : string).

Definition fits_int64 (z : Z) : bool :=
  (- 2 ^ 63 <=? z) && (z <? 2 ^ 63).

(** The REAL a numeric literal converts to.  An integer literal within 64
    bits first becomes an INTEGER, which the REAL affinity then forces into
    floating point; any other literal is converted to the nearest float
    (SQLite itself only promises the first 15 significant digits).  A zero
    is stored without its sign: "-0.0" comes back as 0.0. *)
Definition real_of_literal (l : literal) : float :=
  let z := signed (lit_neg l) (lit_coeff l) in
  if (lit_coeff l =? 0)%N then S754_zero false
  else if lit_integer l && fits_int64 z then float_of_int z
  else float_nearest (lit_neg l) (lit_coeff l) (lit_exp l).

(** The affinity of a column declared [REAL], applied to a value before it
    is stored: text that is a well-formed numeric literal becomes a REAL,
    an INTEGER becomes a REAL, anything else is stored as it is. *)
Definition real_affinity (v : value) : value :=
  match v with
  | Text s =>
      match parse_number s with
      | Some l => Real (real_of_literal l)
      | None => Text s
      end
  | Integer n => Real (float_of_int n)
  | _ => v
  end.

(** [str(x)] for a value fetched from a row: REAL comes back as a [float],
    INTEGER as an [int], TEXT as a [str] and NULL as [None]. *)
Definition fetched_str (v : value) : string :=
  match v with
  | Null => "None"
  | Integer n => int_str n
  | Real r => float_str r
  | Text s => s
  end.

(** [v >= 0] in a CHECK constraint: numbers compare by value, text is
    greater than every number, and a NULL result does not violate the
    constraint. *)
Definition check_ge_0 (v : value) : bool :=
  match v with
  | Null => true
  | Integer n => 0 <=? n
  | Real r => SFleb (S754_zero false) r
  | Text _ => true
  end.

Definition coalesce_0 (v : value) : value :=
  match v with
  | Null => Integer 0
  | _ => v
  end.

(** The number a value counts as in an aggregate: text counts as the
    number at its head, or as zero. *)
Definition numeric (v : value) : float :=
  match v with
  | Null => S754_zero false
  | Integer n => float_of_int n
  | Real r => r
  | Text s =>
      match scan_number s with
      | Some (l, _) => float_nearest (lit_neg l) (lit_coeff l) (lit_exp l)
      | None => S754_zero false
      end
  end.

Definition is_null (v : value) : bool :=
  match v with Null => true | _ => false end.

Definition is_integer (v : value) : bool :=
  match v with Integer _ => true | _ => false end.

Fixpoint sum_integers (vs : list value) (acc : Z) : result value :=
  match vs with
  | [] => Ok (Integer acc)
  | Integer n :: vs' =>
      if fits_int64 (acc + n) then sum_integers vs' (acc + n)
      else Raise (mkException OperationalError "integer overflow")
  | _ :: vs' => sum_integers vs' acc
  end.

(** [SUM(...)]: NULL over no value, an INTEGER while every value is one
    (an overflow is an error), a REAL otherwise, added up from the left
    (recent versions of SQLite compensate the rounding of the additions,
    which is not done here). *)
Definition sum (vs : list value) : result value :=
  let xs := filter (fun v => negb (is_null v)) vs in
  match xs with
  | [] => Ok Null
  | _ =>
      if forallb is_integer xs then sum_integers xs 0
      else Ok (Real (fold_left (fun acc v => SFadd prec emax acc (numeric v))
                               xs (S754_zero false)))
  end.

End Sqlite.

(** ** The store: the five tables of [init_db] *)

Import Py Sqlite.

(** A row of [users].  [user_id] is the INTEGER PRIMARY KEY; [balance] is
    declared [REAL DEFAULT 0.0 CHECK (balance >= 0)]. *)
Record User : Type := mkUser {
  u_user_id : Z;
  u_username : option string;
  u_first_name : option string;
  u_balance : value;
  u_joined_date : string;
  u_last_activity : string;
  u_status : option string;
  u_account_data : option string;
  u_created_at : option string;
  u_updated_at : option string
}.

(** A row of [balance_history]; the three amounts are [REAL NOT NULL]. *)
Record BalanceHistoryEntry : Type := mkBalanceHistoryEntry {
  h_history_id : Z;
  h_user_id : Z;
  h_old_balance : value;
  h_new_balance : value;
  h_change_amount : value;
  h_transaction_type : string;
  h_admin_id : option Z;
  h_created_at : option string
}.

(** A row of [orders]. *)
Record Order : Type := mkOrder {
  o_order_id : Z;
  o_user_id : Z;
  o_product_type : string;
  o_product_id : string;
  o_amount : string;
  o_price : value;
  o_created_at : string;
  o_completed_at : option string;
  o_status : option string
}.

(** A row of [transactions]; [tx_id] is the TEXT PRIMARY KEY, [amount],
    [original_amount] and [exchange_rate] are declared [REAL]. *)
Record Transaction : Type := mkTransaction {
  t_tx_id : string;
  t_user_id : Z;
  t_amount : value;
  t_type : string;
  t_payment_method : string;
  t_payment_details : option string;
  t_payment_subtype : option string;
  t_payment_number : option string;
  t_original_amount : value;
  t_original_currency : option string;
  t_exchange_rate : value;
  t_created_at : string;
  t_completed_at : option string;
  t_status : option string;
  t_reject_reason : option string;
  t_admin_id : option Z
}.

(** A row of [admin_logs]. *)
Record AdminLogEntry : Type := mkAdminLogEntry {
  l_log_id : Z;
  l_admin_id : Z;
  l_action : string;
  l_details : option string;
  l_target_user_id : option Z;
  l_created_at : option string
}.

(** The tables, rows in insertion order, and the two AUTOINCREMENT
    counters SQLite keeps in [sqlite_sequence]. *)
Record Store : Type := mkStore {
  users : list User;
  balance_history : list BalanceHistoryEntry;
  orders : list Order;
  transactions : list Transaction;
  admin_logs : list AdminLogEntry;
  balance_history_seq : Z;
  admin_logs_seq : Z
}.

Definition empty_store : Store := mkStore [] [] [] [] [] 0 0.

(** ** The world a method runs in *)

(** A connection handle. *)
Definition handle : Type := nat.

Record World : Type := mkWorld {
  store : Store;                  (* the contents of the file, uncommitted writes included *)
  txn : option Store;             (* the contents at BEGIN, while a transaction is active *)
  open_connections : list handle; (* connections opened and not closed *)
  next_handle : handle;
  conn : option handle;           (* the local variable [conn] of the running method *)
  faults : list bool;             (* which of the coming calls to SQLite fail *)
  log : list string;              (* what [logger.error] has recorded *)
  slept : nat;                    (* seconds spent in [time.sleep] *)
  now : string                    (* CURRENT_TIMESTAMP *)
}.

Definition set_store (s : Store) (w : World) : World :=
  mkWorld s (txn w) (open_connections w) (next_handle w) (conn w) (faults w)
          (log w) (slept w) (now w).
Definition set_txn (t : option Store) (w : World) : World :=
  mkWorld (store w) t (open_connections w) (next_handle w) (conn w) (faults w)
          (log w) (slept w) (now w).
Definition set_open (o : list handle) (n : handle) (w : World) : World :=
  mkWorld (store w) (txn w) o n (conn w) (faults w) (log w) (slept w) (now w).
Definition set_conn (c : option handle) (w : World) : World :=
  mkWorld (store w) (txn w) (open_connections w) (next_handle w) c (faults w)
          (log w) (slept w) (now w).
Definition set_faults (f : list bool) (w : World) : World :=
  mkWorld (store w) (txn w) (open_connections w) (next_handle w) (conn w) f
          (log w) (slept w) (now w).
Definition set_log (l : list string) (w : World) : World :=
  mkWorld (store w) (txn w) (open_connections w) (next_handle w) (conn w)
          (faults w) l (slept w) (now w).
Definition set_slept (n : nat) (w : World) : World :=
  mkWorld (store w) (txn w) (open_connections w) (next_handle w) (conn w)
          (faults w) (log w) n (now w).

(** A world with the given store, nothing open, no fault ahead. *)
Definition quiet_world (s : Store) (clock : string) : World :=
  mkWorld s None [] O None [] [] O clock.

(** ** The monad of methods: state and exceptions

    A computation takes the world and gives a value or a raised exception,
    and the world it leaves; what was done before an exception stays done. *)
Definition M (A : Type) : Type := World -> result A * World.

Definition ret {A} (a : A) : M A := fun w => (Ok a, w).

Definition bind {A B} (m : M A) (k : A -> M B) : M B :=
  fun w =>
    match m w with
    | (Ok a, w') => k a w'
    | (Raise e, w') => (Raise e, w')
    end.

Definition raise {A} (e : Exception) : M A := fun w => (Raise e, w).

(** A pure Python expression that may raise. *)
Definition lift {A} (r : result A) : M A := fun w => (r, w).

Declare Scope py_scope.
Delimit Scope py_scope with py.
Notation "x <- m ;; k" := (bind m (fun x => k))
  (at level 61, m at next level, right associativity) : py_scope.
Notation "m ;; k" := (bind m (fun _ => k))
  (at level 61, right associativity) : py_scope.
Open Scope py_scope.

(** [try: m except Exception as e: h e] *)
Definition try_except {A} (m : M A) (h : Exception -> M A) : M A :=
  fun w =>
    match m w with
    | (Ok a, w') => (Ok a, w')
    | (Raise e, w') => h e w'
    end.

(** [try: m finally: f], where [f] runs on every way out of [m]. *)
Definition try_finally {A} (m : M A) (f : M unit) : M A :=
  fun w =>
    let '(r, w') := m w in
    match f w' with
    | (Ok _, w'') => (r, w'')
    | (Raise e, w'') => (Raise e, w'')
    end.

(** [if conn: m] *)
Definition if_conn (m : M unit) : M unit :=
  fun w => match conn w with Some _ => m w | None => (Ok tt, w) end.

(** [logger.error(msg)] *)
Definition logger_error (msg : string) : M unit :=
  fun w => (Ok tt, set_log (log w ++ [msg])%list w).

(** [time.sleep(1)] *)
Definition sleep_1 : M unit :=
  fun w => (Ok tt, set_slept (S (slept w)) w).

(** ** SQLite calls *)

Definition database_is_locked : Exception :=
  mkException OperationalError "database is locked".

(** Every call into SQLite first meets the fault oracle: when the next entry
    says so, the call raises [OperationalError] and does nothing else. *)
Definition sqlite_call {A} (m : M A) : M A :=
  fun w =>
    match faults w with
    | true :: fs => (Raise database_is_locked, set_faults fs w)
    | false :: fs => m (set_faults fs w)
    | [] => m w
    end.

(** [sqlite3.connect(DB_PATH, ...)] *)
Definition sqlite3_connect : M handle :=
  sqlite_call (fun w =>
    let h := next_handle w in
    (Ok h, set_open (open_connections w ++ [h])%list (S h) w)).

(** [conn.execute('PRAGMA ...')] *)
Definition execute_pragma : M unit := sqlite_call (ret tt).

(** [conn.close()]: a transaction still active on the connection is rolled
    back. *)
Definition close (h : handle) : M unit :=
  fun w =>
    let w1 := match txn w with
              | Some s => set_txn None (set_store s w)
              | None => w
              end in
    (Ok tt, set_open (filter (fun h' => negb (Nat.eqb h' h)) (open_connections w1))
                     (next_handle w1) w1).

(** [c.execute("BEGIN TRANSACTION")] *)
Definition execute_begin : M unit :=
  sqlite_call (fun w =>
    match txn w with
    | Some _ =>
        (Raise (mkException OperationalError
                  "cannot start a transaction within a transaction"), w)
    | None => (Ok tt, set_txn (Some (store w)) w)
    end).

(** [c.execute("COMMIT")] *)
Definition execute_commit : M unit :=
  sqlite_call (fun w =>
    match txn w with
    | Some _ => (Ok tt, set_txn None w)
    | None =>
        (Raise (mkException OperationalError
                  "cannot commit - no transaction is active"), w)
    end).

(** [c.execute("ROLLBACK")] *)
Definition execute_rollback : M unit :=
  sqlite_call (fun w =>
    match txn w with
    | Some s => (Ok tt, set_txn None (set_store s w))
    | None =>
        (Raise (mkException OperationalError
                  "cannot rollback - no transaction is active"), w)
    end).

(** A statement that reads: a function of the store. *)
Definition execute_query {A} (q : Store -> A) : M A :=
  sqlite_call (fun w => (Ok (q (store w)), w)).

(** A statement that writes: it changes the store or fails with the store as
    it was. *)
Definition execute_update {A} (u : string -> Store -> result (A * Store)) : M A :=
  sqlite_call (fun w =>
    match u (now w) (store w) with
    | Ok (a, s) => (Ok a, set_store s w)
    | Raise e => (Raise e, w)
    end).

(** ** The statements the methods execute

    Each is a function of the store, as SQLite evaluates it.  Foreign keys
    are not enforced: [PRAGMA foreign_keys = ON] is only given to the
    connection of [init_db], and the pragma does not outlive it. *)

Definition constraint_failed (what : string) : Exception :=
  mkException IntegrityError what.

Definition has_user_id (user_id : Z) (u : User) : bool := u_user_id u =? user_id.

(** [SELECT ... FROM users WHERE user_id = ?], then [fetchone()] *)
Definition select_user (user_id : Z) (s : Store) : option User :=
  find (has_user_id user_id) (users s).

(** [SELECT balance FROM users WHERE user_id = ?], then [fetchone()] *)
Definition select_balance (user_id : Z) (s : Store) : option value :=
  option_map u_balance (select_user user_id s).

Definition with_users (us : list User) (s : Store) : Store :=
  mkStore us (balance_history s) (orders s) (transactions s) (admin_logs s)
          (balance_history_seq s) (admin_logs_seq s).

Definition rowcount {A} (hit : A -> bool) (rows : list A) : nat :=
  List.length (filter hit rows).

(** [UPDATE users SET balance = ?, updated_at = CURRENT_TIMESTAMP WHERE user_id = ?] *)
Definition update_balance (balance : value) (user_id : Z)
    (clock : string) (s : Store) : result (nat * Store) :=
  let b := real_affinity balance in
  let hit := has_user_id user_id in
  if existsb hit (users s) && negb (check_ge_0 b)
  then Raise (constraint_failed "CHECK constraint failed: balance >= 0")
  else
    Ok (rowcount hit (users s),
        with_users
          (map (fun u =>
                  if hit u
                  then mkUser (u_user_id u) (u_username u) (u_first_name u) b
                              (u_joined_date u) (u_last_activity u) (u_status u)
                              (u_account_data u) (u_created_at u) (Some clock)
                  else u)
               (users s)) s).

Definition status_allowed (status : string) : bool :=
  (status =? "active")%string || (status =? "banned")%string ||
  (status =? "suspended")%string.

(** [UPDATE users SET status = '...', updated_at = CURRENT_TIMESTAMP WHERE user_id = ?] *)
Definition update_status (status : string) (user_id : Z)
    (clock : string) (s : Store) : result (nat * Store) :=
  let hit := has_user_id user_id in
  if existsb hit (users s) && negb (status_allowed status)
  then Raise (constraint_failed "CHECK constraint failed: status IN ('active', 'banned', 'suspended')")
  else
    Ok (rowcount hit (users s),
        with_users
          (map (fun u =>
                  if hit u
                  then mkUser (u_user_id u) (u_username u) (u_first_name u)
                              (u_balance u) (u_joined_date u) (u_last_activity u)
                              (Some status) (u_account_data u) (u_created_at u)
                              (Some clock)
                  else u)
               (users s)) s).

(** The next AUTOINCREMENT key: one more than the largest key ever used. *)
Definition next_key {A} (key : A -> Z) (rows : list A) (seq : Z) : Z :=
  fold_left Z.max (map key rows) seq + 1.

(** [INSERT INTO balance_history (user_id, old_balance, new_balance,
    change_amount, transaction_type, admin_id) VALUES (?, ?, ?, ?, ?, ?)] *)
Definition insert_balance_history (user_id : Z) (old_balance new_balance
    change_amount : value) (transaction_type : string) (admin_id : Z)
    (clock : string) (s : Store) : result (nat * Store) :=
  let old := real_affinity old_balance in
  let new := real_affinity new_balance in
  let change := real_affinity change_amount in
  if is_null old || is_null new || is_null change
  then Raise (constraint_failed "NOT NULL constraint failed: balance_history")
  else
    let k := next_key h_history_id (balance_history s) (balance_history_seq s) in
    Ok (1%nat,
        mkStore (users s)
                (balance_history s ++
                 [mkBalanceHistoryEntry k user_id old new change transaction_type
                                        (Some admin_id) (Some clock)])%list
                (orders s) (transactions s) (admin_logs s) k (admin_logs_seq s)).

(** [INSERT INTO admin_logs (admin_id, action, details, target_user_id)
    VALUES (?, '...', ?, ?)] *)
Definition insert_admin_log (admin_id : Z) (action details : string)
    (target_user_id : Z) (clock : string) (s : Store) : result (nat * Store) :=
  let k := next_key l_log_id (admin_logs s) (admin_logs_seq s) in
  Ok (1%nat,
      mkStore (users s) (balance_history s) (orders s) (transactions s)
              (admin_logs s ++
               [mkAdminLogEntry k admin_id action (Some details)
                                (Some target_user_id) (Some clock)])%list
              (balance_history_seq s) k).

Definition type_allowed (type : string) : bool :=
  (type =? "deposit")%string || (type =? "withdrawal")%string.

Definition tx_status_allowed (status : string) : bool :=
  (status =? "pending")%string || (status =? "completed")%string ||
  (status =? "rejected")%string || (status =? "expired")%string.

Definition has_tx_id (tx_id : string) (t : Transaction) : bool :=
  (t_tx_id t =? tx_id)%string.

(** [INSERT INTO transactions (tx_id, user_id, amount, type, payment_method,
    payment_subtype, payment_number, payment_details, original_amount,
    original_currency, exchange_rate, created_at, status)
    VALUES (?, ?, ?, ?, ?, ?, ?, ?, ?, ?, ?, CURRENT_TIMESTAMP, 'pending')] *)
Definition insert_transaction (tx_id : string) (user_id : Z) (amount : value)
    (type payment_method : string) (payment_subtype payment_number : option string)
    (payment_details : string) (original_amount : value)
    (original_currency : option string) (exchange_rate : value)
    (clock : string) (s : Store) : result (nat * Store) :=
  let a := real_affinity amount in
  if is_null a
  then Raise (constraint_failed "NOT NULL constraint failed: transactions.amount")
  else if negb (type_allowed type) || negb (tx_status_allowed "pending")
  then Raise (constraint_failed "CHECK constraint failed: transactions")
  else if existsb (has_tx_id tx_id) (transactions s)
  then Raise (constraint_failed "UNIQUE constraint failed: transactions.tx_id")
  else
    Ok (1%nat,
        mkStore (users s) (balance_history s) (orders s)
                (transactions s ++
                 [mkTransaction tx_id user_id a type payment_method
                                (Some payment_details) payment_subtype
                                payment_number (real_affinity original_amount)
                                original_currency (real_affinity exchange_rate)
                                clock None (Some "pending") None None])%list
                (admin_logs s) (balance_history_seq s) (admin_logs_seq s)).

(** [SELECT user_id FROM users WHERE username = ?], then [fetchone()]:
    text compares byte by byte. *)
Definition select_user_id_by_username (username : string) (s : Store) : option Z :=
  option_map u_user_id
    (find (fun u => match u_username u with
                    | Some n => (n =? username)%string
                    | None => false
                    end) (users s)).

(** [SELECT COUNT( * ) as count FROM users] *)
Definition count_users (s : Store) : Z := Z.of_nat (List.length (users s)).

Definition is_text (text : string) (cell : option string) : bool :=
  match cell with
  | Some t => (t =? text)%string
  | None => false
  end.

(** [SELECT COALESCE(SUM(amount), 0) as total FROM transactions
    WHERE status = 'completed'] *)
Definition select_total_volume (s : Store) : result value :=
  match sum (map t_amount
               (filter (fun t => is_text "completed" (t_status t)) (transactions s))) with
  | Ok v => Ok (coalesce_0 v)
  | Raise e => Raise e
  end.

(** The transaction statistics of [get_user_stats]: the number of rows of
    the user, and the sums of the completed deposits and withdrawals. *)
Definition select_tx_stats (user_id : Z) (s : Store) : result (Z * value * value) :=
  let rows := filter (fun t => t_user_id t =? user_id) (transactions s) in
  let completed type t :=
    if (t_type t =? type)%string && is_text "completed" (t_status t)
    then t_amount t else Integer 0 in
  match sum (map (completed "deposit") rows), sum (map (completed "withdrawal") rows) with
  | Ok d, Ok w => Ok (Z.of_nat (List.length rows), coalesce_0 d, coalesce_0 w)
  | Raise e, _ => Raise e
  | _, Raise e => Raise e
  end.

(** The order statistics of [get_user_stats]. *)
Definition select_order_stats (user_id : Z) (s : Store) : result (Z * value) :=
  let rows := filter (fun o => o_user_id o =? user_id) (orders s) in
  match sum (map (fun o => if is_text "completed" (o_status o)
                           then o_price o else Integer 0) rows) with
  | Ok t => Ok (Z.of_nat (List.length rows), coalesce_0 t)
  | Raise e => Raise e
  end.

(** A statement whose evaluation can itself fail. *)
Definition execute_query_result {A} (q : Store -> result A) : M A :=
  sqlite_call (fun w => (q (store w), w)).

(** ** The methods of [Database] *)

(** One attempt of [get_connection]: connect, then the two pragmas.  When a
    pragma fails the connection just opened is dropped as it is, without a
    call of [close]. *)
Definition connect_attempt : M handle :=
  h <- sqlite3_connect ;;
  execute_pragma ;;
  execute_pragma ;;
  ret h.

(** [get_connection]: [for i in range(5)], with [remaining = 5 - i].  An
    [OperationalError] is raised again on the last attempt ([i == 4]), after
    it is logged, and otherwise followed by a second of sleep and the next
    attempt. *)
Fixpoint get_connection_loop (remaining : nat) : M (option handle) :=
  match remaining with
  | O => ret None
  | S r =>
      fun w =>
        match connect_attempt w with
        | (Ok h, w') => (Ok (Some h), w')
        | (Raise e, w') =>
            match exc_class e with
            | OperationalError =>
                if Nat.eqb r 0
                then (logger_error
                        ("Failed to connect to database after 5 attempts: " ++ exc_str e) ;;
                      raise e) w'
                else (sleep_1 ;; get_connection_loop r) w'
            | _ => (Raise e, w')
            end
        end
  end.

Definition get_connection : M (option handle) := get_connection_loop 5.

(** [conn = None] *)
Definition conn_None : M unit := fun w => (Ok tt, set_conn None w).

(** [conn = self.get_connection()] followed by [c = conn.cursor()] *)
Definition open_cursor : M unit :=
  h <- get_connection ;;
  (fun w => (Ok tt, set_conn h w)) ;;
  match h with
  | Some _ => ret tt
  | None => raise (mkException AttributeError
                     "'NoneType' object has no attribute 'cursor'")
  end.

(** [conn.close()] on the local variable *)
Definition conn_close : M unit :=
  fun w => match conn w with Some h => close h w | None => (Ok tt, w) end.

(** [Decimal(str(x))] for a fetched value *)
Definition Decimal_of_fetched (v : value) : result Decimal :=
  Decimal_of_str (fetched_str v).

(** [ban_user] *)
Definition ban_user (user_id admin_id : Z) : M bool :=
  conn_None ;;
  try_finally
    (try_except
       (open_cursor ;;
        execute_begin ;;
        rowcount <- execute_update (update_status "banned" user_id) ;;
        if (0 <? rowcount)%nat then
          execute_update
            (insert_admin_log admin_id "ban_user"
               ("User " ++ int_str user_id ++ " was banned") user_id) ;;
          execute_commit ;;
          ret true
        else
          execute_rollback ;;
          ret false)
       (fun e =>
          if_conn execute_rollback ;;
          logger_error ("Error banning user: " ++ exc_str e) ;;
          ret false))
    (if_conn conn_close).

(** [unban_user] *)
Definition unban_user (user_id admin_id : Z) : M bool :=
  conn_None ;;
  try_finally
    (try_except
       (open_cursor ;;
        execute_begin ;;
        rowcount <- execute_update (update_status "active" user_id) ;;
        if (0 <? rowcount)%nat then
          execute_update
            (insert_admin_log admin_id "unban_user"
               ("User " ++ int_str user_id ++ " was unbanned") user_id) ;;
          execute_commit ;;
          ret true
        else
          execute_rollback ;;
          ret false)
       (fun e =>
          if_conn execute_rollback ;;
          logger_error ("Error unbanning user: " ++ exc_str e) ;;
          ret false))
    (if_conn conn_close).

(** [modify_user_balance] *)
Definition modify_user_balance (user_id : Z) (amount : Decimal) (admin_id : Z) : M bool :=
  conn_None ;;
  try_finally
    (try_except
       (open_cursor ;;
        execute_begin ;;
        result <- execute_query (select_balance user_id) ;;
        match result with
        | None =>
            execute_rollback ;;
            ret false
        | Some balance =>
            current_balance <- lift (Decimal_of_fetched balance) ;;
            new_balance <- lift (Decimal_add current_balance amount) ;;
            negative <- lift (Decimal_lt_0 new_balance) ;;
            if negative : bool then
              execute_rollback ;;
              ret false
            else
              execute_update
                (update_balance (Text (Decimal_str new_balance)) user_id) ;;
              credit <- lift (Decimal_gt_0 amount) ;;
              execute_update
                (insert_balance_history user_id
                   (Text (Decimal_str current_balance))
                   (Text (Decimal_str new_balance))
                   (Text (Decimal_str amount))
                   (if credit : bool then "credit" else "debit") admin_id) ;;
              execute_update
                (insert_admin_log admin_id "modify_balance"
                   ("Modified balance by " ++ Decimal_str amount) user_id) ;;
              execute_commit ;;
              ret true
        end)
       (fun e =>
          if_conn execute_rollback ;;
          logger_error ("Error modifying balance: " ++ exc_str e) ;;
          ret false))
    (if_conn conn_close).

(** [get_user_id_by_username]; [lstrip] removes every leading ['@']. *)
Fixpoint lstrip_at (s : string) : string :=
  match s with
  | String "@" s' => lstrip_at s'
  | _ => s
  end.

Definition get_user_id_by_username (username : string) : M (option Z) :=
  conn_None ;;
  try_finally
    (try_except
       (open_cursor ;;
        let username := lstrip_at username in
        execute_query (select_user_id_by_username username))
       (fun e =>
          logger_error ("Error getting user ID: " ++ exc_str e) ;;
          ret None))
    (if_conn conn_close).

(** [get_total_users] *)
Definition get_total_users_try : M Z :=
  open_cursor ;;
  execute_query count_users.

Definition get_total_users : M Z :=
  conn_None ;;
  try_finally
    (try_except get_total_users_try
       (fun e =>
          logger_error ("Error getting total users: " ++ exc_str e) ;;
          ret 0))
    (if_conn conn_close).

(** [get_total_transaction_volume]: the [try] has an [except] and no
    [finally]. *)
Definition get_total_transaction_volume_try : M Decimal :=
  open_cursor ;;
  total <- execute_query_result select_total_volume ;;
  lift (Decimal_of_fetched total).

Definition get_total_transaction_volume : M Decimal :=
  conn_None ;;
  try_except get_total_transaction_volume_try
    (fun e =>
       logger_error ("Error getting transaction volume: " ++ exc_str e) ;;
       ret (DFinite false 0 0)).

(** The keyword arguments [create_transaction] looks at.  [payment_details]
    is held as the text [json.dumps] gives for it. *)
Record kwargs : Type := mkKwargs {
  kw_payment_details : option string;
  kw_original_amount : option Decimal;
  kw_original_currency : option string;
  kw_exchange_rate : option Decimal
}.

Definition no_kwargs : kwargs := mkKwargs None None None None.

Definition get_default {A} (o : option A) (default : A) : A :=
  match o with
  | Some a => a
  | None => default
  end.

(** [create_transaction] *)
Definition create_transaction (tx_id : string) (user_id : Z) (amount : Decimal)
    (payment_method : string) (payment_subtype payment_number : option string)
    (kw : kwargs) : M bool :=
  conn_None ;;
  try_finally
    (try_except
       (open_cursor ;;
        execute_begin ;;
        execute_update
          (insert_transaction tx_id user_id (Text (Decimal_str amount)) "deposit"
             payment_method payment_subtype payment_number
             (get_default (kw_payment_details kw) "{}")
             (Text (Decimal_str (get_default (kw_original_amount kw) amount)))
             (Some (get_default (kw_original_currency kw) "SYP"))
             (Text (match kw_exchange_rate kw with
                    | Some r => Decimal_str r
                    | None => int_str 1
                    end))) ;;
        execute_commit ;;
        ret true)
       (fun e =>
          if_conn execute_rollback ;;
          logger_error ("Error creating transaction: " ++ exc_str e) ;;
          ret false))
    (if_conn conn_close).

(** *** The two reports that read dates

    [datetime.fromisoformat] and SQLite's [datetime] are taken as given. *)
Section Reports.

Variable datetime : Type.

(** [datetime.fromisoformat(text)], [None] when it raises [ValueError]. *)
Variable fromisoformat : string -> option datetime.

(** [datetime(last_activity) > datetime('now', '-1 day')] at the time
    [clock]. *)
Variable within_last_day : string -> string -> bool.

Record UserStats : Type := mkUserStats {
  s_user_id : Z;
  s_username : option string;
  s_first_name : option string;
  s_current_balance : Decimal;
  s_join_date : datetime;
  s_last_active : datetime;
  s_is_banned : bool;
  s_created_at : datetime;
  s_total_transactions : Z;
  s_total_deposits : Decimal;
  s_total_withdrawals : Decimal;
  s_total_orders : Z;
  s_total_spent : Decimal
}.

Definition parse_date (text : option string) : result datetime :=
  match text with
  | None =>
      Raise (mkException TypeError "fromisoformat: argument must be str")
  | Some t =>
      match fromisoformat t with
      | Some d => Ok d
      | None => Raise (mkException ValueError ("Invalid isoformat string: " ++ t))
      end
  end.

(** [get_user_stats] *)
Definition get_user_stats_try (user_id : Z) : M (option UserStats) :=
  open_cursor ;;
  user <- execute_query (select_user user_id) ;;
  match user with
  | None => ret None
  | Some user =>
      tx_stats <- execute_query_result (select_tx_stats user_id) ;;
      order_stats <- execute_query_result (select_order_stats user_id) ;;
      let '(total_tx, deposits, withdrawals) := tx_stats in
      let '(total_orders, total_spent) := order_stats in
      current_balance <- lift (Decimal_of_fetched (u_balance user)) ;;
      join_date <- lift (parse_date (Some (u_joined_date user))) ;;
      last_active <- lift (parse_date (Some (u_last_activity user))) ;;
      created_at <- lift (parse_date (u_created_at user)) ;;
      total_deposits <- lift (Decimal_of_fetched deposits) ;;
      total_withdrawals <- lift (Decimal_of_fetched withdrawals) ;;
      total_spent <- lift (Decimal_of_fetched total_spent) ;;
      ret (Some (mkUserStats user_id (u_username user) (u_first_name user)
                   current_balance join_date last_active
                   (is_text "banned" (u_status user)) created_at total_tx
                   total_deposits total_withdrawals total_orders total_spent))
  end.

Definition get_user_stats (user_id : Z) : M (option UserStats) :=
  conn_None ;;
  try_finally
    (try_except (get_user_stats_try user_id)
       (fun e =>
          logger_error ("Error getting user stats: " ++ exc_str e) ;;
          ret None))
    (if_conn conn_close).

(** [SELECT COUNT( * ) as count FROM users WHERE datetime(last_activity) >
    datetime('now', '-1 day') AND status = 'active'] *)
Definition count_active_users (clock : string) (s : Store) : Z :=
  Z.of_nat (List.length
    (filter (fun u => within_last_day clock (u_last_activity u) &&
                      is_text "active" (u_status u)) (users s))).

(** [get_active_users_last_24h] *)
Definition get_active_users_last_24h_try : M Z :=
  open_cursor ;;
  sqlite_call (fun w => (Ok (count_active_users (now w) (store w)), w)).

Definition get_active_users_last_24h : M Z :=
  conn_None ;;
  try_finally
    (try_except get_active_users_last_24h_try
       (fun e =>
          logger_error ("Error getting active users: " ++ exc_str e) ;;
          ret 0))
    (if_conn conn_close).

End Reports.

(** ** Observations the properties are stated with *)


(** The balance of an account as a method reads it:
    [Decimal(str(result['balance']))]. *)
Definition read_balance (user_id : Z) (s : Store) : option Decimal :=
  match select_balance user_id s with
  | Some balance =>
      match Decimal_of_fetched balance with
      | Ok d => Some d
      | Raise _ => None
      end
  | None => None
  end.







(** ** Definitions the proofs use *)

(** *** Digit strings *)

Fixpoint all_digits (s : string) : bool :=
  match s with
  | EmptyString => true
  | String a s' => is_digit a && all_digits s'
  end.





(** *** Invariants of a method

    A property of the world that every step of a method keeps holds when the
    method is left, whichever calls into SQLite fail on the way. *)

Definition preserves (I : World -> Prop) {A : Type} (m : M A) : Prop :=
  forall w, I w -> I (snd (m w)).

(** Every row of [transactions] in [s] is a row of [s0] or a deposit. *)
Definition only_deposits_added (s0 s : Store) : Prop :=
  forall t, In t (transactions s) -> In t (transactions s0) \/ t_type t = "deposit".

(** The same of the store and of the snapshot of the active transaction. *)
Definition deposits_invariant (s0 : Store) (w : World) : Prop :=
  only_deposits_added s0 (store w) /\
  match txn w with
  | Some snapshot => only_deposits_added s0 snapshot
  | None => True
  end.

(** *** Example data *)

Definition account_1001 (balance : value) : User :=
  mkUser 1001 (Some "Alice") (Some "Alice") balance "2024-01-01T00:00:00"
         "2024-06-01T00:00:00" (Some "active") None (Some "2024-01-01 00:00:00")
         (Some "2024-01-01 00:00:00").

Definition store_1001 (balance : value) : Store :=
  mkStore [account_1001 balance] [] [] [] [] 0 0.

Definition clock_0 : string := "2024-06-01 12:00:00".

(** 0.0 *)
Definition real_0 : value := Real (S754_zero false).

(** 50000.0 *)
Definition real_50000 : value := Real (S754_finite false 6871947673600000 (-37)).



(** A world in which every attempt to connect fails. *)
Definition locked_world : World :=
  set_faults [true; true; true; true; true] (quiet_world empty_store clock_0).

(** *** Invariants of the store

    A property of the committed contents: it holds of the store and of the
    snapshot a rollback would bring back. *)
Definition store_invariant (R : Store -> Prop) (w : World) : Prop :=
  R (store w) /\
  match txn w with
  | Some snapshot => R snapshot
  | None => True
  end.

(** A writing statement keeps [R] when the store it leaves has it. *)
Definition keeps (R : Store -> Prop) {A : Type}
    (u : string -> Store -> result (A * Store)) : Prop :=
  forall clock s a s', u clock s = Ok (a, s') -> R s -> R s'.

(** Every stored balance passes [CHECK (balance >= 0)]. *)
Definition balances_non_negative (s : Store) : Prop :=
  forall u, In u (users s) -> check_ge_0 (u_balance u) = true.

(** The accounts of [s] are those of [s0], in the same order, under the
    same handles. *)
Definition same_accounts (s0 s : Store) : Prop :=
  map (fun u => (u_user_id u, u_username u)) (users s) =
  map (fun u => (u_user_id u, u_username u)) (users s0).

(** The rows of [s0] in [balance_history], [admin_logs] and [transactions]
    are still there in [s], unchanged and in place, and [orders] is as it
    was. *)
Definition rows_only_added (s0 s : Store) : Prop :=
  (exists rows, balance_history s = (balance_history s0 ++ rows)%list) /\
  (exists rows, admin_logs s = (admin_logs s0 ++ rows)%list) /\
  (exists rows, transactions s = (transactions s0 ++ rows)%list) /\
  orders s = orders s0.

(** No two rows of [transactions] share their [tx_id]. *)
Definition unique_tx_ids (s : Store) : Prop :=
  NoDup (map t_tx_id (transactions s)).

(** *** Calls of the writing methods *)

Inductive Call : Type :=
| CallBanUser (user_id admin_id : Z)
| CallUnbanUser (user_id admin_id : Z)
| CallModifyUserBalance (user_id : Z) (amount : Decimal) (admin_id : Z)
| CallCreateTransaction (tx_id : string) (user_id : Z) (amount : Decimal)
    (payment_method : string) (payment_subtype payment_number : option string)
    (kw : kwargs).

Definition perform (c : Call) : M bool :=
  match c with
  | CallBanUser user_id admin_id => ban_user user_id admin_id
  | CallUnbanUser user_id admin_id => unban_user user_id admin_id
  | CallModifyUserBalance user_id amount admin_id =>
      modify_user_balance user_id amount admin_id
  | CallCreateTransaction tx_id user_id amount payment_method payment_subtype
      payment_number kw =>
      create_transaction tx_id user_id amount payment_method payment_subtype
        payment_number kw
  end.

(** One call after the other, each in the world the one before left,
    whatever it returned or raised. *)
Fixpoint perform_all (calls : list Call) (w : World) : World :=
  match calls with
  | [] => w
  | c :: rest => perform_all rest (snd (perform c w))
  end.

(** ** The process around the database

    [init_db] and the constructor of [Database] also act on the files next to
    the database and on the instance the class keeps. *)

(** What escapes from [init_db]: an exception of its [try] block, raised
    again; the [OSError] of a call of [os] or [shutil]; or the
    [UnboundLocalError] of a local variable that is read before it is
    bound. *)
Inductive Escaped : Type :=
| Raised (e : Exception)
| OSError (what : string)
| UnboundLocalError (name : string).

Inductive outcome (A : Type) : Type :=
| Returned (a : A)
| Escapes (x : Escaped).
Arguments Returned {A} a.
Arguments Escapes {A} x.

(** [str(e)] in the handler of [init_db], which sees the first two kinds. *)
Definition escaped_str (x : Escaped) : string :=
  match x with
  | Raised e => exc_str e
  | OSError what => what
  | UnboundLocalError name =>
      "cannot access local variable '" ++ name ++
      "' where it is not associated with a value"
  end.

Record Process : Type := mkProcess {
  world : World;
  database_file : bool;            (* os.path.exists(DB_PATH) *)
  backups : list string;           (* the files under backup/ *)
  info : list string;              (* what [logger.info] has recorded *)
  os_faults : list (option string);(* which of the coming calls of [os] and
                                      [shutil] fail, and with which message *)
  timestamp : string;              (* datetime.now().strftime("%Y%m%d_%H%M%S") *)
  instance : option bool           (* Database._instance and its [initialized] *)
}.

Definition set_world (w : World) (p : Process) : Process :=
  mkProcess w (database_file p) (backups p) (info p) (os_faults p) (timestamp p)
            (instance p).
Definition set_database_file (b : bool) (p : Process) : Process :=
  mkProcess (world p) b (backups p) (info p) (os_faults p) (timestamp p) (instance p).
Definition set_backups (l : list string) (p : Process) : Process :=
  mkProcess (world p) (database_file p) l (info p) (os_faults p) (timestamp p)
            (instance p).
Definition set_info (l : list string) (p : Process) : Process :=
  mkProcess (world p) (database_file p) (backups p) l (os_faults p) (timestamp p)
            (instance p).
Definition set_os_faults (f : list (option string)) (p : Process) : Process :=
  mkProcess (world p) (database_file p) (backups p) (info p) f (timestamp p)
            (instance p).
Definition set_instance (i : option bool) (p : Process) : Process :=
  mkProcess (world p) (database_file p) (backups p) (info p) (os_faults p)
            (timestamp p) i.

Definition P (A : Type) : Type := Process -> outcome A * Process.

Definition p_ret {A} (a : A) : P A := fun p => (Returned a, p).

Definition p_bind {A B} (m : P A) (k : A -> P B) : P B :=
  fun p =>
    match m p with
    | (Returned a, p') => k a p'
    | (Escapes x, p') => (Escapes x, p')
    end.

Declare Scope proc_scope.
Delimit Scope proc_scope with proc.
Notation "x <- m ;; k" := (p_bind m (fun x => k))
  (at level 61, m at next level, right associativity) : proc_scope.
Notation "m ;; k" := (p_bind m (fun _ => k))
  (at level 61, right associativity) : proc_scope.

(** A method of the database, run in the world of the process. *)
Definition in_world {A} (m : M A) : P A :=
  fun p =>
    let '(r, w) := m (world p) in
    (match r with Ok a => Returned a | Raise e => Escapes (Raised e) end,
     set_world w p).

(** A call of [os] or [shutil]: it fails when the next entry of the oracle
    says so, and has its effect otherwise. *)
Definition os_call (effect : Process -> Process) : P unit :=
  fun p =>
    match os_faults p with
    | Some what :: fs => (Escapes (OSError what), set_os_faults fs p)
    | None :: fs => (Returned tt, effect (set_os_faults fs p))
    | [] => (Returned tt, effect p)
    end.

(** [os.makedirs('backup', exist_ok=True)] *)
Definition os_makedirs_backup : P unit := os_call (fun p => p).

(** [os.path.exists(DB_PATH)] *)
Definition os_path_exists_DB_PATH : P bool := fun p => (Returned (database_file p), p).

(** [f'backup/diamond_store_{datetime.now().strftime("%Y%m%d_%H%M%S")}.db'] *)
Definition backup_path : P string :=
  fun p => (Returned ("backup/diamond_store_" ++ timestamp p ++ ".db"), p).

(** [shutil.copy2(DB_PATH, backup_path)]: a file of this name is written
    over. *)
Definition shutil_copy2 (path : string) : P unit :=
  os_call (fun p =>
    set_backups (if existsb (String.eqb path) (backups p) then backups p
                 else (backups p ++ [path])%list) p).

(** [logger.info(msg)] *)
Definition logger_info (msg : string) : P unit :=
  fun p => (Returned tt, set_info (info p ++ [msg])%list p).

(** [conn = self.get_connection()] and [c = conn.cursor()]; [sqlite3.connect]
    creates the file when it is not there. *)
Definition connect_in_process : P unit :=
  fun p =>
    let '(r, p') := in_world open_cursor p in
    (r, set_database_file
          (database_file p ||
           negb (Nat.eqb (next_handle (world p')) (next_handle (world p)))) p').

(** [c.executescript(...)]: every statement of the script is a PRAGMA or a
    CREATE ... IF NOT EXISTS, which leave the rows of the tables alone. *)
Definition executescript_schema : M unit := sqlite_call (ret tt).

(** [conn.commit()], on a connection that has begun no transaction. *)
Definition conn_commit : M unit := ret tt.

(** The [try] block of [init_db]. *)
Definition init_db_try : P unit :=
  (os_makedirs_backup ;;
   there <- os_path_exists_DB_PATH ;;
   (if there : bool then
      path <- backup_path ;;
      shutil_copy2 path ;;
      logger_info ("Database backed up to " ++ path)
    else p_ret tt) ;;
   connect_in_process ;;
   in_world executescript_schema ;;
   in_world conn_commit ;;
   logger_info "Database initialized successfully")%proc.

(** [init_db].  The local variable [conn] is not bound before the [try]
    block (the field [conn] of the world is [None] for it), the handler logs
    and raises again, and the [finally] reads [conn]. *)
Definition init_db : P unit :=
  fun p =>
    let '(r, p1) := init_db_try (set_world (set_conn None (world p)) p) in
    let p2 :=
      match r with
      | Returned _ => p1
      | Escapes x =>
          set_world
            (set_log (log (world p1) ++
                      [("Database initialization error: " ++ escaped_str x)%string])%list
                     (world p1)) p1
      end in
    match conn (world p2) with
    | None => (Escapes (UnboundLocalError "conn"), p2)
    | Some h => let '(_, w) := close h (world p2) in (r, set_world w p2)
    end.

(** [Database()]: [__new__] makes the instance once, [__init__] marks it
    initialized and then runs [init_db], once. *)
Definition Database_new : P unit :=
  fun p =>
    match instance p with
    | None => (Returned tt, set_instance (Some false) p)
    | Some _ => (Returned tt, p)
    end.

Definition Database_init : P unit :=
  fun p =>
    match instance p with
    | Some false => init_db (set_instance (Some true) p)
    | _ => (Returned tt, p)
    end.

Definition Database : P unit := (Database_new ;; Database_init)%proc.

(** A process that has not made the instance yet, with the database file
    there or not, and no fault ahead. *)
Definition fresh_process (s : Store) (there : bool) : Process :=
  mkProcess (quiet_world s clock_0) there [] [] [] "20240601_120000" None.

(** ** Python text

    A [str] is held in UTF-8, which is how the file .env holds it.  Joining,
    splitting at a comma, [startswith] and the line breaks work on the
    bytes as they do on the characters; [strip] has to know the white space
    of Unicode. *)

Module Text.

Definition code (a : ascii) : nat := nat_of_ascii a.

Definition LF : ascii := "010"%char.
Definition CR : ascii := "013"%char.

(** The white space [str.isspace] accepts, by the length of its encoding:
    U+0009 to U+000D, U+001C to U+0020; U+0085 and U+00A0; U+1680, U+2000 to
    U+200A, U+2028, U+2029, U+202F, U+205F and U+3000. *)
Definition space1 (a : ascii) : bool :=
  ((9 <=? code a) && (code a <=? 13) || (28 <=? code a) && (code a <=? 32))%nat.

Definition space2 (a b : ascii) : bool :=
  ((code a =? 194) && ((code b =? 133) || (code b =? 160)))%nat.

Definition space3 (a b c : ascii) : bool :=
  ((code a =? 225) && (code b =? 154) && (code c =? 128) ||
   (code a =? 226) && (code b =? 128) &&
     ((128 <=? code c) && (code c <=? 138) || (code c =? 168) || (code c =? 169) ||
      (code c =? 175)) ||
   (code a =? 226) && (code b =? 129) && (code c =? 159) ||
   (code a =? 227) && (code b =? 128) && (code c =? 128))%nat.

(** The text after the white space at its head, the white space being
    recognized by [p1], [p2] and [p3]. *)
Fixpoint skip (p1 : ascii -> bool) (p2 : ascii -> ascii -> bool)
    (p3 : ascii -> ascii -> ascii -> bool) (s : string) : string :=
  match s with
  | String a s1 =>
      if p1 a then skip p1 p2 p3 s1
      else
        match s1 with
        | String b s2 =>
            if p2 a b then skip p1 p2 p3 s2
            else
              match s2 with
              | String c s3 => if p3 a b c then skip p1 p2 p3 s3 else s
              | EmptyString => s
              end
        | EmptyString => s
        end
  | EmptyString => s
  end.

Definition reverse (s : string) : string :=
  string_of_list_ascii (rev (list_ascii_of_string s)).

(** [s.lstrip()] *)
Definition lstrip (s : string) : string := skip space1 space2 space3 s.

(** [s.rstrip()]: the same from the end, where the bytes of a character
    come in reverse. *)
Definition rstrip (s : string) : string :=
  reverse (skip space1 (fun b a => space2 a b) (fun c b a => space3 a b c) (reverse s)).

(** [s.strip()] *)
Definition strip (s : string) : string := rstrip (lstrip s).

Definition is_empty (s : string) : bool :=
  match s with EmptyString => true | _ => false end.

(** [s.split(sep)] for a separator of one character: the pieces between
    the separators, of which there is always one. *)
Fixpoint split (sep : ascii) (s : string) : list string :=
  match s with
  | EmptyString => [EmptyString]
  | String a s' =>
      match split sep s' with
      | piece :: rest =>
          if (a =? sep)%char then EmptyString :: piece :: rest
          else String a piece :: rest
      | [] => [String a EmptyString]
      end
  end.

(** [sep.join(pieces)] *)
Definition join (sep : string) (pieces : list string) : string :=
  String.concat sep pieces.

(** [s.startswith(prefix)] *)
Definition startswith (prefix s : string) : bool := String.prefix prefix s.

(** What reading in text mode makes of the line breaks: "\r\n" and "\r"
    become "\n". *)
Fixpoint universal_newlines (s : string) : string :=
  match s with
  | String a s1 =>
      if (a =? CR)%char then
        match s1 with
        | String b s2 =>
            if (b =? LF)%char then String LF (universal_newlines s2)
            else String LF (universal_newlines s1)
        | EmptyString => String LF EmptyString
        end
      else String a (universal_newlines s1)
  | EmptyString => EmptyString
  end.

(** The lines of a text, each with its line break; the last one may lack
    it. *)
Fixpoint lines_of (s : string) : list string :=
  match s with
  | EmptyString => []
  | String a s' =>
      if (a =? LF)%char then String a EmptyString :: lines_of s'
      else
        match lines_of s' with
        | line :: rest => String a line :: rest
        | [] => [String a EmptyString]
        end
  end.

(** [f.readlines()] of a file opened for reading as text *)
Definition readlines (text : string) : list string :=
  lines_of (universal_newlines text).

(** What [f.writelines(lines)] leaves in a file opened for writing *)
Definition writelines (lines : list string) : string := String.concat "" lines.

Definition contains (a : ascii) (s : string) : bool :=
  existsb (Ascii.eqb a) (list_ascii_of_string s).

End Text.

(** ** The configuration: [config.py] *)

(** The attributes [_load_env_vars] gives the instance of [Config]. *)
Record Config : Type := mkConfig {
  BOT_TOKEN : option string;
  BOT_USERNAME : string;
  SUPPORT_USERNAME : option string;
  OWNER_ID : Z;
  ADMINS : list Z;
  FORCED_CHANNEL_ID : Z;
  FORCED_CHANNEL_USERNAME : string;
  RECHARGE_GROUP_ID : Z;
  PURCHASE_GROUP_ID : Z;
  USD_RATE : Decimal;
  USDT_RATE : Decimal;
  SYRIATEL_CASH_NUMBERS : list string;
  USDT_WALLET_COINEX : option string;
  USDT_WALLET_CWALLET : option string;
  USD_WALLET_PAYEER : option string;
  USDT_WALLET_PEB20 : option string;
  MTN_CASH_NUMBERS : list string;
  SHAMCASH_NUMBERS : list string;
  DB_PATH : string
}.

(** What the methods of [Config] act on besides the attributes: the file
    .env of the working directory, the environment of the process and what
    [print] has written. *)
Record Env : Type := mkEnv {
  dotenv : option string;                  (* the text of .env, when the file exists *)
  environ : list (string * string);        (* os.environ *)
  printed : list string;
  open_faults : list (option string)       (* which of the coming calls of [open]
                                              fail, and with which message *)
}.

Definition set_dotenv (d : option string) (env : Env) : Env :=
  mkEnv d (environ env) (printed env) (open_faults env).
Definition set_environ (e : list (string * string)) (env : Env) : Env :=
  mkEnv (dotenv env) e (printed env) (open_faults env).
Definition set_open_faults (f : list (option string)) (env : Env) : Env :=
  mkEnv (dotenv env) (environ env) (printed env) f.

(** [print(msg)] *)
Definition print (msg : string) (env : Env) : Env :=
  mkEnv (dotenv env) (environ env) (printed env ++ [msg])%list (open_faults env).

(** [os.getenv(name)] and [os.getenv(name, default)] *)
Definition getenv (name : string) (env : Env) : option string :=
  option_map snd (find (fun kv => (fst kv =? name)%string) (environ env)).

Definition getenv_default (name default : string) (env : Env) : string :=
  match getenv name env with
  | Some value => value
  | None => default
  end.

(** [os.environ[name] = value]: a NUL in either text and a ['='] in the
    name are a [ValueError], an empty name is an [OSError]. *)
Definition environ_setitem (name value : string) (env : Env) : outcome unit * Env :=
  if Text.contains "000"%char name || Text.contains "000"%char value
  then (Escapes (Raised (mkException ValueError "embedded null byte")), env)
  else if Text.contains "="%char name
  then (Escapes (Raised (mkException ValueError "illegal environment variable name")), env)
  else if Text.is_empty name
  then (Escapes (OSError "[Errno 22] Invalid argument"), env)
  else (Returned tt,
        set_environ ((name, value) ::
                     filter (fun kv => negb (fst kv =? name)%string) (environ env)) env).

(** [open(dotenv_path, mode, encoding='utf-8')]: it fails when the next
    entry of the oracle says so. *)
Definition open_dotenv (env : Env) : outcome unit * Env :=
  match open_faults env with
  | Some what :: fs => (Escapes (OSError what), set_open_faults fs env)
  | None :: fs => (Returned tt, set_open_faults fs env)
  | [] => (Returned tt, env)
  end.

(** The text of the line that assigns [new_value] to [variable_name]. *)
Definition assignment (variable_name new_value : string) : string :=
  variable_name ++ "=" ++ new_value ++ String Text.LF "".

(** One turn of the loop of [_update_env_variable] over the lines. *)
Definition update_line (variable_name new_value : string)
    (acc : list string * bool) (line : string) : list string * bool :=
  let '(new_lines, updated) := acc in
  if negb (Text.is_empty (Text.strip line)) && negb (Text.startswith "#" line) then
    if Text.startswith (variable_name ++ "=") line
    then ((new_lines ++ [assignment variable_name new_value])%list, true)
    else ((new_lines ++ [line])%list, updated)
  else ((new_lines ++ [line])%list, updated).

(** The lines [_update_env_variable] writes back. *)
Definition updated_lines (variable_name new_value : string) (lines : list string)
    : list string :=
  let '(new_lines, updated) :=
    fold_left (update_line variable_name new_value) lines ([], false) in
  if updated then new_lines
  else (new_lines ++ [assignment variable_name new_value])%list.

(** The [try] block of [_update_env_variable]. *)
Definition _update_env_variable_try (variable_name new_value : string)
    (env : Env) : outcome bool * Env :=
  match dotenv env with
  | None =>
      match open_dotenv env with
      | (Escapes x, env1) => (Escapes x, env1)
      | (Returned _, env1) =>
          let env2 := set_dotenv (Some (assignment variable_name new_value)) env1 in
          match environ_setitem variable_name new_value env2 with
          | (Escapes x, env3) => (Escapes x, env3)
          | (Returned _, env3) => (Returned true, env3)
          end
      end
  | Some text =>
      match open_dotenv env with
      | (Escapes x, env1) => (Escapes x, env1)
      | (Returned _, env1) =>
          let lines := Text.readlines text in
          let new_lines := updated_lines variable_name new_value lines in
          match open_dotenv env1 with
          | (Escapes x, env2) => (Escapes x, env2)
          | (Returned _, env2) =>
              let env3 := set_dotenv (Some (Text.writelines new_lines)) env2 in
              match environ_setitem variable_name new_value env3 with
              | (Escapes x, env4) => (Escapes x, env4)
              | (Returned _, env4) => (Returned true, env4)
              end
          end
      end
  end.

(** [_update_env_variable]: any exception is printed and answered with
    [False]. *)
Definition _update_env_variable (variable_name new_value : string)
    (env : Env) : bool * Env :=
  match _update_env_variable_try variable_name new_value env with
  | (Returned b, env1) => (b, env1)
  | (Escapes x, env1) =>
      (false,
       print ("Error updating " ++ variable_name ++ " in .env: " ++ escaped_str x) env1)
  end.

(** [[num.strip() for num in numbers if num.strip()]] *)
Definition stripped_numbers (numbers : list string) : list string :=
  filter (fun num => negb (Text.is_empty num)) (map Text.strip numbers).

(** [update_syriatel_numbers]: the list is cleaned, written and kept. *)
Definition update_syriatel_numbers (numbers : list string) (c : Config) (env : Env)
    : bool * Config * Env :=
  let numbers := stripped_numbers numbers in
  let numbers_str := Text.join "," numbers in
  let '(ok, env1) := _update_env_variable "SYRIATEL_CASH_NUMBERS" numbers_str env in
  if ok then
    (true,
     mkConfig (BOT_TOKEN c) (BOT_USERNAME c) (SUPPORT_USERNAME c) (OWNER_ID c) (ADMINS c)
       (FORCED_CHANNEL_ID c) (FORCED_CHANNEL_USERNAME c) (RECHARGE_GROUP_ID c)
       (PURCHASE_GROUP_ID c) (USD_RATE c) (USDT_RATE c) numbers
       (USDT_WALLET_COINEX c) (USDT_WALLET_CWALLET c) (USD_WALLET_PAYEER c)
       (USDT_WALLET_PEB20 c) (MTN_CASH_NUMBERS c) (SHAMCASH_NUMBERS c) (DB_PATH c),
     env1)
  else (false, c, env1).

(** [update_mtn_numbers]: the cleaned list is written, the list as it was
    given is kept. *)
Definition update_mtn_numbers (numbers : list string) (c : Config) (env : Env)
    : bool * Config * Env :=
  let numbers_str := Text.join "," (stripped_numbers numbers) in
  let '(ok, env1) := _update_env_variable "MTN_CASH_NUMBERS" numbers_str env in
  if ok then
    (true,
     mkConfig (BOT_TOKEN c) (BOT_USERNAME c) (SUPPORT_USERNAME c) (OWNER_ID c) (ADMINS c)
       (FORCED_CHANNEL_ID c) (FORCED_CHANNEL_USERNAME c) (RECHARGE_GROUP_ID c)
       (PURCHASE_GROUP_ID c) (USD_RATE c) (USDT_RATE c) (SYRIATEL_CASH_NUMBERS c)
       (USDT_WALLET_COINEX c) (USDT_WALLET_CWALLET c) (USD_WALLET_PAYEER c)
       (USDT_WALLET_PEB20 c) numbers (SHAMCASH_NUMBERS c) (DB_PATH c),
     env1)
  else (false, c, env1).

(** [update_shamcash_numbers], likewise. *)
Definition update_shamcash_numbers (numbers : list string) (c : Config) (env : Env)
    : bool * Config * Env :=
  let numbers_str := Text.join "," (stripped_numbers numbers) in
  let '(ok, env1) := _update_env_variable "SHAMCASH_NUMBERS" numbers_str env in
  if ok then
    (true,
     mkConfig (BOT_TOKEN c) (BOT_USERNAME c) (SUPPORT_USERNAME c) (OWNER_ID c) (ADMINS c)
       (FORCED_CHANNEL_ID c) (FORCED_CHANNEL_USERNAME c) (RECHARGE_GROUP_ID c)
       (PURCHASE_GROUP_ID c) (USD_RATE c) (USDT_RATE c) (SYRIATEL_CASH_NUMBERS c)
       (USDT_WALLET_COINEX c) (USDT_WALLET_CWALLET c) (USD_WALLET_PAYEER c)
       (USDT_WALLET_PEB20 c) (MTN_CASH_NUMBERS c) numbers (DB_PATH c),
     env1)
  else (false, c, env1).

(** [setattr(self, env_var, wallets[key])] for the four wallets *)
Definition set_USDT_WALLET_COINEX (value : string) (c : Config) : Config :=
  mkConfig (BOT_TOKEN c) (BOT_USERNAME c) (SUPPORT_USERNAME c) (OWNER_ID c) (ADMINS c)
    (FORCED_CHANNEL_ID c) (FORCED_CHANNEL_USERNAME c) (RECHARGE_GROUP_ID c)
    (PURCHASE_GROUP_ID c) (USD_RATE c) (USDT_RATE c) (SYRIATEL_CASH_NUMBERS c)
    (Some value) (USDT_WALLET_CWALLET c) (USD_WALLET_PAYEER c)
    (USDT_WALLET_PEB20 c) (MTN_CASH_NUMBERS c) (SHAMCASH_NUMBERS c) (DB_PATH c).
Definition set_USDT_WALLET_CWALLET (value : string) (c : Config) : Config :=
  mkConfig (BOT_TOKEN c) (BOT_USERNAME c) (SUPPORT_USERNAME c) (OWNER_ID c) (ADMINS c)
    (FORCED_CHANNEL_ID c) (FORCED_CHANNEL_USERNAME c) (RECHARGE_GROUP_ID c)
    (PURCHASE_GROUP_ID c) (USD_RATE c) (USDT_RATE c) (SYRIATEL_CASH_NUMBERS c)
    (USDT_WALLET_COINEX c) (Some value) (USD_WALLET_PAYEER c)
    (USDT_WALLET_PEB20 c) (MTN_CASH_NUMBERS c) (SHAMCASH_NUMBERS c) (DB_PATH c).
Definition set_USD_WALLET_PAYEER (value : string) (c : Config) : Config :=
  mkConfig (BOT_TOKEN c) (BOT_USERNAME c) (SUPPORT_USERNAME c) (OWNER_ID c) (ADMINS c)
    (FORCED_CHANNEL_ID c) (FORCED_CHANNEL_USERNAME c) (RECHARGE_GROUP_ID c)
    (PURCHASE_GROUP_ID c) (USD_RATE c) (USDT_RATE c) (SYRIATEL_CASH_NUMBERS c)
    (USDT_WALLET_COINEX c) (USDT_WALLET_CWALLET c) (Some value)
    (USDT_WALLET_PEB20 c) (MTN_CASH_NUMBERS c) (SHAMCASH_NUMBERS c) (DB_PATH c).
Definition set_USDT_WALLET_PEB20 (value : string) (c : Config) : Config :=
  mkConfig (BOT_TOKEN c) (BOT_USERNAME c) (SUPPORT_USERNAME c) (OWNER_ID c) (ADMINS c)
    (FORCED_CHANNEL_ID c) (FORCED_CHANNEL_USERNAME c) (RECHARGE_GROUP_ID c)
    (PURCHASE_GROUP_ID c) (USD_RATE c) (USDT_RATE c) (SYRIATEL_CASH_NUMBERS c)
    (USDT_WALLET_COINEX c) (USDT_WALLET_CWALLET c) (USD_WALLET_PAYEER c)
    (Some value) (MTN_CASH_NUMBERS c) (SHAMCASH_NUMBERS c) (DB_PATH c).

(** One turn of the loop of [update_usdt_wallets]; [wallets] is the
    dictionary, looked up by key. *)
Definition update_wallet (wallets : string -> option string) (env_var key : string)
    (setattr : string -> Config -> Config) (acc : bool * Config * Env)
    : bool * Config * Env :=
  let '(success, c, env) := acc in
  match wallets key with
  | Some value =>
      let '(ok, env1) := _update_env_variable env_var value env in
      if ok then (success, setattr value c, env1) else (false, c, env1)
  | None => acc
  end.

(** [update_usdt_wallets]: the four wallets in the order of the dictionary
    [updates]; a wallet that cannot be written makes the answer [False] and
    the loop goes on. *)
Definition update_usdt_wallets (wallets : string -> option string) (c : Config)
    (env : Env) : bool * Config * Env :=
  update_wallet wallets "USDT_WALLET_PEB20" "peb20" set_USDT_WALLET_PEB20
    (update_wallet wallets "USD_WALLET_PAYEER" "payeer" set_USD_WALLET_PAYEER
       (update_wallet wallets "USDT_WALLET_CWALLET" "cwallet" set_USDT_WALLET_CWALLET
          (update_wallet wallets "USDT_WALLET_COINEX" "coinex" set_USDT_WALLET_COINEX
             (true, c, env)))).

(** The numbers [_load_env_vars] reads: blank entries are dropped for
    Syriatel and kept for MTN and Sham Cash. *)
Definition load_syriatel_numbers (env : Env) : list string :=
  stripped_numbers (Text.split "," (getenv_default "SYRIATEL_CASH_NUMBERS" "" env)).

Definition load_numbers (name : string) (env : Env) : list string :=
  map Text.strip (Text.split "," (getenv_default name "" env)).

Section Conversions.

(** [int(text)] and [Decimal(text)] are taken as given. *)
Variable int_ : string -> result Z.
Variable Decimal_ : string -> result Decimal.

(** [[int(x) for x in pieces]] *)
Fixpoint ints (pieces : list string) : result (list Z) :=
  match pieces with
  | [] => Ok []
  | x :: rest =>
      match int_ x with
      | Raise e => Raise e
      | Ok n =>
          match ints rest with
          | Raise e => Raise e
          | Ok ns => Ok (n :: ns)
          end
      end
  end.

(** [_load_env_vars]: the attributes are assigned one after the other; when
    a conversion raises, those assigned before it keep their new values. *)
Definition _load_env_vars (env : Env) (c : Config) : result unit * Config :=
  let c1 :=
    mkConfig (getenv "BOT_TOKEN" env)
      (getenv_default "BOT_USERNAME" "diamond_store_sy_bot" env)
      (getenv "SUPPORT_USERNAME" env) (OWNER_ID c) (ADMINS c)
      (FORCED_CHANNEL_ID c) (FORCED_CHANNEL_USERNAME c) (RECHARGE_GROUP_ID c)
      (PURCHASE_GROUP_ID c) (USD_RATE c) (USDT_RATE c) (SYRIATEL_CASH_NUMBERS c)
      (USDT_WALLET_COINEX c) (USDT_WALLET_CWALLET c) (USD_WALLET_PAYEER c)
      (USDT_WALLET_PEB20 c) (MTN_CASH_NUMBERS c) (SHAMCASH_NUMBERS c) (DB_PATH c) in
  match int_ (getenv_default "OWNER_ID" "1631827811" env) with
  | Raise e => (Raise e, c1)
  | Ok owner_id =>
  let c2 :=
    mkConfig (BOT_TOKEN c1) (BOT_USERNAME c1) (SUPPORT_USERNAME c1) owner_id (ADMINS c1)
      (FORCED_CHANNEL_ID c1) (FORCED_CHANNEL_USERNAME c1) (RECHARGE_GROUP_ID c1)
      (PURCHASE_GROUP_ID c1) (USD_RATE c1) (USDT_RATE c1) (SYRIATEL_CASH_NUMBERS c1)
      (USDT_WALLET_COINEX c1) (USDT_WALLET_CWALLET c1) (USD_WALLET_PAYEER c1)
      (USDT_WALLET_PEB20 c1) (MTN_CASH_NUMBERS c1) (SHAMCASH_NUMBERS c1) (DB_PATH c1) in
  match ints (Text.split "," (getenv_default "ADMINS" (int_str owner_id) env)) with
  | Raise e => (Raise e, c2)
  | Ok admins =>
  let c3 :=
    mkConfig (BOT_TOKEN c2) (BOT_USERNAME c2) (SUPPORT_USERNAME c2) (OWNER_ID c2) admins
      (FORCED_CHANNEL_ID c2) (FORCED_CHANNEL_USERNAME c2) (RECHARGE_GROUP_ID c2)
      (PURCHASE_GROUP_ID c2) (USD_RATE c2) (USDT_RATE c2) (SYRIATEL_CASH_NUMBERS c2)
      (USDT_WALLET_COINEX c2) (USDT_WALLET_CWALLET c2) (USD_WALLET_PAYEER c2)
      (USDT_WALLET_PEB20 c2) (MTN_CASH_NUMBERS c2) (SHAMCASH_NUMBERS c2) (DB_PATH c2) in
  match int_ (getenv_default "FORCED_CHANNEL_ID" "-1001234567890" env) with
  | Raise e => (Raise e, c3)
  | Ok forced_channel_id =>
  let c4 :=
    mkConfig (BOT_TOKEN c3) (BOT_USERNAME c3) (SUPPORT_USERNAME c3) (OWNER_ID c3) (ADMINS c3)
      forced_channel_id (getenv_default "FORCED_CHANNEL_USERNAME" "example_channel" env)
      (RECHARGE_GROUP_ID c3) (PURCHASE_GROUP_ID c3) (USD_RATE c3) (USDT_RATE c3)
      (SYRIATEL_CASH_NUMBERS c3) (USDT_WALLET_COINEX c3) (USDT_WALLET_CWALLET c3)
      (USD_WALLET_PAYEER c3) (USDT_WALLET_PEB20 c3) (MTN_CASH_NUMBERS c3)
      (SHAMCASH_NUMBERS c3) (DB_PATH c3) in
  match int_ (getenv_default "RECHARGE_GROUP_ID" "-1001234567890" env) with
  | Raise e => (Raise e, c4)
  | Ok recharge_group_id =>
  let c5 :=
    mkConfig (BOT_TOKEN c4) (BOT_USERNAME c4) (SUPPORT_USERNAME c4) (OWNER_ID c4) (ADMINS c4)
      (FORCED_CHANNEL_ID c4) (FORCED_CHANNEL_USERNAME c4) recharge_group_id
      (PURCHASE_GROUP_ID c4) (USD_RATE c4) (USDT_RATE c4) (SYRIATEL_CASH_NUMBERS c4)
      (USDT_WALLET_COINEX c4) (USDT_WALLET_CWALLET c4) (USD_WALLET_PAYEER c4)
      (USDT_WALLET_PEB20 c4) (MTN_CASH_NUMBERS c4) (SHAMCASH_NUMBERS c4) (DB_PATH c4) in
  match int_ (getenv_default "PURCHASE_GROUP_ID" "-1001234567890" env) with
  | Raise e => (Raise e, c5)
  | Ok purchase_group_id =>
  let c6 :=
    mkConfig (BOT_TOKEN c5) (BOT_USERNAME c5) (SUPPORT_USERNAME c5) (OWNER_ID c5) (ADMINS c5)
      (FORCED_CHANNEL_ID c5) (FORCED_CHANNEL_USERNAME c5) (RECHARGE_GROUP_ID c5)
      purchase_group_id (USD_RATE c5) (USDT_RATE c5) (SYRIATEL_CASH_NUMBERS c5)
      (USDT_WALLET_COINEX c5) (USDT_WALLET_CWALLET c5) (USD_WALLET_PAYEER c5)
      (USDT_WALLET_PEB20 c5) (MTN_CASH_NUMBERS c5) (SHAMCASH_NUMBERS c5) (DB_PATH c5) in
  match Decimal_ (getenv_default "USD_RATE" "10000" env) with
  | Raise e => (Raise e, c6)
  | Ok usd_rate =>
  let c7 :=
    mkConfig (BOT_TOKEN c6) (BOT_USERNAME c6) (SUPPORT_USERNAME c6) (OWNER_ID c6) (ADMINS c6)
      (FORCED_CHANNEL_ID c6) (FORCED_CHANNEL_USERNAME c6) (RECHARGE_GROUP_ID c6)
      (PURCHASE_GROUP_ID c6) usd_rate (USDT_RATE c6) (SYRIATEL_CASH_NUMBERS c6)
      (USDT_WALLET_COINEX c6) (USDT_WALLET_CWALLET c6) (USD_WALLET_PAYEER c6)
      (USDT_WALLET_PEB20 c6) (MTN_CASH_NUMBERS c6) (SHAMCASH_NUMBERS c6) (DB_PATH c6) in
  match Decimal_ (getenv_default "USDT_RATE" "10000" env) with
  | Raise e => (Raise e, c7)
  | Ok usdt_rate =>
      (Ok tt,
       mkConfig (BOT_TOKEN c7) (BOT_USERNAME c7) (SUPPORT_USERNAME c7) (OWNER_ID c7)
         (ADMINS c7) (FORCED_CHANNEL_ID c7) (FORCED_CHANNEL_USERNAME c7)
         (RECHARGE_GROUP_ID c7) (PURCHASE_GROUP_ID c7) (USD_RATE c7) usdt_rate
         (load_syriatel_numbers env)
         (getenv "USDT_WALLET_COINEX" env) (getenv "USDT_WALLET_CWALLET" env)
         (getenv "USD_WALLET_PAYEER" env) (getenv "USDT_WALLET_PEB20" env)
         (load_numbers "MTN_CASH_NUMBERS" env) (load_numbers "SHAMCASH_NUMBERS" env)
         "diamond_store.db")
  end end end end end end end.

(** [update_usd_rate]: the handler catches [ValueError] and [TypeError]
    only. *)
Definition update_usd_rate (new_rate : string) (c : Config) (env : Env)
    : outcome bool * Config * Env :=
  let '(ok, env1) := _update_env_variable "USD_RATE" new_rate env in
  if ok then
    match Decimal_ new_rate with
    | Ok rate =>
        (Returned true,
         mkConfig (BOT_TOKEN c) (BOT_USERNAME c) (SUPPORT_USERNAME c) (OWNER_ID c)
           (ADMINS c) (FORCED_CHANNEL_ID c) (FORCED_CHANNEL_USERNAME c)
           (RECHARGE_GROUP_ID c) (PURCHASE_GROUP_ID c) rate (USDT_RATE c)
           (SYRIATEL_CASH_NUMBERS c) (USDT_WALLET_COINEX c) (USDT_WALLET_CWALLET c)
           (USD_WALLET_PAYEER c) (USDT_WALLET_PEB20 c) (MTN_CASH_NUMBERS c)
           (SHAMCASH_NUMBERS c) (DB_PATH c),
         env1)
    | Raise e =>
        match exc_class e with
        | ValueError | TypeError =>
            (Returned false, c, print ("Error updating USD rate: " ++ exc_str e) env1)
        | _ => (Escapes (Raised e), c, env1)
        end
    end
  else (Returned false, c, env1).

(** [update_usdt_rate] *)
Definition update_usdt_rate (new_rate : string) (c : Config) (env : Env)
    : outcome bool * Config * Env :=
  let '(ok, env1) := _update_env_variable "USDT_RATE" new_rate env in
  if ok then
    match Decimal_ new_rate with
    | Ok rate =>
        (Returned true,
         mkConfig (BOT_TOKEN c) (BOT_USERNAME c) (SUPPORT_USERNAME c) (OWNER_ID c)
           (ADMINS c) (FORCED_CHANNEL_ID c) (FORCED_CHANNEL_USERNAME c)
           (RECHARGE_GROUP_ID c) (PURCHASE_GROUP_ID c) (USD_RATE c) rate
           (SYRIATEL_CASH_NUMBERS c) (USDT_WALLET_COINEX c) (USDT_WALLET_CWALLET c)
           (USD_WALLET_PAYEER c) (USDT_WALLET_PEB20 c) (MTN_CASH_NUMBERS c)
           (SHAMCASH_NUMBERS c) (DB_PATH c),
         env1)
    | Raise e =>
        match exc_class e with
        | ValueError | TypeError =>
            (Returned false, c, print ("Error updating USDT rate: " ++ exc_str e) env1)
        | _ => (Escapes (Raised e), c, env1)
        end
    end
  else (Returned false, c, env1).

End Conversions.

(** [is_admin] of [database.py]: [user_id in config.ADMINS] *)
Definition is_admin (c : Config) (user_id : Z) : bool :=
  existsb (Z.eqb user_id) (ADMINS c).

(** *** Example data *)

Definition config_0 : Config :=
  mkConfig None "diamond_store_sy_bot" None 1631827811 [1631827811] (-1001234567890)
    "example_channel" (-1001234567890) (-1001234567890) (DFinite false 10000 0)
    (DFinite false 10000 0) [] None None None None [""] [""] "diamond_store.db".

Definition env_0 (text : option string) : Env := mkEnv text [] [] [].

(** The text of a file with the given lines, each ended by a line break. *)
Definition text_of (lines : list string) : string :=
  Text.writelines (map (fun line => line ++ String Text.LF "") lines).

(** An [int] for the examples: an optional sign and digits. *)
Definition int_of_digits (s : string) : result Z :=
  match parse_number s with
  | Some l =>
      if lit_integer l then Ok (signed (lit_neg l) (lit_coeff l))
      else Raise (mkException ValueError "invalid literal for int() with base 10")
  | None => Raise (mkException ValueError "invalid literal for int() with base 10")
  end.

(** ** The keyboards: [keyboards.py]

    An [InlineKeyboardMarkup] is the rows of buttons it is made of; a
    button has its label and either a link or the data of its callback.
    The labels are held in UTF-8. *)

Record InlineKeyboardButton : Type := mkInlineKeyboardButton {
  b_text : string;
  b_url : option string;
  b_callback_data : option string
}.

Definition InlineKeyboardMarkup : Type := list (list InlineKeyboardButton).

(** [InlineKeyboardButton(text, url=...)] and
    [InlineKeyboardButton(text, callback_data=...)] *)
Definition url_button (text url : string) : InlineKeyboardButton :=
  mkInlineKeyboardButton text (Some url) None.
Definition callback_button (text callback_data : string) : InlineKeyboardButton :=
  mkInlineKeyboardButton text None (Some callback_data).

Module Keyboards.

(** The link of the first button is a plain string, not an f-string: the
    braces are part of it. *)
Definition subscription_keyboard : InlineKeyboardMarkup :=
  [[url_button "🌟 اشترك في قناتنا الرسمية" "https://t.me/{FORCED_CHANNEL_USERNAME}"];
   [callback_button "✅ تحقق من الاشتراك" "check_subscription"];
   [url_button "💎 متجر الدايموند" "https://t.me/diamond_store_sy_bot"]].

Definition force_subscription : InlineKeyboardMarkup :=
  [[url_button "📢 اشترك الآن" "https://t.me/{FORCED_CHANNEL_USERNAME}"];
   [callback_button "🔄 تحديث" "check_subscription"]].

Definition main_menu (is_admin : bool) : InlineKeyboardMarkup :=
  let buttons :=
    [[callback_button "💎 المتجر" "shop"];
     [callback_button "💰 شحن رصيد" "charge"];
     [callback_button "💳 رصيدي" "my_balance";
      callback_button "📦 طلباتي" "my_orders"]] in
  if is_admin
  then (buttons ++ [[callback_button "⚙️ لوحة التحكم" "admin_panel"]])%list
  else buttons.

Definition shop_menu : InlineKeyboardMarkup :=
  [[callback_button "🎮 الألعاب" "games";
    callback_button "📱 التطبيقات" "apps"];
   [callback_button "🔙 رجوع" "back_to_main"]].

Definition payment_methods : InlineKeyboardMarkup :=
  [[callback_button "💎 USDT/USD" "pay_type_crypto"];
   [callback_button "📱 سيرياتيل كاش" "pay_type_syriatel";
    callback_button "📱 MTN كاش" "pay_type_mtn"];
   [callback_button "💰 شام كاش" "pay_type_shamcash"];
   [callback_button "🔙 رجوع" "back_to_main"]].

Definition crypto_payment_options : InlineKeyboardMarkup :=
  [[callback_button "💰 Coinex (USDT)" "pay_crypto_coinex";
    callback_button "💰 CWallet (USDT)" "pay_crypto_cwallet"];
   [callback_button "💵 Payeer (USD)" "pay_crypto_payeer";
    callback_button "💰 PEB20 (USDT)" "pay_crypto_peb20"];
   [callback_button "🔙 رجوع" "charge"]].

Definition shamcash_options : InlineKeyboardMarkup :=
  [[callback_button "💵 تحويل ليرة سوري" "sham_syp";
    callback_button "💰 تحويل USD" "sham_usd"];
   [callback_button "🔙 رجوع" "charge"]].

Definition admin_panel : InlineKeyboardMarkup :=
  [[callback_button "📊 الإحصائيات" "admin_stats"];
   [callback_button "👥 المستخدمين" "manage_users";
    callback_button "💰 المنتجات" "manage_products"];
   [callback_button "💳 طلبات الشحن" "admin_recharges";
    callback_button "📦 الطلبات" "admin_orders"];
   [callback_button "⚙️ الإعدادات" "admin_settings";
    callback_button "💱 أسعار الصرف" "admin_rates"];
   [callback_button "🔙 رجوع" "back_to_main"]].

Definition manage_products : InlineKeyboardMarkup :=
  [[callback_button "🎮 الألعاب" "manage_games";
    callback_button "📱 التطبيقات" "manage_apps"];
   [callback_button "🔙 رجوع" "admin_panel"]].

Definition product_management (product_id category : string) : InlineKeyboardMarkup :=
  [[callback_button "✏️ تعديل المعلومات" ("edit_info_" ++ category ++ "_" ++ product_id)];
   [callback_button "💰 تعديل الأسعار" ("edit_prices_" ++ category ++ "_" ++ product_id)];
   [callback_button "🗑 حذف المنتج" ("delete_" ++ category ++ "_" ++ product_id)];
   [callback_button "🔙 رجوع" ("manage_" ++ category)]].

Definition confirm_action (action data : string) : InlineKeyboardMarkup :=
  [[callback_button "✅ تأكيد" ("confirm_" ++ action ++ "_" ++ data);
    callback_button "❌ إلغاء" ("cancel_" ++ action ++ "_" ++ data)]].

Definition back_button (callback_data : string) : InlineKeyboardMarkup :=
  [[callback_button "🔙 رجوع" callback_data]].

(** [username] is [None] when the argument is left out; [if username:]
    also sends the empty string to the second branch. *)
Definition user_contact (user_id : Z) (username : option string) : InlineKeyboardMarkup :=
  match username with
  | Some (String a u) =>
      [[url_button "💬 تواصل" ("https://t.me/" ++ String a u)]]
  | _ =>
      [[url_button "💬 تواصل" ("tg://user?id=" ++ int_str user_id)]]
  end.

End Keyboards.

(** The data of the callbacks of a keyboard, row by row. *)
Definition callbacks (keyboard : InlineKeyboardMarkup) : list string :=
  flat_map (fun row =>
    flat_map (fun b => match b_callback_data b with Some d => [d] | None => [] end) row)
    keyboard.

(** The links of a keyboard. *)
Definition links (keyboard : InlineKeyboardMarkup) : list string :=
  flat_map (fun row =>
    flat_map (fun b => match b_url b with Some u => [u] | None => [] end) row)
    keyboard.

(** *** Lines and names of .env *)

(** A line as a file holds it: no line break but the one that ends it. *)
Fixpoint is_line (s : string) : bool :=
  match s with
  | EmptyString => false
  | String a EmptyString => (a =? Text.LF)%char
  | String a s' => negb (a =? Text.LF)%char && negb (a =? Text.CR)%char && is_line s'
  end.

(** A text without a line break. *)
Fixpoint no_break (s : string) : bool :=
  match s with
  | EmptyString => true
  | String a s' => negb (a =? Text.LF)%char && negb (a =? Text.CR)%char && no_break s'
  end.

(** A text that is empty or ends with a line break. *)
Fixpoint ends_with_LF (s : string) : bool :=
  match s with
  | EmptyString => true
  | String a EmptyString => (a =? Text.LF)%char
  | String _ s' => ends_with_LF s'
  end.

(** A text without a carriage return. *)
Fixpoint no_CR (s : string) : bool :=
  match s with
  | EmptyString => true
  | String a s' => negb (a =? Text.CR)%char && no_CR s'
  end.

(** A line the loop of [_update_env_variable] takes as an assignment of the
    variable: not blank, not a comment, and starting with its name and
    ['=']. *)
Definition assigns (variable_name line : string) : bool :=
  negb (Text.is_empty (Text.strip line)) && negb (Text.startswith "#" line) &&
  Text.startswith (variable_name ++ "=") line.

(** A name [os.environ] accepts. *)
Definition valid_name (name : string) : bool :=
  negb (Text.is_empty name) && negb (Text.contains "="%char name) &&
  negb (Text.contains "000"%char name).

(** A byte that occurs in the encoding of some white space. *)
Definition space_byte (a : ascii) : bool :=
  Text.space1 a || (128 <=? Text.code a)%nat.

(** * Properties *)

(** ** Printing and reading decimals *)


Lemma append_assoc : forall s1 s2 s3 : string, (s1 ++ s2) ++ s3 = s1 ++ s2 ++ s3.
Proof. induction s1; simpl; intros; [reflexivity | now rewrite IHs1]. Qed.

Lemma append_empty : forall s : string, s ++ "" = s.
Proof. induction s; simpl; [reflexivity | now rewrite IHs]. Qed.











(** The digits Rocq prints for a number. *)
Lemma uint_digits : forall d, all_digits (NilEmpty.string_of_uint d) = true.
Proof. induction d; simpl; auto. Qed.


Lemma digits_all : forall c, all_digits (digits c) = true.
Proof. intros. apply uint_digits. Qed.












(** ** The sign of a rounded float *)










(** ** Rows and statements *)

Lemma find_map_hit : forall (A : Type) (hit : A -> bool) (f : A -> A) (l : list A),
  (forall a, hit (f a) = hit a) ->
  find hit (map (fun a => if hit a then f a else a) l) = option_map f (find hit l).
Proof.
  intros A hit f l Hf. induction l as [|a l IH]; simpl; [reflexivity |].
  destruct (hit a) eqn:E.
  - now rewrite Hf, E.
  - now rewrite E.
Qed.

Lemma rowcount_positive : forall (A : Type) (hit : A -> bool) (l : list A),
  (0 <? rowcount hit l)%nat = existsb hit l.
Proof.
  intros A hit l. unfold rowcount. induction l as [|a l IH]; simpl; [reflexivity |].
  destruct (hit a); simpl; [reflexivity | assumption].
Qed.

Lemma find_existsb : forall (A : Type) (hit : A -> bool) (l : list A),
  existsb hit l = match find hit l with Some _ => true | None => false end.
Proof.
  intros A hit l. induction l as [|a l IH]; simpl; [reflexivity |].
  destruct (hit a); simpl; [reflexivity | assumption].
Qed.



Lemma select_balance_exists : forall user_id s balance,
  select_balance user_id s = Some balance ->
  existsb (has_user_id user_id) (users s) = true.
Proof.
  intros user_id s balance H. rewrite find_existsb.
  unfold select_balance, select_user in H.
  destruct (find (has_user_id user_id) (users s)); [reflexivity | discriminate H].
Qed.

(** ** Runs without faults *)

Ltac quiet_world w :=
  let s := fresh "s" in let t := fresh "t0" in let o := fresh "o0" in
  let n := fresh "n0" in let c := fresh "c0" in let f := fresh "f0" in
  let l := fresh "l0" in let z := fresh "z0" in let k := fresh "clock" in
  destruct w as [s t o n c f l z k];
  cbn [store txn open_connections next_handle conn faults log slept now] in *;
  subst.

(** One step of symbolic execution: the combinators and the calls into
    SQLite are unfolded, the statements and the decimal arithmetic are not. *)
Ltac run :=
  cbv beta iota zeta delta
    [bind ret raise lift try_except try_finally if_conn logger_error sleep_1
     conn_None open_cursor conn_close close get_connection get_connection_loop
     connect_attempt sqlite3_connect execute_pragma sqlite_call execute_begin
     execute_commit execute_rollback execute_query execute_update
     execute_query_result set_store set_txn set_open set_conn set_faults
     set_log set_slept store txn open_connections next_handle conn faults log
     slept now exc_class Nat.eqb fst snd].

Ltac run_in H :=
  cbv beta iota zeta delta
    [bind ret raise lift try_except try_finally if_conn logger_error sleep_1
     conn_None open_cursor conn_close close get_connection get_connection_loop
     connect_attempt sqlite3_connect execute_pragma sqlite_call execute_begin
     execute_commit execute_rollback execute_query execute_update
     execute_query_result set_store set_txn set_open set_conn set_faults
     set_log set_slept store txn open_connections next_handle conn faults log
     slept now exc_class Nat.eqb fst snd] in H.




Lemma find_user_updated : forall (f : User -> User) user_id l,
  (forall u, u_user_id (f u) = u_user_id u) ->
  find (has_user_id user_id)
       (map (fun u => if has_user_id user_id u then f u else u) l) =
  option_map f (find (has_user_id user_id) l).
Proof.
  intros f user_id l Hf. apply find_map_hit.
  intros u. unfold has_user_id. now rewrite Hf.
Qed.





(** ** Sequences of balance changes *)






(** ** Deposit transactions *)







(** ** What holds whatever fails *)

Section Preservation.

Variable I : World -> Prop.

Lemma preserves_ret : forall A (a : A), preserves I (ret a).
Proof. intros A a w H. exact H. Qed.

Lemma preserves_raise : forall A e, preserves I (@raise A e).
Proof. intros A e w H. exact H. Qed.

Lemma preserves_lift : forall A (r : result A), preserves I (lift r).
Proof. intros A r w H. exact H. Qed.

Lemma preserves_bind : forall A B (m : M A) (k : A -> M B),
  preserves I m -> (forall a, preserves I (k a)) -> preserves I (bind m k).
Proof.
  intros A B m k Hm Hk w H. unfold bind. specialize (Hm w H).
  destruct (m w) as [[a|e] w1]; cbn [snd] in *; [now apply Hk | assumption].
Qed.

Lemma preserves_try_except : forall A (m : M A) (h : Exception -> M A),
  preserves I m -> (forall e, preserves I (h e)) -> preserves I (try_except m h).
Proof.
  intros A m h Hm Hh w H. unfold try_except. specialize (Hm w H).
  destruct (m w) as [[a|e] w1]; cbn [snd] in *; [assumption | now apply Hh].
Qed.

Lemma preserves_try_finally : forall A (m : M A) (f : M unit),
  preserves I m -> preserves I f -> preserves I (try_finally m f).
Proof.
  intros A m f Hm Hf w H. unfold try_finally. specialize (Hm w H).
  destruct (m w) as [r w1]. cbn [snd] in Hm. specialize (Hf w1 Hm).
  destruct (f w1) as [[u|e] w2]; exact Hf.
Qed.

Lemma preserves_if_conn : forall m, preserves I m -> preserves I (if_conn m).
Proof.
  intros m Hm w H. unfold if_conn. destruct (conn w); [now apply Hm | exact H].
Qed.

End Preservation.

Section Deposits.

Variable s0 : Store.

Lemma deposits_invariant_ext : forall w w',
  store w' = store w -> txn w' = txn w -> deposits_invariant s0 w -> deposits_invariant s0 w'.
Proof.
  intros w w' Hs Ht H. unfold deposits_invariant in *. now rewrite Hs, Ht.
Qed.

Lemma preserves_sqlite_call : forall A (m : M A),
  preserves (deposits_invariant s0) m -> preserves (deposits_invariant s0) (sqlite_call m).
Proof.
  intros A m Hm w H. unfold sqlite_call.
  destruct (faults w) as [|[|] fs].
  - now apply Hm.
  - exact H.
  - apply Hm. exact H.
Qed.

Lemma preserves_logger_error : forall msg, preserves (deposits_invariant s0) (logger_error msg).
Proof. intros msg w H. exact H. Qed.

Lemma preserves_sleep_1 : preserves (deposits_invariant s0) sleep_1.
Proof. intros w H. exact H. Qed.

Lemma preserves_conn_None : preserves (deposits_invariant s0) conn_None.
Proof. intros w H. exact H. Qed.

Lemma preserves_connect_attempt : preserves (deposits_invariant s0) connect_attempt.
Proof.
  unfold connect_attempt.
  repeat (apply preserves_bind; [| intros ?]); try apply preserves_ret;
    apply preserves_sqlite_call; intros w H; exact H.
Qed.

Lemma preserves_get_connection_loop : forall n, preserves (deposits_invariant s0) (get_connection_loop n).
Proof.
  induction n as [|n IH]; intros w H; cbn [get_connection_loop].
  - exact H.
  - pose proof (preserves_connect_attempt w H) as H1.
    destruct (connect_attempt w) as [[h|e] w1]; cbn [snd] in *; [exact H1 |].
    destruct (exc_class e); try exact H1.
    destruct (Nat.eqb n 0).
    + exact H1.
    + apply (preserves_bind (deposits_invariant s0) _ _ sleep_1 (fun _ => get_connection_loop n));
        [apply preserves_sleep_1 | intros _; exact IH | exact H1].
Qed.

Lemma preserves_open_cursor : preserves (deposits_invariant s0) open_cursor.
Proof.
  unfold open_cursor. apply preserves_bind.
  - apply preserves_get_connection_loop.
  - intros h. apply preserves_bind.
    + intros w H. exact H.
    + intros _. destruct h; [apply preserves_ret | apply preserves_raise].
Qed.

Lemma preserves_conn_close : preserves (deposits_invariant s0) conn_close.
Proof.
  intros w H. unfold conn_close. destruct (conn w) as [h|]; [| exact H].
  unfold close, deposits_invariant in *. destruct H as [H1 H2].
  destruct (txn w) as [snapshot|] eqn:E; cbn [snd set_open set_txn set_store store txn];
    [| rewrite E]; auto.
Qed.

Lemma preserves_execute_begin : preserves (deposits_invariant s0) execute_begin.
Proof.
  apply preserves_sqlite_call. intros w H.
  unfold deposits_invariant in *. destruct H as [H1 H2].
  destruct (txn w) eqn:E; cbn; [rewrite E |]; auto.
Qed.

Lemma preserves_execute_commit : preserves (deposits_invariant s0) execute_commit.
Proof.
  apply preserves_sqlite_call. intros w H.
  unfold deposits_invariant in *. destruct H as [H1 H2].
  destruct (txn w) eqn:E; cbn; [| rewrite E]; auto.
Qed.

Lemma preserves_execute_rollback : preserves (deposits_invariant s0) execute_rollback.
Proof.
  apply preserves_sqlite_call. intros w H.
  unfold deposits_invariant in *. destruct H as [H1 H2].
  destruct (txn w) eqn:E; cbn; [| rewrite E]; auto.
Qed.

Lemma preserves_execute_update : forall A (u : string -> Store -> result (A * Store)),
  (forall clock s a s',
     u clock s = Ok (a, s') -> only_deposits_added s0 s -> only_deposits_added s0 s') ->
  preserves (deposits_invariant s0) (execute_update u).
Proof.
  intros A u Hu. apply preserves_sqlite_call. intros w H.
  unfold deposits_invariant in *. destruct H as [H1 H2].
  destruct (u (now w) (store w)) as [[a s']|e] eqn:E; cbn; [| auto].
  split; [| exact H2]. eapply Hu; eassumption.
Qed.

Lemma insert_transaction_deposit_only :
  forall tx_id user_id a payment_method payment_subtype payment_number
         payment_details original_amount original_currency exchange_rate clock s n s',
  insert_transaction tx_id user_id a "deposit" payment_method payment_subtype
    payment_number payment_details original_amount original_currency exchange_rate
    clock s = Ok (n, s') ->
  only_deposits_added s0 s -> only_deposits_added s0 s'.
Proof.
  intros until s'. unfold insert_transaction. intros H Hs.
  destruct (is_null (real_affinity a)); [discriminate H |].
  destruct (negb (type_allowed "deposit") || negb (tx_status_allowed "pending"));
    [discriminate H |].
  destruct (existsb (has_tx_id tx_id) (transactions s)); [discriminate H |].
  injection H as _ <-. intros t Ht. cbn [transactions] in Ht.
  apply in_app_or in Ht. destruct Ht as [Ht | [<- | []]]; [now apply Hs | now right].
Qed.

Lemma preserves_create_transaction :
  forall tx_id user_id amount payment_method payment_subtype payment_number kw,
  preserves (deposits_invariant s0) (create_transaction tx_id user_id amount payment_method
                 payment_subtype payment_number kw).
Proof.
  intros. unfold create_transaction.
  apply preserves_bind; [apply preserves_conn_None | intros _].
  apply preserves_try_finally;
    [| apply preserves_if_conn, preserves_conn_close].
  apply preserves_try_except.
  - apply preserves_bind; [apply preserves_open_cursor | intros _].
    apply preserves_bind; [apply preserves_execute_begin | intros _].
    apply preserves_bind; [| intros _].
    + apply preserves_execute_update. intros clock s a s'.
      apply insert_transaction_deposit_only.
    + apply preserves_bind; [apply preserves_execute_commit | intros _].
      apply preserves_ret.
  - intros e.
    apply preserves_bind;
      [apply preserves_if_conn, preserves_execute_rollback | intros _].
    apply preserves_bind; [apply preserves_logger_error | intros _].
    apply preserves_ret.
Qed.

End Deposits.

(** C9: every row of [transactions] that is there after a call of
    [create_transaction] and was not there before has type 'deposit',
    whichever calls into SQLite fail during the call: the method cannot
    produce a 'withdrawal' row. *)
Theorem create_transaction_only_deposits :
  forall (w : World) (tx_id : string) (user_id : Z) (amount : Decimal)
         (payment_method : string) (payment_subtype payment_number : option string)
         (kw : kwargs) (t : Transaction),
    txn w = None ->
    In t (transactions (store (snd (create_transaction tx_id user_id amount
            payment_method payment_subtype payment_number kw w)))) ->
    In t (transactions (store w)) \/
    (t_type t = "deposit" /\ t_type t <> "withdrawal").
Proof.
  intros w tx_id user_id amount payment_method payment_subtype payment_number kw t
         Ht Hin.
  assert (H0 : deposits_invariant (store w) w).
  { split; [intros t' Ht'; now left | now rewrite Ht]. }
  apply (preserves_create_transaction (store w) tx_id user_id amount payment_method
           payment_subtype payment_number kw w) in H0.
  destruct H0 as [H1 _]. destruct (H1 t Hin) as [H | H]; [now left | right].
  split; [exact H | rewrite H; discriminate].
Qed.

Lemma create_transaction_only_deposits_witness :
  let w := quiet_world (store_1001 real_0) clock_0 in
  let row :=
    mkTransaction "tx-abc" 1001 (real_affinity (Text "20000")) "deposit" "syriatel"
      (Some "{}") None None (real_affinity (Text "20000")) (Some "SYP")
      (real_affinity (Text "1")) clock_0 None (Some "pending") None None in
  In row (transactions (store (snd (create_transaction "tx-abc" 1001
            (DFinite false 20000 0) "syriatel" None None no_kwargs w)))) /\
  (In row (transactions (store w)) \/
   (t_type row = "deposit" /\ t_type row <> "withdrawal")).
Proof.
  intros w row.
  assert (Hin : In row (transactions (store (snd (create_transaction "tx-abc" 1001
                  (DFinite false 20000 0) "syriatel" None None no_kwargs w)))))
    by (vm_compute; left; reflexivity).
  split; [exact Hin |].
  exact (create_transaction_only_deposits w "tx-abc" 1001 (DFinite false 20000 0)
           "syriatel" None None no_kwargs row eq_refl Hin).
Defined.

(** ** Banning and unbanning *)

Lemma update_status_allowed : forall status user_id clock s,
  status_allowed status = true ->
  update_status status user_id clock s =
  Ok (rowcount (has_user_id user_id) (users s),
      with_users
        (map (fun u =>
                if has_user_id user_id u
                then mkUser (u_user_id u) (u_username u) (u_first_name u)
                            (u_balance u) (u_joined_date u) (u_last_activity u)
                            (Some status) (u_account_data u) (u_created_at u)
                            (Some clock)
                else u)
             (users s)) s).
Proof.
  intros status user_id clock s H. unfold update_status.
  now rewrite H, andb_false_r.
Qed.




(** ** Looking up an account by its handle *)

(** C8 as stated fails on the code: the letter case is not normalized.  The
    stored handle "Alice" is found as "Alice" and as "@Alice", and not as
    "alice" or "ALICE". *)
Lemma get_user_id_by_username_case_sensitive :
  let w := quiet_world (store_1001 real_0) clock_0 in
  fst (get_user_id_by_username "Alice" w) = Ok (Some 1001) /\
  fst (get_user_id_by_username "@Alice" w) = Ok (Some 1001) /\
  fst (get_user_id_by_username "alice" w) = Ok None /\
  fst (get_user_id_by_username "ALICE" w) = Ok None.
Proof.
  vm_compute. repeat split.
Qed.

Lemma find_some_first : forall (A : Type) (hit : A -> bool) (l : list A) (a : A),
  In a l -> hit a = true -> exists a', find hit l = Some a' /\ In a' l /\ hit a' = true.
Proof.
  intros A hit l a Hin Ha. induction l as [|x l IH]; [destruct Hin |].
  simpl. destruct (hit x) eqn:E.
  - exists x. split; [reflexivity |]. split; [now left | exact E].
  - destruct Hin as [-> | Hin]; [congruence |].
    destruct (IH Hin) as (a' & H1 & H2 & H3). exists a'.
    split; [exact H1 |]. split; [now right | exact H3].
Qed.

(** C8, as it holds: [get_user_id_by_username] strips the leading ['@']
    characters of the handle and looks the rest up as it is, letter case
    included.  A handle gives the same answer with and without a leading
    ['@'], and a stored handle that does not itself begin with ['@'] gives
    the id of an account that has exactly that handle. *)
Theorem get_user_id_by_username_strips_at :
  forall (w : World) (username : string),
    faults w = [] ->
    fst (get_user_id_by_username username w) =
      Ok (select_user_id_by_username (lstrip_at username) (store w)) /\
    fst (get_user_id_by_username ("@" ++ username) w) =
      fst (get_user_id_by_username username w) /\
    (forall account,
       In account (users (store w)) ->
       u_username account = Some username ->
       lstrip_at username = username ->
       exists found,
         In found (users (store w)) /\
         u_username found = Some username /\
         fst (get_user_id_by_username username w) = Ok (Some (u_user_id found))).
Proof.
  intros w username Hf.
  quiet_world w.
  unfold get_user_id_by_username. run. cbn [append lstrip_at].
  split; [reflexivity |]. split; [reflexivity |].
  intros account Hin Hname Hstrip. rewrite Hstrip.
  unfold select_user_id_by_username.
  destruct (find_some_first User
              (fun u => match u_username u with
                        | Some n => (n =? username)%string
                        | None => false
                        end) (users s) account Hin) as (found & H1 & H2 & H3).
  { rewrite Hname. apply String.eqb_refl. }
  exists found. rewrite H1. repeat split; [exact H2 |].
  destruct (u_username found) as [n|]; [| discriminate H3].
  apply String.eqb_eq in H3. now subst.
Qed.

Lemma get_user_id_by_username_strips_at_witness :
  let w := quiet_world (store_1001 real_0) clock_0 in
  fst (get_user_id_by_username "@Alice" w) = fst (get_user_id_by_username "Alice" w) /\
  exists found,
    In found (users (store w)) /\
    u_username found = Some "Alice" /\
    fst (get_user_id_by_username "Alice" w) = Ok (Some (u_user_id found)).
Proof.
  intros w.
  destruct (get_user_id_by_username_strips_at w "Alice" eq_refl) as (_ & H1 & H2).
  split; [exact H1 |].
  apply (H2 (account_1001 real_0)); [left |..]; reflexivity.
Defined.

(** ** Connections *)

(** C7 fails on the code: [get_total_transaction_volume] has no [finally]
    and never closes its connection.  On any store the connection it opened
    is still open when it returns, when nothing fails and when the query
    raises alike. *)
Theorem get_total_transaction_volume_leaves_connection_open :
  forall (s : Store) (clock : string),
    let quiet := quiet_world s clock in
    let failing := set_faults [false; false; false; true] quiet in
    open_connections quiet = [] /\
    open_connections (snd (get_total_transaction_volume quiet)) = [O] /\
    fst (get_total_transaction_volume failing) = Ok (DFinite false 0 0) /\
    log (snd (get_total_transaction_volume failing)) =
      ["Error getting transaction volume: database is locked"] /\
    open_connections (snd (get_total_transaction_volume failing)) = [O].
Proof.
  intros s clock quiet failing. split; [reflexivity |]. split.
  - unfold quiet, get_total_transaction_volume, get_total_transaction_volume_try,
      quiet_world.
    run.
    destruct (select_total_volume s) as [total|e]; run; [| reflexivity].
    destruct (Decimal_of_fetched total); reflexivity.
  - repeat split.
Qed.

(** The other methods close what they open: here [get_total_users], whose
    [try] has the same shape and a [finally]. *)
Lemma get_total_users_closes_connection :
  forall (s : Store) (clock : string),
    open_connections (snd (get_total_users (quiet_world s clock))) = [].
Proof.
  intros s clock. reflexivity.
Qed.

(** ** Exceptions in the reports *)

(** What a report answers once its [try] block has raised: the handler logs
    the error and returns the sentinel, and the [finally] closes the
    connection when there is one. *)
Lemma report_handles_exception :
  forall (A : Type) (body : M A) (prefix : string) (sentinel : A)
         (w : World) (e : Exception) (w1 : World),
    body (set_conn None w) = (Raise e, w1) ->
    let r := (conn_None ;;
              try_finally
                (try_except body
                   (fun e => logger_error (prefix ++ exc_str e) ;; ret sentinel))
                (if_conn conn_close)) w in
    fst r = Ok sentinel /\ log (snd r) = (log w1 ++ [(prefix ++ exc_str e)%string])%list.
Proof.
  intros A body prefix sentinel w e w1 H.
  destruct w as [s0 t0 o0 n0 c0 f0 l0 z0 k0]. run_in H. run. rewrite H. run.
  destruct w1 as [s1 t1 o1 n1 c1 f1 l1 z1 k1]. run.
  destruct c1 as [h|]; run; [destruct t1 |]; split; reflexivity.
Qed.

Lemma report_returns :
  forall (A : Type) (body : M A) (prefix : string) (sentinel : A) (w : World),
    exists v,
      fst ((conn_None ;;
            try_finally
              (try_except body
                 (fun e => logger_error (prefix ++ exc_str e) ;; ret sentinel))
              (if_conn conn_close)) w) = Ok v.
Proof.
  intros A body prefix sentinel w.
  destruct w as [s0 t0 o0 n0 c0 f0 l0 z0 k0]. run.
  destruct (body _) as [[a|e] w1]; run; destruct w1 as [s1 t1 o1 n1 c1 f1 l1 z1 k1]; run;
    (destruct c1 as [h|]; run; [destruct t1 |]); eexists; reflexivity.
Qed.

(** C10: when the [try] block of a report raises any exception, the report
    logs the error and returns its sentinel, [None] for [get_user_stats], 0
    for [get_total_users] and [get_active_users_last_24h], [Decimal('0')]
    for [get_total_transaction_volume]; no report ever raises; and the
    sentinel is what the report answers on an empty store when nothing
    fails. *)
Theorem reports_return_sentinel_on_exception :
  forall (datetime : Type) (fromisoformat : string -> option datetime)
         (within_last_day : string -> string -> bool) (user_id : Z)
         (w : World) (e : Exception) (w1 : World),
    (get_user_stats_try datetime fromisoformat user_id (set_conn None w) = (Raise e, w1) ->
     fst (get_user_stats datetime fromisoformat user_id w) = Ok None /\
     log (snd (get_user_stats datetime fromisoformat user_id w)) =
       (log w1 ++ [("Error getting user stats: " ++ exc_str e)%string])%list) /\
    (get_total_users_try (set_conn None w) = (Raise e, w1) ->
     fst (get_total_users w) = Ok 0 /\
     log (snd (get_total_users w)) =
       (log w1 ++ [("Error getting total users: " ++ exc_str e)%string])%list) /\
    (get_active_users_last_24h_try within_last_day (set_conn None w) = (Raise e, w1) ->
     fst (get_active_users_last_24h within_last_day w) = Ok 0 /\
     log (snd (get_active_users_last_24h within_last_day w)) =
       (log w1 ++ [("Error getting active users: " ++ exc_str e)%string])%list) /\
    (get_total_transaction_volume_try (set_conn None w) = (Raise e, w1) ->
     fst (get_total_transaction_volume w) = Ok (DFinite false 0 0) /\
     log (snd (get_total_transaction_volume w)) =
       (log w1 ++ [("Error getting transaction volume: " ++ exc_str e)%string])%list) /\
    (exists stats, fst (get_user_stats datetime fromisoformat user_id w) = Ok stats) /\
    (exists n, fst (get_total_users w) = Ok n) /\
    (exists n, fst (get_active_users_last_24h within_last_day w) = Ok n) /\
    (exists total, fst (get_total_transaction_volume w) = Ok total) /\
    (forall clock,
       let quiet := quiet_world empty_store clock in
       fst (get_user_stats datetime fromisoformat user_id quiet) = Ok None /\
       fst (get_total_users quiet) = Ok 0 /\
       fst (get_active_users_last_24h within_last_day quiet) = Ok 0 /\
       fst (get_total_transaction_volume quiet) = Ok (DFinite false 0 0)).
Proof.
  intros datetime fromisoformat within_last_day user_id w e w1.
  split.
  { exact (report_handles_exception _ (get_user_stats_try datetime fromisoformat user_id)
             "Error getting user stats: " None w e w1). }
  split.
  { exact (report_handles_exception _ get_total_users_try
             "Error getting total users: " 0 w e w1). }
  split.
  { exact (report_handles_exception _ (get_active_users_last_24h_try within_last_day)
             "Error getting active users: " 0 w e w1). }
  split.
  { intros H. unfold get_total_transaction_volume.
    destruct w as [s0 t0 o0 n0 c0 f0 l0 z0 k0]. run_in H. run. rewrite H. run.
    split; reflexivity. }
  split.
  { exact (report_returns _ (get_user_stats_try datetime fromisoformat user_id)
             "Error getting user stats: " None w). }
  split.
  { exact (report_returns _ get_total_users_try "Error getting total users: " 0 w). }
  split.
  { exact (report_returns _ (get_active_users_last_24h_try within_last_day)
             "Error getting active users: " 0 w). }
  split.
  { unfold get_total_transaction_volume. run.
    destruct (get_total_transaction_volume_try _) as [[a|e'] w2]; run;
      eexists; reflexivity. }
  intros clock quiet. repeat split.
Qed.

Lemma reports_return_sentinel_on_exception_witness :
  fst (get_user_stats string Some 1001 locked_world) = Ok None /\
  fst (get_total_users locked_world) = Ok 0 /\
  fst (get_active_users_last_24h (fun _ _ => true) locked_world) = Ok 0 /\
  fst (get_total_transaction_volume locked_world) = Ok (DFinite false 0 0) /\
  log (snd (get_total_users locked_world)) =
    ["Failed to connect to database after 5 attempts: database is locked";
     "Error getting total users: database is locked"].
Proof.
  destruct (reports_return_sentinel_on_exception string Some (fun _ _ => true) 1001
              locked_world database_is_locked
              (snd (get_total_users_try (set_conn None locked_world))))
    as (H1 & H2 & H3 & H4 & _).
  destruct H1 as [H1 _]; [vm_compute; reflexivity |].
  destruct H2 as [H2 H2']; [vm_compute; reflexivity |].
  destruct H3 as [H3 _]; [vm_compute; reflexivity |].
  destruct H4 as [H4 _]; [vm_compute; reflexivity |].
  split; [exact H1 |]. split; [exact H2 |]. split; [exact H3 |].
  split; [exact H4 |]. rewrite H2'. vm_compute. reflexivity.
Defined.

(** ** Connections, whatever fails *)

Lemma connect_attempt_spec : forall w,
  let r := connect_attempt w in
  store (snd r) = store w /\ txn (snd r) = txn w /\ conn (snd r) = conn w /\
  now (snd r) = now w /\ log (snd r) = log w /\ slept (snd r) = slept w /\
  match fst r with
  | Ok h => In h (open_connections (snd r))
  | Raise e => e = database_is_locked
  end.
Proof.
  intros [s t o n c f l z k]. unfold connect_attempt. run.
  destruct f as [|[|] f]; run; [| now repeat split |].
  - repeat split. apply in_or_app. right. now left.
  - destruct f as [|[|] f]; run; [| now repeat split |].
    + repeat split. apply in_or_app. right. now left.
    + destruct f as [|[|] f]; run; repeat split; try reflexivity;
        apply in_or_app; right; now left.
Qed.

Lemma get_connection_loop_spec : forall n w,
  let r := get_connection_loop (S n) w in
  store (snd r) = store w /\ txn (snd r) = txn w /\ conn (snd r) = conn w /\
  now (snd r) = now w /\
  match fst r with
  | Ok (Some h) =>
      In h (open_connections (snd r)) /\ log (snd r) = log w /\
      (slept (snd r) <= slept w + n)%nat
  | Ok None => False
  | Raise e =>
      e = database_is_locked /\ slept (snd r) = (slept w + n)%nat /\
      log (snd r) =
        (log w ++ [("Failed to connect to database after 5 attempts: " ++ exc_str e)%string])%list
  end.
Proof.
  induction n as [|n IH]; intros w; cbv zeta.
  - cbn [get_connection_loop].
    pose proof (connect_attempt_spec w) as H. cbv zeta in H.
    destruct (connect_attempt w) as [[h|e] w1]; cbn [fst snd] in *.
    + destruct H as (Hs & Ht & Hc & Hn & Hl & Hz & Hin).
      repeat split; try assumption. lia.
    + destruct H as (Hs & Ht & Hc & Hn & Hl & Hz & ->).
      destruct w1. cbn in *. subst. repeat split. lia.
  - assert (E : get_connection_loop (S (S n)) w =
      match connect_attempt w with
      | (Ok h, w') => (Ok (Some h), w')
      | (Raise e, w') =>
          match exc_class e with
          | OperationalError => get_connection_loop (S n) (set_slept (S (slept w')) w')
          | _ => (Raise e, w')
          end
      end) by reflexivity.
    rewrite E. clear E.
    pose proof (connect_attempt_spec w) as H. cbv zeta in H.
    destruct (connect_attempt w) as [[h|e] w1]; cbn [fst snd] in *.
    + destruct H as (Hs & Ht & Hc & Hn & Hl & Hz & Hin).
      repeat split; try assumption. lia.
    + destruct H as (Hs & Ht & Hc & Hn & Hl & Hz & ->).
      cbn [exc_class database_is_locked].
      specialize (IH (set_slept (S (slept w1)) w1)). cbv zeta in IH.
      destruct (get_connection_loop (S n) (set_slept (S (slept w1)) w1)) as [[[h|]|e] w2];
        cbn [fst snd] in *; destruct w1; cbn in *; subst.
      * destruct IH as (-> & -> & -> & -> & Hin & -> & Hle). repeat split; try assumption. lia.
      * destruct IH as (_ & _ & _ & _ & []).
      * destruct IH as (-> & -> & -> & -> & -> & -> & ->). repeat split. lia.
Qed.

Lemma open_cursor_spec : forall w,
  let r := open_cursor w in
  store (snd r) = store w /\ txn (snd r) = txn w /\ now (snd r) = now w /\
  match fst r with
  | Ok _ => exists h, conn (snd r) = Some h /\ log (snd r) = log w
  | Raise e => conn (snd r) = conn w /\ e = database_is_locked
  end.
Proof.
  intros w. cbv zeta. unfold open_cursor, get_connection, bind.
  pose proof (get_connection_loop_spec 4 w) as H. cbv zeta in H.
  destruct (get_connection_loop 5 w) as [[[h|]|e] w1]; cbn [fst snd] in *.
  - destruct H as (Hs & Ht & Hc & Hn & _ & Hl & _).
    destruct w1; cbn in *. repeat split; try assumption. now exists h.
  - destruct H as (_ & _ & _ & _ & []).
  - destruct H as (Hs & Ht & Hc & Hn & -> & _). now repeat split.
Qed.

Lemma sqlite_call_cases : forall A (m : M A) w,
  exists fs,
    sqlite_call m w = (Raise database_is_locked, set_faults fs w) \/
    sqlite_call m w = m (set_faults fs w).
Proof.
  intros A m [s t o n c f l z k]. unfold sqlite_call. cbn [faults].
  destruct f as [|[|] f].
  - exists []. now right.
  - exists f. now left.
  - exists f. now right.
Qed.

(** ** All or nothing *)

Ltac run_calls :=
  cbv beta iota zeta delta
    [bind ret raise lift try_except try_finally if_conn logger_error
     conn_None conn_close close execute_begin
     execute_commit execute_rollback execute_query execute_update
     execute_query_result set_store set_txn set_open set_conn set_faults
     set_log set_slept store txn open_connections next_handle conn faults log
     slept now exc_class fst snd].

(** The next call into SQLite either fails or goes through. *)
Ltac next_call :=
  match goal with
  | |- context [@sqlite_call ?A ?m ?w] =>
      let fs := fresh "fs" in
      let E := fresh "E" in
      destruct (sqlite_call_cases A m w) as [fs [E|E]]; rewrite E; clear E; run_calls
  end.

(** The connection and the cursor of a method, opened in any world. *)
Ltac open_cursor_in W :=
  let H := fresh "H" in
  let w1 := fresh "w" in
  pose proof (open_cursor_spec W) as H; cbv zeta in H;
  destruct (open_cursor W) as [[[]|?e] w1];
  destruct w1; cbn [fst snd store txn conn now log] in H.

(** A way out of a method on which nothing was committed. *)
Ltac settle :=
  repeat next_call;
  (split; [reflexivity |
   split; [intros _; reflexivity |
   split; [intros X; discriminate X |
           intros ? X; first [discriminate X | injection X as <-; reflexivity]]]]).

(** X2: [modify_user_balance] applies a change as a whole or not at all,
    whichever calls into SQLite fail.  No transaction is left open; unless
    the method returns [True] the store is as it was before the call; when it
    returns [True] the update of the balance, the row of [balance_history]
    and the row of [admin_logs] were all written, in this order, starting
    from the store before the call; and an exception that escapes the method
    is an [OperationalError] (of the ROLLBACK in the handler). *)
Theorem modify_user_balance_all_or_nothing :
  forall (w : World) (user_id admin_id : Z) (amount : Decimal),
    txn w = None ->
    let r := modify_user_balance user_id amount admin_id w in
    txn (snd r) = None /\
    (fst r <> Ok true -> store (snd r) = store w) /\
    (fst r = Ok true ->
     exists (current_balance new_balance : Decimal) (credit : bool)
            (n1 n2 n3 : nat) (s1 s2 : Store),
       read_balance user_id (store w) = Some current_balance /\
       Decimal_add current_balance amount = Ok new_balance /\
       Decimal_lt_0 new_balance = Ok false /\
       Decimal_gt_0 amount = Ok credit /\
       update_balance (Text (Decimal_str new_balance)) user_id (now w) (store w)
         = Ok (n1, s1) /\
       insert_balance_history user_id (Text (Decimal_str current_balance))
         (Text (Decimal_str new_balance)) (Text (Decimal_str amount))
         (if credit then "credit" else "debit") admin_id (now w) s1 = Ok (n2, s2) /\
       insert_admin_log admin_id "modify_balance"
         ("Modified balance by " ++ Decimal_str amount) user_id (now w) s2
         = Ok (n3, store (snd r))) /\
    (forall e, fst r = Raise e -> exc_class e = OperationalError).
Proof.
  intros w user_id admin_id amount Ht.
  destruct w as [s t o n c f l z k]. cbn [txn] in Ht. subst t.
  unfold modify_user_balance. run_calls.
  match goal with |- context [open_cursor ?W] => open_cursor_in W end.
  all: run_calls; destruct H as (-> & -> & -> & H).
  - destruct H as (h & -> & ->).
    next_call; [solve [settle] |].
    next_call; [solve [settle] |].
    destruct (select_balance user_id s) as [balance|] eqn:Eb; run_calls;
      [| solve [settle]].
    destruct (Decimal_of_fetched balance) as [cur|e1] eqn:Ec; run_calls;
      [| solve [settle]].
    destruct (Decimal_add cur amount) as [new|e2] eqn:Ea; run_calls;
      [| solve [settle]].
    destruct (Decimal_lt_0 new) as [[|]|e3] eqn:En; run_calls;
      [solve [settle] | | solve [settle]].
    next_call; [solve [settle] |].
    match goal with
    | |- context [update_balance ?a ?b ?c ?d] =>
        destruct (update_balance a b c d) as [[n1 s1]|e4] eqn:Eu
    end; run_calls; [| solve [settle]].
    destruct (Decimal_gt_0 amount) as [credit|e5] eqn:Eg; run_calls;
      [| solve [settle]].
    next_call; [solve [settle] |].
    match goal with
    | |- context [insert_balance_history ?a ?b ?c ?d ?e ?f ?g ?h] =>
        destruct (insert_balance_history a b c d e f g h) as [[n2 s2]|e6] eqn:Eh
    end; run_calls; [| solve [settle]].
    next_call; [solve [settle] |].
    match goal with
    | |- context [insert_admin_log ?a ?b ?c ?d ?e ?f] =>
        destruct (insert_admin_log a b c d e f) as [[n3 s3]|e7] eqn:El
    end; run_calls; [| solve [settle]].
    next_call; [solve [settle] |].
    split; [reflexivity |].
    split; [intros X; now elim X |].
    split; [intros _ | intros ? X; discriminate X].
    exists cur, new, credit, n1, n2, n3, s1, s2.
    unfold read_balance. rewrite Eb, Ec. now repeat split.
  - destruct H as [-> ->]. settle.
Qed.

Lemma modify_user_balance_all_or_nothing_witness :
  let w := set_faults [false; false; false; false; false; false; true]
             (quiet_world (store_1001 real_0) clock_0) in
  let r := modify_user_balance 1001 (DFinite false 50000 0) 1 w in
  txn w = None /\ fst r = Ok false /\ txn (snd r) = None /\ store (snd r) = store w.
Proof.
  intros w r.
  destruct (modify_user_balance_all_or_nothing w 1001 1 (DFinite false 50000 0) eq_refl)
    as (H1 & H2 & _).
  split; [reflexivity |]. split; [reflexivity |]. split; [exact H1 |].
  apply H2. discriminate.
Defined.

(** X3: [ban_user] and [unban_user] change the status and log the action
    together or not at all, whichever calls into SQLite fail.  No
    transaction is left open; unless the method returns [True] the store is
    as it was; when it returns [True] the update matched a row and the row
    of [admin_logs] was written after it; and an exception that escapes is
    an [OperationalError]. *)
Theorem ban_unban_all_or_nothing :
  forall (w : World) (user_id admin_id : Z),
    txn w = None ->
    let b := ban_user user_id admin_id w in
    let u := unban_user user_id admin_id w in
    (txn (snd b) = None /\
     (fst b <> Ok true -> store (snd b) = store w) /\
     (fst b = Ok true ->
      exists (n1 n2 : nat) (s1 : Store),
        update_status "banned" user_id (now w) (store w) = Ok (n1, s1) /\
        (0 < n1)%nat /\
        insert_admin_log admin_id "ban_user"
          ("User " ++ int_str user_id ++ " was banned") user_id (now w) s1
          = Ok (n2, store (snd b))) /\
     (forall e, fst b = Raise e -> exc_class e = OperationalError)) /\
    (txn (snd u) = None /\
     (fst u <> Ok true -> store (snd u) = store w) /\
     (fst u = Ok true ->
      exists (n1 n2 : nat) (s1 : Store),
        update_status "active" user_id (now w) (store w) = Ok (n1, s1) /\
        (0 < n1)%nat /\
        insert_admin_log admin_id "unban_user"
          ("User " ++ int_str user_id ++ " was unbanned") user_id (now w) s1
          = Ok (n2, store (snd u))) /\
     (forall e, fst u = Raise e -> exc_class e = OperationalError)).
Proof.
  intros w user_id admin_id Ht.
  destruct w as [s t o n c f l z k]. cbn [txn] in Ht. subst t.
  split.
  - unfold ban_user. run_calls.
    match goal with |- context [open_cursor ?W] => open_cursor_in W end.
    all: run_calls; destruct H as (-> & -> & -> & H).
    + destruct H as (h & -> & ->).
      next_call; [solve [settle] |].
      next_call; [solve [settle] |].
      match goal with
      | |- context [update_status ?a ?b ?c ?d] =>
          destruct (update_status a b c d) as [[n1 s1]|e1] eqn:Eu
      end; run_calls; [| solve [settle]].
      destruct (0 <? n1)%nat eqn:En; run_calls; [| solve [settle]].
      next_call; [solve [settle] |].
      match goal with
      | |- context [insert_admin_log ?a ?b ?c ?d ?e ?f] =>
          destruct (insert_admin_log a b c d e f) as [[n2 s2]|e2] eqn:El
      end; run_calls; [| solve [settle]].
      next_call; [solve [settle] |].
      split; [reflexivity |].
      split; [intros X; now elim X |].
      split; [intros _ | intros ? X; discriminate X].
      exists n1, n2, s1. apply Nat.ltb_lt in En. now repeat split.
    + destruct H as [-> ->]. settle.
  - unfold unban_user. run_calls.
    match goal with |- context [open_cursor ?W] => open_cursor_in W end.
    all: run_calls; destruct H as (-> & -> & -> & H).
    + destruct H as (h & -> & ->).
      next_call; [solve [settle] |].
      next_call; [solve [settle] |].
      match goal with
      | |- context [update_status ?a ?b ?c ?d] =>
          destruct (update_status a b c d) as [[n1 s1]|e1] eqn:Eu
      end; run_calls; [| solve [settle]].
      destruct (0 <? n1)%nat eqn:En; run_calls; [| solve [settle]].
      next_call; [solve [settle] |].
      match goal with
      | |- context [insert_admin_log ?a ?b ?c ?d ?e ?f] =>
          destruct (insert_admin_log a b c d e f) as [[n2 s2]|e2] eqn:El
      end; run_calls; [| solve [settle]].
      next_call; [solve [settle] |].
      split; [reflexivity |].
      split; [intros X; now elim X |].
      split; [intros _ | intros ? X; discriminate X].
      exists n1, n2, s1. apply Nat.ltb_lt in En. now repeat split.
    + destruct H as [-> ->]. settle.
Qed.

Lemma ban_unban_all_or_nothing_witness :
  let w := set_faults [false; false; false; false; false; true]
             (quiet_world (store_1001 real_0) clock_0) in
  let b := ban_user 1001 7 w in
  txn w = None /\ fst b = Ok false /\ txn (snd b) = None /\ store (snd b) = store w.
Proof.
  intros w b.
  destruct (ban_unban_all_or_nothing w 1001 7 eq_refl) as ((H1 & H2 & _) & _).
  split; [reflexivity |]. split; [reflexivity |]. split; [exact H1 |].
  apply H2. discriminate.
Defined.

(** X4: [create_transaction] adds its row or nothing, whichever calls into
    SQLite fail.  No transaction is left open; unless the method returns
    [True] the store is as it was; when it returns [True] the store is the
    one the INSERT gives from the store before the call; and an exception
    that escapes is an [OperationalError]. *)
Theorem create_transaction_all_or_nothing :
  forall (w : World) (tx_id : string) (user_id : Z) (amount : Decimal)
         (payment_method : string) (payment_subtype payment_number : option string)
         (kw : kwargs),
    txn w = None ->
    let r := create_transaction tx_id user_id amount payment_method payment_subtype
               payment_number kw w in
    txn (snd r) = None /\
    (fst r <> Ok true -> store (snd r) = store w) /\
    (fst r = Ok true ->
     exists n : nat,
       insert_transaction tx_id user_id (Text (Decimal_str amount)) "deposit"
         payment_method payment_subtype payment_number
         (get_default (kw_payment_details kw) "{}")
         (Text (Decimal_str (get_default (kw_original_amount kw) amount)))
         (Some (get_default (kw_original_currency kw) "SYP"))
         (Text (match kw_exchange_rate kw with
                | Some rate => Decimal_str rate
                | None => int_str 1
                end)) (now w) (store w) = Ok (n, store (snd r))) /\
    (forall e, fst r = Raise e -> exc_class e = OperationalError).
Proof.
  intros w tx_id user_id amount payment_method payment_subtype payment_number kw Ht.
  destruct w as [s t o n c f l z k]. cbn [txn] in Ht. subst t.
  unfold create_transaction. run_calls.
  match goal with |- context [open_cursor ?W] => open_cursor_in W end.
  all: run_calls; destruct H as (-> & -> & -> & H).
  - destruct H as (h & -> & ->).
    next_call; [solve [settle] |].
    next_call; [solve [settle] |].
    match goal with
    | |- context [insert_transaction ?a ?b ?c ?d ?e ?f ?g ?h ?i ?j ?k ?l ?m] =>
        destruct (insert_transaction a b c d e f g h i j k l m) as [[n1 s1]|e1] eqn:Ei
    end; run_calls; [| solve [settle]].
    next_call; [solve [settle] |].
    split; [reflexivity |].
    split; [intros X; now elim X |].
    split; [intros _ | intros ? X; discriminate X].
    now exists n1.
  - destruct H as [-> ->]. settle.
Qed.

Lemma create_transaction_all_or_nothing_witness :
  let w := set_faults [false; false; false; false; false; true]
             (quiet_world (store_1001 real_0) clock_0) in
  let r := create_transaction "tx-abc" 1001 (DFinite false 20000 0) "syriatel"
             None None no_kwargs w in
  txn w = None /\ fst r = Ok false /\ txn (snd r) = None /\ store (snd r) = store w.
Proof.
  intros w r.
  destruct (create_transaction_all_or_nothing w "tx-abc" 1001 (DFinite false 20000 0)
              "syriatel" None None no_kwargs eq_refl) as (H1 & H2 & _).
  split; [reflexivity |]. split; [reflexivity |]. split; [exact H1 |].
  apply H2. discriminate.
Defined.

(** ** Invariants of the store *)

Section StoreInvariant.

Variable R : Store -> Prop.

Lemma store_invariant_ext : forall w w',
  store w' = store w -> txn w' = txn w -> store_invariant R w -> store_invariant R w'.
Proof.
  intros w w' Hs Ht H. unfold store_invariant in *. now rewrite Hs, Ht.
Qed.

Lemma kept_sqlite_call : forall A (m : M A),
  preserves (store_invariant R) m -> preserves (store_invariant R) (sqlite_call m).
Proof.
  intros A m Hm w H. destruct (sqlite_call_cases A m w) as [fs [E|E]]; rewrite E.
  - exact H.
  - apply Hm. exact H.
Qed.

Lemma kept_open_cursor : preserves (store_invariant R) open_cursor.
Proof.
  intros w H. pose proof (open_cursor_spec w) as (Hs & Ht & _). cbv zeta in *.
  now apply (store_invariant_ext w).
Qed.

Lemma kept_conn_close : preserves (store_invariant R) conn_close.
Proof.
  intros w H. unfold conn_close. destruct (conn w) as [h|]; [| exact H].
  unfold close, store_invariant in *. destruct H as [H1 H2].
  destruct (txn w) as [snapshot|] eqn:E; cbn [snd set_open set_txn set_store store txn];
    [| rewrite E]; auto.
Qed.

Lemma kept_execute_begin : preserves (store_invariant R) execute_begin.
Proof.
  apply kept_sqlite_call. intros w H.
  unfold store_invariant in *. destruct H as [H1 H2].
  destruct (txn w) eqn:E; cbn; [rewrite E |]; auto.
Qed.

Lemma kept_execute_commit : preserves (store_invariant R) execute_commit.
Proof.
  apply kept_sqlite_call. intros w H.
  unfold store_invariant in *. destruct H as [H1 H2].
  destruct (txn w) eqn:E; cbn; [| rewrite E]; auto.
Qed.

Lemma kept_execute_rollback : preserves (store_invariant R) execute_rollback.
Proof.
  apply kept_sqlite_call. intros w H.
  unfold store_invariant in *. destruct H as [H1 H2].
  destruct (txn w) eqn:E; cbn; [| rewrite E]; auto.
Qed.

Lemma kept_execute_query : forall A (q : Store -> A),
  preserves (store_invariant R) (execute_query q).
Proof. intros A q. apply kept_sqlite_call. intros w H. exact H. Qed.

Lemma kept_execute_query_result : forall A (q : Store -> result A),
  preserves (store_invariant R) (execute_query_result q).
Proof. intros A q. apply kept_sqlite_call. intros w H. exact H. Qed.

Lemma kept_execute_update : forall A (u : string -> Store -> result (A * Store)),
  keeps R u -> preserves (store_invariant R) (execute_update u).
Proof.
  intros A u Hu. apply kept_sqlite_call. intros w H.
  unfold store_invariant in *. destruct H as [H1 H2].
  destruct (u (now w) (store w)) as [[a s']|e] eqn:E; cbn; [| auto].
  split; [| exact H2]. eapply Hu; eassumption.
Qed.

Hypothesis keeps_update_balance :
  forall balance user_id, keeps R (update_balance balance user_id).
Hypothesis keeps_update_status :
  forall status user_id, keeps R (update_status status user_id).
Hypothesis keeps_insert_balance_history :
  forall user_id old_balance new_balance change_amount transaction_type admin_id,
    keeps R (insert_balance_history user_id old_balance new_balance change_amount
               transaction_type admin_id).
Hypothesis keeps_insert_admin_log :
  forall admin_id action details target_user_id,
    keeps R (insert_admin_log admin_id action details target_user_id).
Hypothesis keeps_insert_transaction :
  forall tx_id user_id amount type payment_method payment_subtype payment_number
         payment_details original_amount original_currency exchange_rate,
    keeps R (insert_transaction tx_id user_id amount type payment_method
               payment_subtype payment_number payment_details original_amount
               original_currency exchange_rate).

Ltac kept_step :=
  lazymatch goal with
  | |- preserves _ (bind _ _) => apply preserves_bind; [| intros ?]
  | |- preserves _ (try_finally _ _) => apply preserves_try_finally
  | |- preserves _ (try_except _ _) => apply preserves_try_except; [| intros ?]
  | |- preserves _ (if_conn conn_close) => apply preserves_if_conn, kept_conn_close
  | |- preserves _ (if_conn execute_rollback) =>
      apply preserves_if_conn, kept_execute_rollback
  | |- preserves _ (ret _) => apply preserves_ret
  | |- preserves _ (raise _) => apply preserves_raise
  | |- preserves _ (lift _) => apply preserves_lift
  | |- preserves _ conn_None => intros ? ?; assumption
  | |- preserves _ (logger_error _) => intros ? ?; assumption
  | |- preserves _ open_cursor => apply kept_open_cursor
  | |- preserves _ execute_begin => apply kept_execute_begin
  | |- preserves _ execute_commit => apply kept_execute_commit
  | |- preserves _ execute_rollback => apply kept_execute_rollback
  | |- preserves _ (execute_query _) => apply kept_execute_query
  | |- preserves _ (execute_query_result _) => apply kept_execute_query_result
  | |- preserves _ (execute_update _) =>
      apply kept_execute_update;
      first [ apply keeps_update_balance | apply keeps_update_status
            | apply keeps_insert_balance_history | apply keeps_insert_admin_log
            | apply keeps_insert_transaction ]
  | |- preserves _ (sqlite_call _) =>
      apply kept_sqlite_call; intros ? ?; assumption
  | |- preserves _ (if ?b then _ else _) => destruct b
  | |- preserves _ (let (_, _) := ?x in _) => destruct x
  | |- preserves _ (match ?x with Some _ => _ | None => _ end) => destruct x
  end.

Lemma kept_by_ban_user : forall user_id admin_id,
  preserves (store_invariant R) (ban_user user_id admin_id).
Proof. intros. unfold ban_user. repeat kept_step. Qed.

Lemma kept_by_unban_user : forall user_id admin_id,
  preserves (store_invariant R) (unban_user user_id admin_id).
Proof. intros. unfold unban_user. repeat kept_step. Qed.

Lemma kept_by_modify_user_balance : forall user_id amount admin_id,
  preserves (store_invariant R) (modify_user_balance user_id amount admin_id).
Proof. intros. unfold modify_user_balance. repeat kept_step. Qed.

Lemma kept_by_create_transaction :
  forall tx_id user_id amount payment_method payment_subtype payment_number kw,
  preserves (store_invariant R)
    (create_transaction tx_id user_id amount payment_method payment_subtype
       payment_number kw).
Proof. intros. unfold create_transaction. repeat kept_step. Qed.

Lemma kept_by_perform : forall c, preserves (store_invariant R) (perform c).
Proof.
  intros [user_id admin_id | user_id admin_id | user_id amount admin_id
         | tx_id user_id amount payment_method payment_subtype payment_number kw];
    cbn [perform].
  - apply kept_by_ban_user.
  - apply kept_by_unban_user.
  - apply kept_by_modify_user_balance.
  - apply kept_by_create_transaction.
Qed.

(** The reading methods hold no statement that writes. *)
Lemma kept_by_get_user_stats : forall datetime fromisoformat user_id,
  preserves (store_invariant R) (get_user_stats datetime fromisoformat user_id).
Proof.
  intros. unfold get_user_stats, get_user_stats_try. repeat kept_step.
Qed.

Lemma kept_by_get_user_id_by_username : forall username,
  preserves (store_invariant R) (get_user_id_by_username username).
Proof. intros. unfold get_user_id_by_username. repeat kept_step. Qed.

Lemma kept_by_get_total_users : preserves (store_invariant R) get_total_users.
Proof. unfold get_total_users, get_total_users_try. repeat kept_step. Qed.

Lemma kept_by_get_active_users_last_24h : forall within_last_day,
  preserves (store_invariant R) (get_active_users_last_24h within_last_day).
Proof.
  intros. unfold get_active_users_last_24h, get_active_users_last_24h_try.
  repeat kept_step.
Qed.

Lemma kept_by_get_total_transaction_volume :
  preserves (store_invariant R) get_total_transaction_volume.
Proof.
  unfold get_total_transaction_volume, get_total_transaction_volume_try.
  repeat kept_step.
Qed.

End StoreInvariant.

(** Whatever happens during a call, no transaction is left open. *)
Ltac to_the_end :=
  repeat first
    [ next_call
    | match goal with
      | |- context [match ?x with Ok _ => _ | Raise _ => _ end] => destruct x; run_calls
      | |- context [match ?x with Some _ => _ | None => _ end] => destruct x; run_calls
      | |- context [if ?x then _ else _] => destruct x; run_calls
      | |- context [let (_, _) := ?x in _] => is_var x; destruct x; run_calls
      end ].

Lemma perform_leaves_no_transaction : forall c w,
  txn w = None -> txn (snd (perform c w)) = None.
Proof.
  intros c w Ht. destruct w as [s t o n c0 f l z k]. cbn [txn] in Ht. subst t.
  destruct c; cbn [perform];
    unfold ban_user, unban_user, modify_user_balance, create_transaction; run_calls;
    match goal with |- context [open_cursor ?W] => open_cursor_in W end;
    run_calls; destruct H as (-> & -> & -> & H);
    try (destruct H as (h & -> & ->)); try (destruct H as [-> ->]);
    to_the_end; reflexivity.
Qed.

Lemma kept_by_perform_all : forall (R : Store -> Prop),
  (forall balance user_id, keeps R (update_balance balance user_id)) ->
  (forall status user_id, keeps R (update_status status user_id)) ->
  (forall user_id old_balance new_balance change_amount transaction_type admin_id,
     keeps R (insert_balance_history user_id old_balance new_balance change_amount
                transaction_type admin_id)) ->
  (forall admin_id action details target_user_id,
     keeps R (insert_admin_log admin_id action details target_user_id)) ->
  (forall tx_id user_id amount type payment_method payment_subtype payment_number
          payment_details original_amount original_currency exchange_rate,
     keeps R (insert_transaction tx_id user_id amount type payment_method
                payment_subtype payment_number payment_details original_amount
                original_currency exchange_rate)) ->
  forall calls w,
    txn w = None -> R (store w) ->
    R (store (perform_all calls w)) /\ txn (perform_all calls w) = None.
Proof.
  intros R H1 H2 H3 H4 H5. induction calls as [|c rest IH]; intros w Ht Hs.
  - now split.
  - cbn [perform_all]. apply IH.
    + now apply perform_leaves_no_transaction.
    + apply (kept_by_perform R H1 H2 H3 H4 H5 c w). split; [exact Hs | now rewrite Ht].
Qed.

Lemma update_balance_users : forall balance user_id clock s n s',
  update_balance balance user_id clock s = Ok (n, s') ->
  balance_history s' = balance_history s /\ orders s' = orders s /\
  transactions s' = transactions s /\ admin_logs s' = admin_logs s /\
  forall u', In u' (users s') ->
    exists u, In u (users s) /\ u_user_id u' = u_user_id u /\
              u_username u' = u_username u /\
              (u_balance u' = u_balance u \/ check_ge_0 (u_balance u') = true).
Proof.
  intros balance user_id clock s n s'. unfold update_balance.
  destruct (existsb (has_user_id user_id) (users s) &&
            negb (check_ge_0 (real_affinity balance))) eqn:E; [discriminate |].
  intros H. injection H as _ <-. cbn [with_users balance_history orders transactions
    admin_logs users]. repeat split.
  intros u' Hu'. apply in_map_iff in Hu'. destruct Hu' as (u & <- & Hu).
  exists u. split; [exact Hu |].
  destruct (has_user_id user_id u) eqn:Eh; cbn [u_user_id u_username u_balance];
    [| now repeat split; try left].
  repeat split. right.
  apply Bool.andb_false_iff in E. destruct E as [E | E].
  - assert (X : existsb (has_user_id user_id) (users s) = true)
      by (apply existsb_exists; now exists u).
    congruence.
  - now apply Bool.negb_false_iff in E.
Qed.

(** ** What the statements do to the tables *)

Lemma update_status_users : forall status user_id clock s n s',
  update_status status user_id clock s = Ok (n, s') ->
  balance_history s' = balance_history s /\ orders s' = orders s /\
  transactions s' = transactions s /\ admin_logs s' = admin_logs s /\
  forall u', In u' (users s') ->
    exists u, In u (users s) /\ u_user_id u' = u_user_id u /\
              u_username u' = u_username u /\ u_balance u' = u_balance u.
Proof.
  intros status user_id clock s n s'. unfold update_status.
  destruct (existsb (has_user_id user_id) (users s) && negb (status_allowed status));
    [discriminate |].
  intros H. injection H as _ <-. cbn [with_users balance_history orders transactions
    admin_logs users]. repeat split.
  intros u' Hu'. apply in_map_iff in Hu'. destruct Hu' as (u & <- & Hu).
  exists u. split; [exact Hu |].
  destruct (has_user_id user_id u); now repeat split.
Qed.

Lemma update_balance_accounts : forall balance user_id clock s n s',
  update_balance balance user_id clock s = Ok (n, s') ->
  map (fun u => (u_user_id u, u_username u, u_status u)) (users s') =
  map (fun u => (u_user_id u, u_username u, u_status u)) (users s).
Proof.
  intros balance user_id clock s n s'. unfold update_balance.
  destruct (existsb (has_user_id user_id) (users s) &&
            negb (check_ge_0 (real_affinity balance))); [discriminate |].
  intros H. injection H as _ <-. cbn [with_users users].
  rewrite map_map. apply map_ext. intros u. now destruct (has_user_id user_id u).
Qed.

Lemma update_status_accounts : forall status user_id clock s n s',
  update_status status user_id clock s = Ok (n, s') ->
  map (fun u => (u_user_id u, u_username u, u_balance u)) (users s') =
  map (fun u => (u_user_id u, u_username u, u_balance u)) (users s).
Proof.
  intros status user_id clock s n s'. unfold update_status.
  destruct (existsb (has_user_id user_id) (users s) && negb (status_allowed status));
    [discriminate |].
  intros H. injection H as _ <-. cbn [with_users users].
  rewrite map_map. apply map_ext. intros u. now destruct (has_user_id user_id u).
Qed.

Lemma insert_balance_history_tables :
  forall user_id old_balance new_balance change_amount transaction_type admin_id
         clock s n s',
  insert_balance_history user_id old_balance new_balance change_amount
    transaction_type admin_id clock s = Ok (n, s') ->
  users s' = users s /\ orders s' = orders s /\ transactions s' = transactions s /\
  admin_logs s' = admin_logs s /\
  exists row, balance_history s' = (balance_history s ++ [row])%list /\
              h_user_id row = user_id.
Proof.
  intros until s'. unfold insert_balance_history.
  destruct (is_null (real_affinity old_balance) || is_null (real_affinity new_balance) ||
            is_null (real_affinity change_amount)); [discriminate |].
  intros H. injection H as _ <-. cbn. repeat split. eexists. split; reflexivity.
Qed.

Lemma insert_admin_log_tables :
  forall admin_id action details target_user_id clock s n s',
  insert_admin_log admin_id action details target_user_id clock s = Ok (n, s') ->
  users s' = users s /\ orders s' = orders s /\ transactions s' = transactions s /\
  balance_history s' = balance_history s /\
  exists row, admin_logs s' = (admin_logs s ++ [row])%list /\
              l_action row = action /\ l_target_user_id row = Some target_user_id.
Proof.
  intros until s'. unfold insert_admin_log.
  intros H. injection H as _ <-. cbn. repeat split. eexists. repeat split; reflexivity.
Qed.

Lemma insert_transaction_tables :
  forall tx_id user_id amount type payment_method payment_subtype payment_number
         payment_details original_amount original_currency exchange_rate clock s n s',
  insert_transaction tx_id user_id amount type payment_method payment_subtype
    payment_number payment_details original_amount original_currency exchange_rate
    clock s = Ok (n, s') ->
  users s' = users s /\ orders s' = orders s /\ balance_history s' = balance_history s /\
  admin_logs s' = admin_logs s /\
  ~ In tx_id (map t_tx_id (transactions s)) /\
  exists row, transactions s' = (transactions s ++ [row])%list /\
              t_tx_id row = tx_id /\ t_user_id row = user_id /\
              t_status row = Some "pending".
Proof.
  intros until s'. unfold insert_transaction.
  destruct (is_null (real_affinity amount)); [discriminate |].
  destruct (negb (type_allowed type) || negb (tx_status_allowed "pending"));
    [discriminate |].
  destruct (existsb (has_tx_id tx_id) (transactions s)) eqn:E; [discriminate |].
  intros H. injection H as _ <-. cbn. repeat split.
  - intros Hin. apply in_map_iff in Hin. destruct Hin as (t & Ht & Hin).
    assert (X : existsb (has_tx_id tx_id) (transactions s) = true).
    { apply existsb_exists. exists t. split; [exact Hin |].
      unfold has_tx_id. rewrite Ht. apply String.eqb_refl. }
    congruence.
  - eexists. repeat split; reflexivity.
Qed.

(** ** Balances stay non-negative *)

Lemma keeps_balances_non_negative :
  (forall balance user_id, keeps balances_non_negative (update_balance balance user_id)) /\
  (forall status user_id, keeps balances_non_negative (update_status status user_id)) /\
  (forall user_id old_balance new_balance change_amount transaction_type admin_id,
     keeps balances_non_negative
       (insert_balance_history user_id old_balance new_balance change_amount
          transaction_type admin_id)) /\
  (forall admin_id action details target_user_id,
     keeps balances_non_negative
       (insert_admin_log admin_id action details target_user_id)) /\
  (forall tx_id user_id amount type payment_method payment_subtype payment_number
          payment_details original_amount original_currency exchange_rate,
     keeps balances_non_negative
       (insert_transaction tx_id user_id amount type payment_method
          payment_subtype payment_number payment_details original_amount
          original_currency exchange_rate)).
Proof.
  unfold keeps, balances_non_negative. repeat split.
  - intros balance user_id clock s n s' H Hs u' Hu'.
    apply update_balance_users in H. destruct H as (_ & _ & _ & _ & H).
    destruct (H u' Hu') as (u & Hu & _ & _ & [Hb | Hb]); [| exact Hb].
    rewrite Hb. now apply Hs.
  - intros status user_id clock s n s' H Hs u' Hu'.
    apply update_status_users in H. destruct H as (_ & _ & _ & _ & H).
    destruct (H u' Hu') as (u & Hu & _ & _ & Hb). rewrite Hb. now apply Hs.
  - intros until s'. intros H Hs u Hu.
    apply insert_balance_history_tables in H. destruct H as (H & _).
    rewrite H in Hu. now apply Hs.
  - intros until s'. intros H Hs u Hu.
    apply insert_admin_log_tables in H. destruct H as (H & _).
    rewrite H in Hu. now apply Hs.
  - intros until s'. intros H Hs u Hu.
    apply insert_transaction_tables in H. destruct H as (H & _).
    rewrite H in Hu. now apply Hs.
Qed.

(** X5: whatever the calls of the writing methods are, and whichever calls
    into SQLite fail on the way, a store in which every balance passes
    [CHECK (balance >= 0)] is left as such a store. *)
Theorem balances_stay_non_negative :
  forall (calls : list Call) (w : World),
    txn w = None ->
    balances_non_negative (store w) ->
    balances_non_negative (store (perform_all calls w)).
Proof.
  intros calls w Ht Hs.
  destruct keeps_balances_non_negative as (H1 & H2 & H3 & H4 & H5).
  exact (proj1 (kept_by_perform_all balances_non_negative H1 H2 H3 H4 H5 calls w Ht Hs)).
Qed.

Lemma balances_stay_non_negative_witness :
  let w := set_faults [false; false; false; false; false; false; false; false; true]
             (quiet_world (store_1001 real_50000) clock_0) in
  let calls := [CallModifyUserBalance 1001 (DFinite true 70000 0) 1;
                CallModifyUserBalance 1001 (DFinite true 20000 0) 1;
                CallBanUser 1001 7] in
  txn w = None /\ balances_non_negative (store w) /\
  balances_non_negative (store (perform_all calls w)).
Proof.
  intros w calls.
  assert (H : balances_non_negative (store w)) by (intros u [<- | []]; reflexivity).
  split; [reflexivity |]. split; [exact H |].
  exact (balances_stay_non_negative calls w eq_refl H).
Defined.

(** ** Accounts are neither added nor removed *)

Lemma select_user_id_by_username_accounts : forall us us' username,
  map (fun u => (u_user_id u, u_username u)) us' =
  map (fun u => (u_user_id u, u_username u)) us ->
  option_map u_user_id
    (find (fun u => match u_username u with
                    | Some n => (n =? username)%string
                    | None => false
                    end) us') =
  option_map u_user_id
    (find (fun u => match u_username u with
                    | Some n => (n =? username)%string
                    | None => false
                    end) us).
Proof.
  induction us as [|u us IH]; intros [|u' us'] username H; try discriminate H;
    [reflexivity |].
  cbn [map] in H. injection H as Hi Hn H. cbn [find]. rewrite Hn.
  destruct (match u_username u with Some n => (n =? username)%string | None => false end).
  - cbn [option_map]. now rewrite Hi.
  - now apply IH.
Qed.

Lemma keeps_same_accounts : forall s0,
  (forall balance user_id, keeps (same_accounts s0) (update_balance balance user_id)) /\
  (forall status user_id, keeps (same_accounts s0) (update_status status user_id)) /\
  (forall user_id old_balance new_balance change_amount transaction_type admin_id,
     keeps (same_accounts s0)
       (insert_balance_history user_id old_balance new_balance change_amount
          transaction_type admin_id)) /\
  (forall admin_id action details target_user_id,
     keeps (same_accounts s0)
       (insert_admin_log admin_id action details target_user_id)) /\
  (forall tx_id user_id amount type payment_method payment_subtype payment_number
          payment_details original_amount original_currency exchange_rate,
     keeps (same_accounts s0)
       (insert_transaction tx_id user_id amount type payment_method
          payment_subtype payment_number payment_details original_amount
          original_currency exchange_rate)).
Proof.
  intros s0. unfold keeps, same_accounts. repeat split.
  - intros balance user_id clock s n s' H Hs. rewrite <- Hs.
    apply update_balance_accounts in H.
    apply (f_equal (map (fun t : Z * option string * option string => fst t))) in H.
    rewrite !map_map in H. exact H.
  - intros status user_id clock s n s' H Hs. rewrite <- Hs.
    apply update_status_accounts in H.
    apply (f_equal (map (fun t : Z * option string * value => fst t))) in H.
    rewrite !map_map in H. exact H.
  - intros until s'. intros H Hs.
    apply insert_balance_history_tables in H. destruct H as (H & _). now rewrite H.
  - intros until s'. intros H Hs.
    apply insert_admin_log_tables in H. destruct H as (H & _). now rewrite H.
  - intros until s'. intros H Hs.
    apply insert_transaction_tables in H. destruct H as (H & _). now rewrite H.
Qed.

(** X6: no sequence of calls of the writing methods adds, removes or renames
    an account, whichever calls into SQLite fail: the user ids and handles
    are those from before, so [get_total_users] counts the same and a
    handle resolves to the same id. *)
Theorem accounts_are_kept :
  forall (calls : list Call) (w : World),
    txn w = None ->
    let s := store (perform_all calls w) in
    same_accounts (store w) s /\
    count_users s = count_users (store w) /\
    forall username,
      select_user_id_by_username username s =
      select_user_id_by_username username (store w).
Proof.
  intros calls w Ht s.
  destruct (keeps_same_accounts (store w)) as (H1 & H2 & H3 & H4 & H5).
  pose proof (proj1 (kept_by_perform_all (same_accounts (store w)) H1 H2 H3 H4 H5
                       calls w Ht eq_refl)) as H.
  fold s in H. split; [exact H |]. split.
  - unfold count_users. f_equal.
    rewrite <- (length_map (fun u => (u_user_id u, u_username u)) (users s)).
    unfold same_accounts in H. rewrite H. apply length_map.
  - intros username. unfold select_user_id_by_username.
    now apply select_user_id_by_username_accounts.
Qed.

Lemma accounts_are_kept_witness :
  let w := set_faults [false; false; false; false; false; true]
             (quiet_world (store_1001 real_50000) clock_0) in
  let calls := [CallBanUser 1001 7;
                CallCreateTransaction "tx-abc" 1001 (DFinite false 20000 0) "syriatel"
                  None None no_kwargs] in
  txn w = None /\
  count_users (store (perform_all calls w)) = 1 /\
  select_user_id_by_username "Alice" (store (perform_all calls w)) = Some 1001.
Proof.
  intros w calls.
  destruct (accounts_are_kept calls w eq_refl) as (_ & H1 & H2).
  split; [reflexivity |]. split; [exact H1 | exact (H2 "Alice")].
Defined.

(** ** Rows are only added *)

Lemma rows_only_added_refl : forall s, rows_only_added s s.
Proof.
  intros s. unfold rows_only_added.
  repeat split; try (exists []; now rewrite app_nil_r).
Qed.

Lemma keeps_rows_only_added : forall s0,
  (forall balance user_id, keeps (rows_only_added s0) (update_balance balance user_id)) /\
  (forall status user_id, keeps (rows_only_added s0) (update_status status user_id)) /\
  (forall user_id old_balance new_balance change_amount transaction_type admin_id,
     keeps (rows_only_added s0)
       (insert_balance_history user_id old_balance new_balance change_amount
          transaction_type admin_id)) /\
  (forall admin_id action details target_user_id,
     keeps (rows_only_added s0)
       (insert_admin_log admin_id action details target_user_id)) /\
  (forall tx_id user_id amount type payment_method payment_subtype payment_number
          payment_details original_amount original_currency exchange_rate,
     keeps (rows_only_added s0)
       (insert_transaction tx_id user_id amount type payment_method
          payment_subtype payment_number payment_details original_amount
          original_currency exchange_rate)).
Proof.
  intros s0. unfold keeps, rows_only_added.
  split; [| split; [| split; [| split]]].
  - intros balance user_id clock s n s' H (Hh & Hl & Ht & Ho).
    apply update_balance_users in H. destruct H as (E1 & E2 & E3 & E4 & _).
    now rewrite E1, E2, E3, E4.
  - intros status user_id clock s n s' H (Hh & Hl & Ht & Ho).
    apply update_status_users in H. destruct H as (E1 & E2 & E3 & E4 & _).
    now rewrite E1, E2, E3, E4.
  - intros until s'. intros H ((rh & Hh) & Hl & Ht & Ho).
    apply insert_balance_history_tables in H.
    destruct H as (_ & E2 & E3 & E4 & row & E1 & _).
    rewrite E1, E2, E3, E4. repeat split; try assumption.
    exists (rh ++ [row])%list. now rewrite Hh, app_assoc.
  - intros until s'. intros H (Hh & (rl & Hl) & Ht & Ho).
    apply insert_admin_log_tables in H.
    destruct H as (_ & E2 & E3 & E4 & row & E1 & _).
    rewrite E1, E2, E3, E4. repeat split; try assumption.
    exists (rl ++ [row])%list. now rewrite Hl, app_assoc.
  - intros until s'. intros H (Hh & Hl & (rt & Ht) & Ho).
    apply insert_transaction_tables in H.
    destruct H as (_ & E2 & E3 & E4 & _ & row & E1 & _).
    rewrite E1, E2, E3, E4. repeat split; try assumption.
    exists (rt ++ [row])%list. now rewrite Ht, app_assoc.
Qed.

(** X7: the writing methods only ever add rows to [balance_history],
    [admin_logs] and [transactions] and do not touch [orders]: after any
    sequence of calls, whichever calls into SQLite fail, the rows from
    before are still there, unchanged and in their place. *)
Theorem rows_are_only_added :
  forall (calls : list Call) (w : World),
    txn w = None ->
    rows_only_added (store w) (store (perform_all calls w)).
Proof.
  intros calls w Ht.
  destruct (keeps_rows_only_added (store w)) as (H1 & H2 & H3 & H4 & H5).
  exact (proj1 (kept_by_perform_all (rows_only_added (store w)) H1 H2 H3 H4 H5
                  calls w Ht (rows_only_added_refl (store w)))).
Qed.

Lemma rows_are_only_added_witness :
  let w := set_faults [false; false; false; false; false; false; false; true]
             (quiet_world (store_1001 real_50000) clock_0) in
  let calls := [CallModifyUserBalance 1001 (DFinite true 20000 0) 1;
                CallUnbanUser 1001 7] in
  txn w = None /\ rows_only_added (store w) (store (perform_all calls w)).
Proof.
  intros w calls. split; [reflexivity |].
  exact (rows_are_only_added calls w eq_refl).
Defined.

(** ** Transaction ids stay unique *)

Lemma NoDup_snoc : forall (A : Type) (l : list A) (a : A),
  NoDup l -> ~ In a l -> NoDup (l ++ [a]).
Proof.
  intros A l a Hl Ha. induction Hl as [|x l Hx Hl IH]; cbn.
  - constructor; [intros [] | constructor].
  - constructor.
    + intros Hin. apply in_app_or in Hin. destruct Hin as [Hin | [<- | []]].
      * now apply Hx.
      * apply Ha. now left.
    + apply IH. intros Hin. apply Ha. now right.
Qed.

Lemma keeps_unique_tx_ids :
  (forall balance user_id, keeps unique_tx_ids (update_balance balance user_id)) /\
  (forall status user_id, keeps unique_tx_ids (update_status status user_id)) /\
  (forall user_id old_balance new_balance change_amount transaction_type admin_id,
     keeps unique_tx_ids
       (insert_balance_history user_id old_balance new_balance change_amount
          transaction_type admin_id)) /\
  (forall admin_id action details target_user_id,
     keeps unique_tx_ids (insert_admin_log admin_id action details target_user_id)) /\
  (forall tx_id user_id amount type payment_method payment_subtype payment_number
          payment_details original_amount original_currency exchange_rate,
     keeps unique_tx_ids
       (insert_transaction tx_id user_id amount type payment_method
          payment_subtype payment_number payment_details original_amount
          original_currency exchange_rate)).
Proof.
  unfold keeps, unique_tx_ids. repeat split.
  - intros balance user_id clock s n s' H Hs.
    apply update_balance_users in H. destruct H as (_ & _ & E & _). now rewrite E.
  - intros status user_id clock s n s' H Hs.
    apply update_status_users in H. destruct H as (_ & _ & E & _). now rewrite E.
  - intros until s'. intros H Hs.
    apply insert_balance_history_tables in H. destruct H as (_ & _ & E & _).
    now rewrite E.
  - intros until s'. intros H Hs.
    apply insert_admin_log_tables in H. destruct H as (_ & _ & E & _). now rewrite E.
  - intros until s'. intros H Hs.
    apply insert_transaction_tables in H.
    destruct H as (_ & _ & _ & _ & Hnew & row & E & Hid & _).
    rewrite E, map_app. cbn [map]. rewrite Hid. now apply NoDup_snoc.
Qed.

(** X8: [tx_id] stays a key of [transactions]: when no two rows share their
    id before a sequence of calls of the writing methods, no two rows share
    it after, whichever calls into SQLite fail. *)
Theorem tx_ids_stay_unique :
  forall (calls : list Call) (w : World),
    txn w = None ->
    unique_tx_ids (store w) ->
    unique_tx_ids (store (perform_all calls w)).
Proof.
  intros calls w Ht Hs.
  destruct keeps_unique_tx_ids as (H1 & H2 & H3 & H4 & H5).
  exact (proj1 (kept_by_perform_all unique_tx_ids H1 H2 H3 H4 H5 calls w Ht Hs)).
Qed.

Lemma tx_ids_stay_unique_witness :
  let w := quiet_world (store_1001 real_50000) clock_0 in
  let calls := [CallCreateTransaction "tx-abc" 1001 (DFinite false 20000 0) "syriatel"
                  None None no_kwargs;
                CallCreateTransaction "tx-abc" 1001 (DFinite false 30000 0) "mtn"
                  None None no_kwargs] in
  txn w = None /\ unique_tx_ids (store w) /\
  unique_tx_ids (store (perform_all calls w)).
Proof.
  intros w calls.
  assert (H : unique_tx_ids (store w)) by constructor.
  split; [reflexivity |]. split; [exact H |].
  exact (tx_ids_stay_unique calls w eq_refl H).
Defined.

(** ** The reading methods do not write *)

(** X9: [get_user_stats], [get_user_id_by_username], [get_total_users],
    [get_active_users_last_24h] and [get_total_transaction_volume] leave the
    store as it was, whichever calls into SQLite fail. *)
Theorem reading_methods_do_not_write :
  forall (datetime : Type) (fromisoformat : string -> option datetime)
         (within_last_day : string -> string -> bool)
         (user_id : Z) (username : string) (w : World),
    txn w = None ->
    store (snd (get_user_stats datetime fromisoformat user_id w)) = store w /\
    store (snd (get_user_id_by_username username w)) = store w /\
    store (snd (get_total_users w)) = store w /\
    store (snd (get_active_users_last_24h within_last_day w)) = store w /\
    store (snd (get_total_transaction_volume w)) = store w.
Proof.
  intros datetime fromisoformat within_last_day user_id username w Ht.
  assert (H0 : store_invariant (fun s => s = store w) w)
    by (split; [reflexivity | now rewrite Ht]).
  repeat split.
  - exact (proj1 (kept_by_get_user_stats _ datetime fromisoformat user_id w H0)).
  - exact (proj1 (kept_by_get_user_id_by_username _ username w H0)).
  - exact (proj1 (kept_by_get_total_users _ w H0)).
  - exact (proj1 (kept_by_get_active_users_last_24h _ within_last_day w H0)).
  - exact (proj1 (kept_by_get_total_transaction_volume _ w H0)).
Qed.

Lemma reading_methods_do_not_write_witness :
  let w := set_faults [false; false; false; false; true]
             (quiet_world (store_1001 real_50000) clock_0) in
  txn w = None /\
  store (snd (get_user_stats string Some 1001 w)) = store_1001 real_50000 /\
  store (snd (get_total_transaction_volume w)) = store_1001 real_50000.
Proof.
  intros w.
  destruct (reading_methods_do_not_write string Some (fun _ _ => true) 1001 "Alice" w
              eq_refl) as (H1 & _ & _ & _ & H2).
  split; [reflexivity |]. split; [exact H1 | exact H2].
Defined.

(** ** Which method changes what *)

Lemma keeps_balances_but_update_balance : forall us,
  (forall status user_id,
     keeps (fun s => map (fun u => (u_user_id u, u_balance u)) (users s) = us)
       (update_status status user_id)) /\
  (forall admin_id action details target_user_id,
     keeps (fun s => map (fun u => (u_user_id u, u_balance u)) (users s) = us)
       (insert_admin_log admin_id action details target_user_id)) /\
  (forall tx_id user_id amount type payment_method payment_subtype payment_number
          payment_details original_amount original_currency exchange_rate,
     keeps (fun s => map (fun u => (u_user_id u, u_balance u)) (users s) = us)
       (insert_transaction tx_id user_id amount type payment_method
          payment_subtype payment_number payment_details original_amount
          original_currency exchange_rate)).
Proof.
  intros us. unfold keeps. repeat split.
  - intros status user_id clock s n s' H Hs. rewrite <- Hs.
    apply update_status_accounts in H.
    apply (f_equal (map (fun t : Z * option string * value => (fst (fst t), snd t)))) in H.
    rewrite !map_map in H. exact H.
  - intros until s'. intros H Hs.
    apply insert_admin_log_tables in H. destruct H as (H & _). now rewrite H.
  - intros until s'. intros H Hs.
    apply insert_transaction_tables in H. destruct H as (H & _). now rewrite H.
Qed.

Lemma keeps_statuses_but_update_status : forall us,
  (forall balance user_id,
     keeps (fun s => map (fun u => (u_user_id u, u_status u)) (users s) = us)
       (update_balance balance user_id)) /\
  (forall user_id old_balance new_balance change_amount transaction_type admin_id,
     keeps (fun s => map (fun u => (u_user_id u, u_status u)) (users s) = us)
       (insert_balance_history user_id old_balance new_balance change_amount
          transaction_type admin_id)) /\
  (forall admin_id action details target_user_id,
     keeps (fun s => map (fun u => (u_user_id u, u_status u)) (users s) = us)
       (insert_admin_log admin_id action details target_user_id)) /\
  (forall tx_id user_id amount type payment_method payment_subtype payment_number
          payment_details original_amount original_currency exchange_rate,
     keeps (fun s => map (fun u => (u_user_id u, u_status u)) (users s) = us)
       (insert_transaction tx_id user_id amount type payment_method
          payment_subtype payment_number payment_details original_amount
          original_currency exchange_rate)).
Proof.
  intros us. unfold keeps. repeat split.
  - intros balance user_id clock s n s' H Hs. rewrite <- Hs.
    apply update_balance_accounts in H.
    apply (f_equal (map (fun t : Z * option string * option string =>
                           (fst (fst t), snd t)))) in H.
    rewrite !map_map in H. exact H.
  - intros until s'. intros H Hs.
    apply insert_balance_history_tables in H. destruct H as (H & _). now rewrite H.
  - intros until s'. intros H Hs.
    apply insert_admin_log_tables in H. destruct H as (H & _). now rewrite H.
  - intros until s'. intros H Hs.
    apply insert_transaction_tables in H. destruct H as (H & _). now rewrite H.
Qed.

(** X10: the balance of every account is the same after a call of [ban_user],
    [unban_user] or [create_transaction] as before it, and the status of
    every account is the same after a call of [modify_user_balance] or
    [create_transaction], whichever calls into SQLite fail. *)
Theorem balances_and_statuses_elsewhere :
  forall (w : World) (user_id admin_id : Z) (amount : Decimal) (tx_id : string)
         (payment_method : string) (payment_subtype payment_number : option string)
         (kw : kwargs),
    txn w = None ->
    let balances s := map (fun u => (u_user_id u, u_balance u)) (users s) in
    let statuses s := map (fun u => (u_user_id u, u_status u)) (users s) in
    let creation := create_transaction tx_id user_id amount payment_method
                      payment_subtype payment_number kw in
    balances (store (snd (ban_user user_id admin_id w))) = balances (store w) /\
    balances (store (snd (unban_user user_id admin_id w))) = balances (store w) /\
    balances (store (snd (creation w))) = balances (store w) /\
    statuses (store (snd (modify_user_balance user_id amount admin_id w)))
      = statuses (store w) /\
    statuses (store (snd (creation w))) = statuses (store w).
Proof.
  intros w user_id admin_id amount tx_id payment_method payment_subtype
         payment_number kw Ht balances statuses creation.
  destruct (keeps_balances_but_update_balance (balances (store w))) as (B1 & B2 & B3).
  destruct (keeps_statuses_but_update_status (statuses (store w))) as (S1 & S2 & S3 & S4).
  assert (HB : store_invariant (fun s => balances s = balances (store w)) w)
    by (split; [reflexivity | now rewrite Ht]).
  assert (HS : store_invariant (fun s => statuses s = statuses (store w)) w)
    by (split; [reflexivity | now rewrite Ht]).
  repeat split.
  - exact (proj1 (kept_by_ban_user _ B1 B2 user_id admin_id w HB)).
  - exact (proj1 (kept_by_unban_user _ B1 B2 user_id admin_id w HB)).
  - exact (proj1 (kept_by_create_transaction _ B3 tx_id user_id amount payment_method
                    payment_subtype payment_number kw w HB)).
  - exact (proj1 (kept_by_modify_user_balance _ S1 S2 S3 user_id amount admin_id w HS)).
  - exact (proj1 (kept_by_create_transaction _ S4 tx_id user_id amount payment_method
                    payment_subtype payment_number kw w HS)).
Qed.

Lemma balances_and_statuses_elsewhere_witness :
  let w := quiet_world (store_1001 real_50000) clock_0 in
  txn w = None /\
  map (fun u => (u_user_id u, u_balance u)) (users (store (snd (ban_user 1001 7 w))))
    = [(1001, real_50000)] /\
  map (fun u => (u_user_id u, u_status u))
      (users (store (snd (modify_user_balance 1001 (DFinite true 20000 0) 7 w))))
    = [(1001, Some "active")].
Proof.
  intros w.
  destruct (balances_and_statuses_elsewhere w 1001 7 (DFinite true 20000 0) "tx-abc"
              "syriatel" None None no_kwargs eq_refl) as (H1 & _ & _ & H2 & _).
  split; [reflexivity |]. split; [exact H1 | exact H2].
Defined.

(** ** The retries of [get_connection] *)


(** ** A failure before the transaction has begun *)

Ltac run_quiet :=
  cbv beta iota zeta delta
    [bind ret raise lift try_except try_finally if_conn logger_error sleep_1
     conn_None open_cursor conn_close close get_connection get_connection_loop
     connect_attempt sqlite3_connect execute_pragma sqlite_call execute_begin
     execute_commit execute_rollback execute_query execute_update
     execute_query_result set_store set_txn set_open set_conn set_faults
     set_log set_slept store txn open_connections next_handle conn faults log
     slept now exc_class fst snd].

(** X11: when BEGIN TRANSACTION fails on a connection that was opened, the
    handler of a writing method runs ROLLBACK with no transaction active;
    the error of this ROLLBACK is not caught, so the method raises an
    [OperationalError] where it would return [False].  The store is left as
    it was. *)
Theorem failed_begin_raises :
  forall (c : Call) (w : World) (later : list bool),
    txn w = None ->
    faults w = false :: false :: false :: true :: later ->
    let r := perform c w in
    (exists e, fst r = Raise e /\ exc_class e = OperationalError) /\
    store (snd r) = store w /\ txn (snd r) = None.
Proof.
  intros c w later Ht Hf.
  destruct w as [s t o n c0 f l z k]. cbn [txn faults] in Ht, Hf. subst t f.
  destruct c; cbn [perform];
    unfold ban_user, unban_user, modify_user_balance, create_transaction; run_quiet;
    destruct later as [|[|] later]; run_quiet;
    (split; [eexists; split; reflexivity | split; reflexivity]).
Qed.

Lemma failed_begin_raises_witness :
  let w := set_faults [false; false; false; true]
             (quiet_world (store_1001 real_0) clock_0) in
  let r := perform (CallModifyUserBalance 1001 (DFinite false 50000 0) 1) w in
  fst r = Raise (mkException OperationalError "cannot rollback - no transaction is active") /\
  (exists e, fst r = Raise e /\ exc_class e = OperationalError) /\
  store (snd r) = store w.
Proof.
  intros w r.
  destruct (failed_begin_raises (CallModifyUserBalance 1001 (DFinite false 50000 0) 1)
              w [] eq_refl eq_refl) as (H1 & H2 & _).
  split; [reflexivity |]. split; [exact H1 | exact H2].
Defined.

(** ** Connections are closed *)

Lemma filter_fresh_handle : forall (o : list handle) (n : handle),
  ~ In n o ->
  filter (fun h' => negb (Nat.eqb h' n)) (o ++ [n]) = o.
Proof.
  intros o n Hn. induction o as [|h o IH]; cbn.
  - now rewrite Nat.eqb_refl.
  - destruct (Nat.eqb h n) eqn:E.
    + apply Nat.eqb_eq in E. subst. exfalso. apply Hn. now left.
    + cbn [negb]. rewrite IH; [reflexivity |]. intros Hin. apply Hn. now right.
Qed.

Ltac to_the_end_quiet :=
  repeat match goal with
    | |- context [let (_, _) := ?x in _] => is_var x; destruct x; run_quiet
    | |- context [match ?x with Ok _ => _ | Raise _ => _ end] => destruct x; run_quiet
    | |- context [match ?x with Some _ => _ | None => _ end] => destruct x; run_quiet
    | |- context [if ?x then _ else _] => destruct x; run_quiet
    end.

(** X12: in a run in which no call into SQLite fails, every method that has a
    [finally] closes the connection it opened: the connections open after
    the call are those open before it. *)
Theorem connections_are_closed :
  forall (datetime : Type) (fromisoformat : string -> option datetime)
         (within_last_day : string -> string -> bool)
         (c : Call) (user_id : Z) (username : string) (w : World),
    faults w = [] ->
    ~ In (next_handle w) (open_connections w) ->
    open_connections (snd (perform c w)) = open_connections w /\
    open_connections (snd (get_user_stats datetime fromisoformat user_id w))
      = open_connections w /\
    open_connections (snd (get_user_id_by_username username w)) = open_connections w /\
    open_connections (snd (get_total_users w)) = open_connections w /\
    open_connections (snd (get_active_users_last_24h within_last_day w))
      = open_connections w.
Proof.
  intros datetime fromisoformat within_last_day c user_id username w Hf Hn.
  destruct w as [s t o n c0 f l z k]. cbn [faults open_connections next_handle] in *.
  subst f.
  split; [| split; [| split; [| split]]].
  - destruct c; cbn [perform];
      unfold ban_user, unban_user, modify_user_balance, create_transaction; run_quiet;
      to_the_end_quiet; now apply filter_fresh_handle.
  - unfold get_user_stats, get_user_stats_try, parse_date; run_quiet;
      to_the_end_quiet; now apply filter_fresh_handle.
  - unfold get_user_id_by_username; run_quiet; to_the_end_quiet;
      now apply filter_fresh_handle.
  - unfold get_total_users, get_total_users_try; run_quiet; to_the_end_quiet;
      now apply filter_fresh_handle.
  - unfold get_active_users_last_24h, get_active_users_last_24h_try; run_quiet;
      to_the_end_quiet; now apply filter_fresh_handle.
Qed.

Lemma connections_are_closed_witness :
  let w := quiet_world (store_1001 real_0) clock_0 in
  faults w = [] /\ ~ In (next_handle w) (open_connections w) /\
  open_connections (snd (perform (CallModifyUserBalance 1001 (DFinite false 50000 0) 1) w))
    = [] /\
  open_connections (snd (get_total_users w)) = [].
Proof.
  intros w.
  destruct (connections_are_closed string Some (fun _ _ => true)
              (CallModifyUserBalance 1001 (DFinite false 50000 0) 1) 1001 "Alice" w
              eq_refl (fun H : In (next_handle w) (open_connections w) => H))
    as (H1 & _ & _ & H2 & _).
  split; [reflexivity |]. split; [exact (fun H => H) |]. split; [exact H1 | exact H2].
Defined.

(** ** Accounts that cannot be changed *)



(** ** An infinite credit *)





(** ** Created transactions and the volume *)

(** X15: a transaction that [create_transaction] has just created is the last
    row of [transactions], with the id given and the status 'pending'; it
    does not count in [get_total_transaction_volume], which answers as
    before the call. *)
Theorem created_transaction_not_in_volume :
  forall (w : World) (tx_id : string) (user_id : Z) (amount : Decimal)
         (payment_method : string) (payment_subtype payment_number : option string)
         (kw : kwargs),
    faults w = [] ->
    txn w = None ->
    let r := create_transaction tx_id user_id amount payment_method payment_subtype
               payment_number kw w in
    fst r = Ok true ->
    (exists row,
       transactions (store (snd r)) = (transactions (store w) ++ [row])%list /\
       t_tx_id row = tx_id /\ t_user_id row = user_id /\
       t_status row = Some "pending") /\
    fst (get_total_transaction_volume (snd r)) = fst (get_total_transaction_volume w).
Proof.
  intros w tx_id user_id amount payment_method payment_subtype payment_number kw Hf Ht.
  quiet_world w. unfold create_transaction. run_quiet.
  match goal with
  | |- context [insert_transaction ?a ?b ?c ?d ?e ?f ?g ?h ?i ?j ?k ?l ?m] =>
      destruct (insert_transaction a b c d e f g h i j k l m) as [[n1 s1]|e1] eqn:Ei
  end; run_quiet; [| intros X; discriminate X].
  intros _. apply insert_transaction_tables in Ei.
  destruct Ei as (_ & _ & _ & _ & _ & row & E & H1 & H2 & H3).
  split; [now exists row |].
  unfold get_total_transaction_volume, get_total_transaction_volume_try. run_quiet.
  assert (Hv : select_total_volume s1 = select_total_volume s).
  { unfold select_total_volume. rewrite E, filter_app. cbn [filter].
    rewrite H3. cbn [is_text String.eqb Ascii.eqb Bool.eqb].
    now rewrite app_nil_r. }
  rewrite Hv. destruct (select_total_volume s) as [total|e]; run_quiet; [| reflexivity].
  destruct (Decimal_of_fetched total); reflexivity.
Qed.

Lemma created_transaction_not_in_volume_witness :
  let w := quiet_world (store_1001 real_0) clock_0 in
  let r := create_transaction "tx-abc" 1001 (DFinite false 20000 0) "syriatel"
             None None no_kwargs w in
  fst r = Ok true /\
  fst (get_total_transaction_volume (snd r)) = fst (get_total_transaction_volume w) /\
  fst (get_total_transaction_volume w) = Ok (DFinite false 0 0).
Proof.
  intros w r.
  assert (H : fst r = Ok true) by (vm_compute; reflexivity).
  destruct (created_transaction_not_in_volume w "tx-abc" 1001 (DFinite false 20000 0)
              "syriatel" None None no_kwargs eq_refl eq_refl H) as (_ & H1).
  split; [exact H |]. split; [exact H1 | reflexivity].
Defined.

(** ** A ban and the statistics *)

(** X16: what [ban_user] and [unban_user] write is what [get_user_stats]
    reads.  Without a failure of SQLite, the statistics of an account that
    was just banned have [is_banned] set, and those of an account that was
    just unbanned have it cleared. *)
Theorem ban_shows_in_stats :
  forall (datetime : Type) (fromisoformat : string -> option datetime)
         (w : World) (user_id admin_id : Z) (stats : UserStats datetime),
    faults w = [] ->
    txn w = None ->
    let b := ban_user user_id admin_id w in
    let u := unban_user user_id admin_id w in
    (fst b = Ok true ->
     fst (get_user_stats datetime fromisoformat user_id (snd b)) = Ok (Some stats) ->
     s_is_banned datetime stats = true) /\
    (fst u = Ok true ->
     fst (get_user_stats datetime fromisoformat user_id (snd u)) = Ok (Some stats) ->
     s_is_banned datetime stats = false).
Proof.
  intros datetime fromisoformat w user_id admin_id stats Hf Ht.
  quiet_world w. split.
  - unfold ban_user. run_quiet. rewrite update_status_allowed by reflexivity.
    run_quiet. rewrite rowcount_positive, find_existsb.
    destruct (find (has_user_id user_id) (users s)) as [account|] eqn:E; run_quiet;
      [| intros X; discriminate X].
    intros _. unfold insert_admin_log. run_quiet.
    unfold get_user_stats, get_user_stats_try, parse_date. run_quiet.
    unfold select_user at 1. cbn [users with_users].
    rewrite (find_user_updated
               (fun u => mkUser (u_user_id u) (u_username u) (u_first_name u)
                           (u_balance u) (u_joined_date u) (u_last_activity u)
                           (Some "banned") (u_account_data u) (u_created_at u)
                           (Some clock))) by reflexivity.
    rewrite E. cbn [option_map]. run_quiet.
    to_the_end_quiet; intros X; try discriminate X.
    all: injection X as <-; reflexivity.
  - unfold unban_user. run_quiet. rewrite update_status_allowed by reflexivity.
    run_quiet. rewrite rowcount_positive, find_existsb.
    destruct (find (has_user_id user_id) (users s)) as [account|] eqn:E; run_quiet;
      [| intros X; discriminate X].
    intros _. unfold insert_admin_log. run_quiet.
    unfold get_user_stats, get_user_stats_try, parse_date. run_quiet.
    unfold select_user at 1. cbn [users with_users].
    rewrite (find_user_updated
               (fun u => mkUser (u_user_id u) (u_username u) (u_first_name u)
                           (u_balance u) (u_joined_date u) (u_last_activity u)
                           (Some "active") (u_account_data u) (u_created_at u)
                           (Some clock))) by reflexivity.
    rewrite E. cbn [option_map]. run_quiet.
    to_the_end_quiet; intros X; try discriminate X.
    all: injection X as <-; reflexivity.
Qed.

Lemma ban_shows_in_stats_witness :
  let w := quiet_world (store_1001 real_0) clock_0 in
  let b := ban_user 1001 7 w in
  exists stats,
    fst b = Ok true /\
    fst (get_user_stats string Some 1001 (snd b)) = Ok (Some stats) /\
    s_is_banned string stats = true.
Proof.
  intros w b.
  assert (H1 : fst b = Ok true) by (vm_compute; reflexivity).
  eexists. split; [exact H1 |].
  assert (H2 : fst (get_user_stats string Some 1001 (snd b)) =
               Ok (Some (mkUserStats string 1001 (Some "Alice") (Some "Alice")
                           (DFinite false 0 (-1)) "2024-01-01T00:00:00"
                           "2024-06-01T00:00:00" true "2024-01-01 00:00:00" 0
                           (DFinite false 0 0) (DFinite false 0 0) 0
                           (DFinite false 0 0))))
    by (vm_compute; reflexivity).
  split; [exact H2 |].
  exact (proj1 (ban_shows_in_stats string Some w 1001 7 _ eq_refl eq_refl) H1 H2).
Defined.

(** ** The initialization of the database *)

Ltac run_proc :=
  cbv beta iota zeta delta
    [p_bind p_ret in_world os_call os_makedirs_backup os_path_exists_DB_PATH
     backup_path shutil_copy2 logger_info conn_commit ret escaped_str
     set_world set_database_file set_backups set_info set_os_faults set_instance
     world database_file backups info os_faults timestamp instance
     set_conn set_log conn log store txn open_connections next_handle faults
     slept now fst snd].


(** The connection and the cursor of [init_db], opened in any world. *)
Ltac connect_in W :=
  let H := fresh "H" in
  let E := fresh "E" in
  let w1 := fresh "w" in
  pose proof (open_cursor_spec W) as H; cbv zeta in H;
  destruct (open_cursor W) as [[[]|?e] w1] eqn:E;
  destruct w1; cbn [fst snd store txn conn now log] in H.



(** Every way through [init_db] when no call of [os] or [shutil] fails. *)
Ltac init_db_paths :=
  unfold init_db, init_db_try, connect_in_process, executescript_schema; run_proc;
  match goal with |- context [open_cursor ?W] => connect_in W end;
  match goal with
  | H : _ /\ _ |- _ =>
      destruct H as (-> & -> & -> & H);
      first [ destruct H as (? & -> & ->) | destruct H as [-> ->] ]
  end; run_proc;
  try (match goal with
       | |- context [@sqlite_call ?A ?m ?w] =>
           let fs := fresh "fs" in
           let E' := fresh "E" in
           destruct (sqlite_call_cases A m w) as [fs [E'|E']]; rewrite E';
           clear E'; run_proc; run_calls
       end).

(** X18: [init_db] copies the database file before it connects, and only when
    the file is there.  When no call of [os] or [shutil] fails, the copy
    under backup/ exists after the call whichever calls into SQLite fail,
    also when the initialization itself fails; a database that does not
    exist yet is not backed up; the rows of the tables are left as they
    were; and when [init_db] returns, it has logged the backup, if any, and
    then the success. *)
Theorem init_db_backs_up_first :
  forall p : Process,
    os_faults p = [] ->
    txn (world p) = None ->
    let r := init_db p in
    let path := ("backup/diamond_store_" ++ timestamp p ++ ".db")%string in
    (database_file p = false -> backups (snd r) = backups p) /\
    (database_file p = true ->
     In path (backups (snd r)) /\
     forall other, In other (backups p) -> In other (backups (snd r))) /\
    store (world (snd r)) = store (world p) /\
    (fst r = Returned tt ->
     info (snd r) =
       (info p ++
        (if database_file p then [("Database backed up to " ++ path)%string] else []) ++
        ["Database initialized successfully"])%list).
Proof.
  intros [w d b i f t k] Hf Ht. cbn [os_faults world] in Hf, Ht. subst f.
  destruct w as [s tx o n c fw l z clock]. cbn [txn] in Ht. subst tx.
  cbv zeta. destruct d; init_db_paths.
  all: split; [intros X; first [discriminate X | reflexivity] |].
  all: split; [intros X; first [discriminate X | idtac] |].
  all: try (split; [reflexivity |]).
  all: try (intros X; first [discriminate X | now rewrite <- app_assoc | reflexivity]).
  all: destruct (existsb (String.eqb ("backup/diamond_store_" ++ t ++ ".db")) b) eqn:Ex;
       (split; [| intros other Ho; try (apply in_or_app; left); exact Ho]).
  all: try (apply in_or_app; right; now left).
  all: apply existsb_exists in Ex; destruct Ex as (found & Hfound & Ex);
       apply String.eqb_eq in Ex; now subst.
Qed.

Lemma init_db_backs_up_first_witness :
  let p := set_world (set_faults [true; true; true; true; true]
                        (quiet_world (store_1001 real_0) clock_0))
             (fresh_process (store_1001 real_0) true) in
  os_faults p = [] /\ txn (world p) = None /\ database_file p = true /\
  fst (init_db p) = Escapes (UnboundLocalError "conn") /\
  In "backup/diamond_store_20240601_120000.db" (backups (snd (init_db p))) /\
  store (world (snd (init_db p))) = store_1001 real_0.
Proof.
  intros p.
  destruct (init_db_backs_up_first p eq_refl eq_refl) as (_ & H1 & H2 & _).
  split; [reflexivity |]. split; [reflexivity |]. split; [reflexivity |].
  split; [reflexivity |]. split; [exact (proj1 (H1 eq_refl)) | exact H2].
Defined.

(** ** The instance of [Database] *)

Lemma init_db_instance : forall p, instance (snd (init_db p)) = instance p.
Proof.
  intros [w d b i f t k].
  destruct w as [s tx o n c fw l z clock].
  destruct f as [|[what|] f]; [| reflexivity |].
  - destruct d; init_db_paths; try destruct tx; reflexivity.
  - destruct d.
    + destruct f as [|[what|] f]; [| reflexivity |];
        init_db_paths; try destruct tx; reflexivity.
    + init_db_paths; try destruct tx; reflexivity.
Qed.

(** X19: [init_db] runs at most once in a process.  After a first call of
    [Database()], whether [init_db] returned or raised in it, the instance
    is marked initialized, and every later call returns at once: it copies
    no file, opens no connection and logs nothing, so an initialization that
    failed is not tried again. *)
Theorem Database_initializes_once :
  forall p : Process,
    let first := Database p in
    instance (snd first) = Some true /\
    Database (snd first) = (Returned tt, snd first).
Proof.
  intros p. cbv zeta.
  assert (H : instance (snd (Database p)) = Some true).
  { unfold Database, Database_new, Database_init, p_bind.
    destruct p as [w d b i f t [[|]|]]; cbn [instance set_instance fst snd];
      try reflexivity;
      match goal with
      | |- context [init_db ?q] =>
          pose proof (init_db_instance q) as X; destruct (init_db q) as [[[]|x] p1];
          cbn [snd instance] in *; exact X
      end. }
  split; [exact H |].
  destruct (snd (Database p)) as [w d b i f t k]. cbn [instance] in H. subst k.
  reflexivity.
Qed.

(** ** Lines of text *)

Lemma concat_app : forall (l1 l2 : list string),
  String.concat "" (l1 ++ l2) = String.concat "" l1 ++ String.concat "" l2.
Proof.
  induction l1 as [|x l1 IH]; intros l2; [reflexivity |].
  destruct l1 as [|y l1].
  - cbn [app String.concat]. destruct l2 as [|z l2]; cbn [String.concat].
    + now rewrite append_empty.
    + reflexivity.
  - change ((x :: y :: l1) ++ l2)%list with (x :: (y :: l1) ++ l2)%list.
    cbn [String.concat app] in *. rewrite IH. cbn [append].
    now rewrite append_assoc.
Qed.

Lemma concat_cons : forall (x : string) (l : list string),
  String.concat "" (x :: l) = x ++ String.concat "" l.
Proof. intros x l. apply (concat_app [x] l). Qed.

Lemma is_line_cons : forall a s,
  is_line (String a s) =
  match s with
  | EmptyString => (a =? Text.LF)%char
  | _ => negb (a =? Text.LF)%char && negb (a =? Text.CR)%char && is_line s
  end.
Proof. intros a s. destruct s; reflexivity. Qed.

Lemma lines_of_line : forall line rest,
  is_line line = true ->
  Text.lines_of (line ++ rest) = line :: Text.lines_of rest.
Proof.
  induction line as [|a line IH]; intros rest H; [discriminate H |].
  rewrite is_line_cons in H. destruct line as [|b line].
  - cbn [append Text.lines_of]. now rewrite H.
  - apply andb_prop in H. destruct H as [H H3]. apply andb_prop in H.
    destruct H as [H1 H2]. apply negb_true_iff in H1.
    change (String a (String b line) ++ rest) with (String a (String b line ++ rest)).
    cbn [Text.lines_of]. rewrite H1. now rewrite (IH rest H3).
Qed.

Lemma lines_of_concat : forall lines,
  forallb is_line lines = true ->
  Text.lines_of (Text.writelines lines) = lines.
Proof.
  unfold Text.writelines.
  induction lines as [|line lines IH]; intros H; [reflexivity |].
  cbn [forallb] in H. apply andb_prop in H. destruct H as [H1 H2].
  rewrite concat_cons, lines_of_line by exact H1. now rewrite IH.
Qed.

Lemma universal_newlines_line : forall line rest,
  is_line line = true ->
  Text.universal_newlines (line ++ rest) = line ++ Text.universal_newlines rest.
Proof.
  induction line as [|a line IH]; intros rest H; [discriminate H |].
  rewrite is_line_cons in H. destruct line as [|b line].
  - apply Ascii.eqb_eq in H. subst a. reflexivity.
  - apply andb_prop in H. destruct H as [H H3]. apply andb_prop in H.
    destruct H as [H1 H2]. apply negb_true_iff in H2.
    change (String a (String b line) ++ rest) with (String a (String b line ++ rest)).
    cbn [Text.universal_newlines]. rewrite H2. now rewrite (IH rest H3).
Qed.

Lemma universal_newlines_concat : forall lines,
  forallb is_line lines = true ->
  Text.universal_newlines (Text.writelines lines) = Text.writelines lines.
Proof.
  unfold Text.writelines.
  induction lines as [|line lines IH]; intros H; [reflexivity |].
  cbn [forallb] in H. apply andb_prop in H. destruct H as [H1 H2].
  rewrite concat_cons, universal_newlines_line by exact H1. now rewrite IH.
Qed.

(** What is written as lines is read back as the same lines. *)
Lemma readlines_writelines : forall lines,
  forallb is_line lines = true ->
  Text.readlines (Text.writelines lines) = lines.
Proof.
  intros lines H. unfold Text.readlines.
  rewrite universal_newlines_concat by exact H. now apply lines_of_concat.
Qed.

Lemma is_line_break : forall s, no_break s = true -> is_line (s ++ String Text.LF "") = true.
Proof.
  induction s as [|a s IH]; intros H; [reflexivity |].
  cbn [no_break] in H. apply andb_prop in H. destruct H as [H H3].
  change (String a s ++ String Text.LF "") with (String a (s ++ String Text.LF "")).
  rewrite is_line_cons. destruct (s ++ String Text.LF "") eqn:E.
  - destruct s; discriminate E.
  - rewrite H. now apply IH.
Qed.

Lemma no_break_app : forall s t, no_break (s ++ t) = no_break s && no_break t.
Proof.
  induction s as [|a s IH]; intros t; [reflexivity |].
  cbn [append no_break]. rewrite IH. now rewrite !andb_assoc.
Qed.

Lemma universal_newlines_no_CR_next : forall s,
  no_CR (Text.universal_newlines s) = true /\
  forall a, no_CR (Text.universal_newlines (String a s)) = true.
Proof.
  induction s as [|b s [IH1 IH2]].
  - split; [reflexivity |]. intros a. cbn [Text.universal_newlines].
    destruct (a =? Text.CR)%char eqn:E; [reflexivity |]. cbn [no_CR]. now rewrite E.
  - split; [apply IH2 |]. intros a.
    change (Text.universal_newlines (String a (String b s))) with
      (if (a =? Text.CR)%char then
         if (b =? Text.LF)%char then String Text.LF (Text.universal_newlines s)
         else String Text.LF (Text.universal_newlines (String b s))
       else String a (Text.universal_newlines (String b s))).
    destruct (a =? Text.CR)%char eqn:E.
    + destruct (b =? Text.LF)%char; cbn [no_CR];
        change (Text.LF =? Text.CR)%char with false; cbn [negb andb];
        [exact IH1 | apply IH2].
    + cbn [no_CR]. rewrite E. apply IH2.
Qed.

Lemma universal_newlines_no_CR : forall s, no_CR (Text.universal_newlines s) = true.
Proof. intros s. apply universal_newlines_no_CR_next. Qed.

(** The lines of a text that ends with a line break and has no carriage
    return are lines as a file holds them. *)
Lemma lines_of_lines : forall s,
  no_CR s = true -> ends_with_LF s = true -> forallb is_line (Text.lines_of s) = true.
Proof.
  induction s as [|a s IH]; intros Hc He; [reflexivity |].
  cbn [no_CR] in Hc. apply andb_prop in Hc. destruct Hc as [Hc1 Hc2].
  assert (He' : ends_with_LF s = true).
  { destruct s; [reflexivity | exact He]. }
  specialize (IH Hc2 He'). cbn [Text.lines_of].
  destruct (a =? Text.LF)%char eqn:E.
  - cbn [forallb is_line]. now rewrite E.
  - destruct (Text.lines_of s) as [|line rest] eqn:El.
    + destruct s as [|b s]; [cbn in He; congruence |].
      cbn [Text.lines_of] in El. destruct (b =? Text.LF)%char; [discriminate El |].
      destruct (Text.lines_of s); discriminate El.
    + cbn [forallb] in *. apply andb_prop in IH. destruct IH as [IH1 IH2].
      rewrite IH2, andb_true_r. rewrite is_line_cons.
      destruct line; [discriminate IH1 |]. now rewrite E, Hc1, IH1.
Qed.

(** ** Rewriting .env *)

Lemma concat_lines_of : forall s, Text.writelines (Text.lines_of s) = s.
Proof.
  unfold Text.writelines. induction s as [|a s IH]; [reflexivity |].
  cbn [Text.lines_of]. destruct (a =? Text.LF)%char.
  - rewrite concat_cons. cbn [append]. now rewrite IH.
  - destruct (Text.lines_of s) as [|line rest].
    + cbn in IH. now subst.
    + rewrite concat_cons in *. cbn [append]. now rewrite IH.
Qed.

(** The loop of [_update_env_variable], line by line. *)
Lemma fold_update_line : forall name value lines acc updated,
  fold_left (update_line name value) lines (acc, updated) =
  ((acc ++ map (fun line => if assigns name line then assignment name value else line)
                lines)%list,
   updated || existsb (assigns name) lines).
Proof.
  intros name value. induction lines as [|line lines IH]; intros acc updated.
  - cbn. now rewrite app_nil_r, orb_false_r.
  - cbn [fold_left map existsb].
    assert (Hstep : update_line name value (acc, updated) line =
                    ((acc ++ [if assigns name line then assignment name value else line])%list,
                     updated || assigns name line)).
    { unfold update_line, assigns.
      destruct (negb (Text.is_empty (Text.strip line)) && negb (Text.startswith "#" line));
        cbn [andb]; [destruct (Text.startswith (name ++ "=") line) |];
        rewrite ?orb_true_r, ?orb_false_r; reflexivity. }
    rewrite Hstep, IH, <- app_assoc, orb_assoc. reflexivity.
Qed.

Lemma updated_lines_spec : forall name value lines,
  updated_lines name value lines =
  (map (fun line => if assigns name line then assignment name value else line) lines ++
   (if existsb (assigns name) lines then [] else [assignment name value]))%list.
Proof.
  intros name value lines. unfold updated_lines.
  rewrite fold_update_line. cbn [app orb].
  destruct (existsb (assigns name) lines); [now rewrite app_nil_r | reflexivity].
Qed.

Lemma prefix_app : forall p s, String.prefix p (p ++ s) = true.
Proof.
  induction p as [|a p IH]; intros s; [destruct s; reflexivity |].
  cbn. destruct (ascii_dec a a); [apply IH | contradiction].
Qed.

Lemma startswith_assignment : forall name value,
  Text.startswith (name ++ "=") (assignment name value) = true.
Proof.
  intros name value. unfold Text.startswith, assignment.
  change (name ++ "=" ++ value ++ String Text.LF "")
    with (name ++ ("=" ++ (value ++ String Text.LF ""))).
  rewrite <- (append_assoc name "=" (value ++ String Text.LF "")).
  apply prefix_app.
Qed.

Lemma getenv_setitem : forall name value env other,
  getenv other
    (set_environ ((name, value) ::
                  filter (fun kv => negb (fst kv =? name)%string) (environ env)) env) =
  if (name =? other)%string then Some value else getenv other env.
Proof.
  intros name value env other. unfold getenv, set_environ. cbn [environ find fst snd].
  destruct (name =? other)%string eqn:E; [reflexivity |].
  f_equal. induction (environ env) as [|[k v] l IH]; [reflexivity |].
  cbn [filter find fst]. destruct (k =? name)%string eqn:Ek; cbn [negb].
  - apply String.eqb_eq in Ek. subst k. now rewrite E.
  - cbn [find fst]. destruct (k =? other)%string; [reflexivity | exact IH].
Qed.

Lemma environ_setitem_valid : forall name value env,
  valid_name name = true ->
  Text.contains "000"%char value = false ->
  environ_setitem name value env =
  (Returned tt,
   set_environ ((name, value) ::
                filter (fun kv => negb (fst kv =? name)%string) (environ env)) env).
Proof.
  intros name value env Hn Hv. unfold valid_name in Hn.
  apply andb_prop in Hn. destruct Hn as [Hn H3]. apply andb_prop in Hn.
  destruct Hn as [H1 H2]. apply negb_true_iff in H1, H2, H3.
  unfold environ_setitem. now rewrite H3, Hv, H2, H1.
Qed.

(** X20: [_update_env_variable] sets the variable and keeps the rest.  When
    no call of [open] fails and [os.environ] accepts the name and the value,
    it returns [True] and prints nothing; [os.getenv] then gives the value
    for the name and what it gave before for every other name; the file
    holds the lines written, among them the assignment; every line that
    counts as an assignment of the variable (not blank, not a comment,
    starting with the name and ['=']) is now this assignment; and the lines
    that do not start with the name and ['='] are those from before, in
    their order. *)
Theorem update_env_variable_sets :
  forall (variable_name new_value : string) (env : Env),
    open_faults env = [] ->
    valid_name variable_name = true ->
    Text.contains "000"%char new_value = false ->
    let r := _update_env_variable variable_name new_value env in
    let old := match dotenv env with
               | Some text => Text.readlines text
               | None => []
               end in
    let other line := negb (Text.startswith (variable_name ++ "=") line) in
    fst r = true /\
    printed (snd r) = printed env /\
    getenv variable_name (snd r) = Some new_value /\
    (forall name, name <> variable_name -> getenv name (snd r) = getenv name env) /\
    exists new_lines,
      dotenv (snd r) = Some (Text.writelines new_lines) /\
      In (assignment variable_name new_value) new_lines /\
      (forall line, In line new_lines -> assigns variable_name line = true ->
                    line = assignment variable_name new_value) /\
      filter other new_lines = filter other old.
Proof.
  intros name value [d e p f] Hf Hn Hv. cbn [open_faults] in Hf. subst f.
  cbv zeta. unfold _update_env_variable, _update_env_variable_try, open_dotenv.
  cbn [dotenv open_faults].
  assert (Hg : forall d' other,
            other <> name ->
            getenv other
              (set_environ ((name, value) ::
                 filter (fun kv => negb (fst kv =? name)%string)
                        (environ (set_dotenv d' (mkEnv d e p [])))) (set_dotenv d' (mkEnv d e p [])))
            = getenv other (mkEnv d e p [])).
  { intros d' other Ho. rewrite getenv_setitem.
    destruct (name =? other)%string eqn:E; [| reflexivity].
    apply String.eqb_eq in E. congruence. }
  destruct d as [text|].
  - rewrite environ_setitem_valid by assumption. cbn [fst snd].
    split; [reflexivity |]. split; [reflexivity |].
    split; [rewrite getenv_setitem; now rewrite String.eqb_refl |].
    split; [intros other Ho; now apply Hg |].
    exists (updated_lines name value (Text.readlines text)).
    split; [reflexivity |]. rewrite updated_lines_spec.
    set (lines := Text.readlines text). split; [| split].
    + apply in_or_app. destruct (existsb (assigns name) lines) eqn:E.
      * left. apply existsb_exists in E. destruct E as (line & Hin & Ha).
        apply in_map_iff. exists line. split; [now rewrite Ha | exact Hin].
      * right. now left.
    + intros line Hin Ha. apply in_app_or in Hin. destruct Hin as [Hin | Hin].
      * apply in_map_iff in Hin. destruct Hin as (l0 & <- & Hin).
        destruct (assigns name l0) eqn:E; [reflexivity | congruence].
      * destruct (existsb (assigns name) lines); [destruct Hin |].
        destruct Hin as [<- | []]. reflexivity.
    + rewrite filter_app.
      assert (Hlast : filter (fun line => negb (Text.startswith (name ++ "=") line))
                        (if existsb (assigns name) lines then []
                         else [assignment name value]) = []).
      { destruct (existsb (assigns name) lines); [reflexivity |].
        cbn [filter]. now rewrite startswith_assignment. }
      rewrite Hlast, app_nil_r. clear Hlast.
      induction lines as [|line lines IH]; [reflexivity |].
      cbn [map filter]. rewrite IH. destruct (assigns name line) eqn:E.
      * rewrite startswith_assignment. cbn [negb].
        unfold assigns in E. apply andb_prop in E. destruct E as [_ E]. now rewrite E.
      * reflexivity.
  - rewrite environ_setitem_valid by assumption. cbn [fst snd].
    split; [reflexivity |]. split; [reflexivity |].
    split; [rewrite getenv_setitem; now rewrite String.eqb_refl |].
    split; [intros other Ho; now apply Hg |].
    exists [assignment name value]. split; [reflexivity |].
    split; [now left |]. split.
    + intros line [<- | []] _. reflexivity.
    + cbn [filter]. now rewrite startswith_assignment.
Qed.

Lemma update_env_variable_sets_witness :
  let env := env_0 (Some (text_of ["# rates"; "USD_RATE=10000"; "USDT_RATE=10000"])) in
  let r := _update_env_variable "USD_RATE" "12500" env in
  open_faults env = [] /\ valid_name "USD_RATE" = true /\
  fst r = true /\ getenv "USD_RATE" (snd r) = Some "12500" /\
  dotenv (snd r) = Some (text_of ["# rates"; "USD_RATE=12500"; "USDT_RATE=10000"]).
Proof.
  intros env r.
  destruct (update_env_variable_sets "USD_RATE" "12500" env eq_refl eq_refl eq_refl)
    as (H1 & _ & H2 & _).
  split; [reflexivity |]. split; [reflexivity |]. split; [exact H1 |].
  split; [exact H2 | reflexivity].
Defined.

(** ** White space *)

Lemma skip_length : forall p1 p2 p3 n s,
  (String.length s <= n)%nat ->
  (String.length (Text.skip p1 p2 p3 s) <= String.length s)%nat.
Proof.
  intros p1 p2 p3. induction n as [|n IH]; intros s Hn.
  - destruct s; [cbn; lia | cbn in Hn; lia].
  - destruct s as [|a s1]; [cbn; lia |].
    cbn [Text.skip]. destruct (p1 a).
    { specialize (IH s1). cbn [String.length] in *. lia. }
    destruct s1 as [|b s2]; [lia |].
    destruct (p2 a b).
    { specialize (IH s2). cbn [String.length] in *. lia. }
    destruct s2 as [|c s3]; [lia |].
    destruct (p3 a b c); [| lia].
    specialize (IH s3). cbn [String.length] in *. lia.
Qed.

(** What [skip] removes is a run of bytes of white space. *)
Lemma skip_decompose : forall p1 p2 p3,
  (forall a, p1 a = true -> space_byte a = true) ->
  (forall a b, p2 a b = true -> space_byte a = true /\ space_byte b = true) ->
  (forall a b c, p3 a b c = true ->
     space_byte a = true /\ space_byte b = true /\ space_byte c = true) ->
  forall n s, (String.length s <= n)%nat ->
    exists pre, s = pre ++ Text.skip p1 p2 p3 s /\
                forallb space_byte (list_ascii_of_string pre) = true.
Proof.
  intros p1 p2 p3 H1 H2 H3. induction n as [|n IH]; intros s Hn.
  - destruct s; [| cbn in Hn; lia]. now exists "".
  - destruct s as [|a s1]; [now exists "" |].
    cbn [Text.skip]. destruct (p1 a) eqn:E1.
    { destruct (IH s1) as (pre & Hs & Hp); [cbn in Hn; lia |].
      exists (String a pre). cbn [append list_ascii_of_string forallb].
      rewrite <- Hs, Hp, (H1 a E1). now split. }
    destruct s1 as [|b s2]; [now exists "" |].
    destruct (p2 a b) eqn:E2.
    { destruct (IH s2) as (pre & Hs & Hp); [cbn in Hn; lia |].
      destruct (H2 a b E2) as [Ha Hb].
      exists (String a (String b pre)). cbn [append list_ascii_of_string forallb].
      rewrite <- Hs, Hp, Ha, Hb. now split. }
    destruct s2 as [|c s3]; [now exists "" |].
    destruct (p3 a b c) eqn:E3.
    { destruct (IH s3) as (pre & Hs & Hp); [cbn in Hn; lia |].
      destruct (H3 a b c E3) as (Ha & Hb & Hc).
      exists (String a (String b (String c pre))).
      cbn [append list_ascii_of_string forallb].
      rewrite <- Hs, Hp, Ha, Hb, Hc. now split. }
    now exists "".
Qed.

(** [skip] stops where no white space begins. *)
Lemma skip_skip : forall p1 p2 p3 n s,
  (String.length s <= n)%nat ->
  Text.skip p1 p2 p3 (Text.skip p1 p2 p3 s) = Text.skip p1 p2 p3 s.
Proof.
  intros p1 p2 p3. induction n as [|n IH]; intros s Hn.
  - destruct s; [reflexivity | cbn in Hn; lia].
  - destruct s as [|a s1]; [reflexivity |].
    cbn [Text.skip]. destruct (p1 a) eqn:E1; [apply IH; cbn in Hn; lia |].
    destruct s1 as [|b s2]; [cbn [Text.skip]; now rewrite E1 |].
    destruct (p2 a b) eqn:E2; [apply IH; cbn in Hn; lia |].
    destruct s2 as [|c s3]; [cbn [Text.skip]; now rewrite E1, E2 |].
    destruct (p3 a b c) eqn:E3; [apply IH; cbn in Hn; lia |].
    cbn [Text.skip]. now rewrite E1, E2, E3.
Qed.

(** A text at whose head no white space begins has no prefix at whose head
    some does. *)
Lemma skip_prefix : forall p1 p2 p3 u post,
  Text.skip p1 p2 p3 (u ++ post) = u ++ post ->
  Text.skip p1 p2 p3 u = u.
Proof.
  intros p1 p2 p3 u post H.
  assert (L : forall t, (String.length (Text.skip p1 p2 p3 t) <= String.length t)%nat)
    by (intros t; now apply (skip_length p1 p2 p3 (String.length t))).
  destruct u as [|a u1]; [reflexivity |].
  cbn [append Text.skip] in *. destruct (p1 a).
  { pose proof (L (u1 ++ post)) as X. rewrite H in X. cbn [String.length] in X. lia. }
  destruct u1 as [|b u2]; [reflexivity |].
  cbn [append] in *. destruct (p2 a b).
  { pose proof (L (u2 ++ post)) as X. rewrite H in X. cbn [String.length] in X. lia. }
  destruct u2 as [|c u3]; [reflexivity |].
  cbn [append] in *. destruct (p3 a b c); [| reflexivity].
  pose proof (L (u3 ++ post)) as X. rewrite H in X. cbn [String.length] in X. lia.
Qed.

Lemma list_ascii_of_string_app : forall s t,
  list_ascii_of_string (s ++ t) = (list_ascii_of_string s ++ list_ascii_of_string t)%list.
Proof.
  induction s as [|a s IH]; intros t; [reflexivity |].
  cbn [append list_ascii_of_string app]. now rewrite IH.
Qed.

Lemma string_of_list_ascii_app : forall l1 l2,
  string_of_list_ascii (l1 ++ l2) = string_of_list_ascii l1 ++ string_of_list_ascii l2.
Proof.
  induction l1 as [|a l1 IH]; intros l2; [reflexivity |].
  cbn [app string_of_list_ascii append]. now rewrite IH.
Qed.

Lemma reverse_reverse : forall s, Text.reverse (Text.reverse s) = s.
Proof.
  intros s. unfold Text.reverse.
  now rewrite list_ascii_of_string_of_list_ascii, rev_involutive,
    string_of_list_ascii_of_string.
Qed.

Lemma reverse_app : forall s t, Text.reverse (s ++ t) = Text.reverse t ++ Text.reverse s.
Proof.
  intros s t. unfold Text.reverse.
  now rewrite list_ascii_of_string_app, rev_app_distr, string_of_list_ascii_app.
Qed.

Lemma reverse_bytes : forall s,
  list_ascii_of_string (Text.reverse s) = rev (list_ascii_of_string s).
Proof.
  intros s. unfold Text.reverse. apply list_ascii_of_string_of_list_ascii.
Qed.

Lemma space1_byte : forall a, Text.space1 a = true -> space_byte a = true.
Proof. intros a H. unfold space_byte. now rewrite H. Qed.

Lemma high_byte : forall a n, Text.code a = n -> (128 <=? n)%nat = true -> space_byte a = true.
Proof. intros a n <- H. unfold space_byte. rewrite H. apply orb_true_r. Qed.

Lemma space2_bytes : forall a b, Text.space2 a b = true ->
  space_byte a = true /\ space_byte b = true.
Proof.
  intros a b H. unfold Text.space2 in H.
  apply andb_prop in H. destruct H as [Ha Hb]. apply Nat.eqb_eq in Ha.
  split; [now apply (high_byte a 194) |].
  apply orb_prop in Hb. destruct Hb as [Hb | Hb]; apply Nat.eqb_eq in Hb;
    [now apply (high_byte b 133) | now apply (high_byte b 160)].
Qed.

Lemma space3_bytes : forall a b c, Text.space3 a b c = true ->
  space_byte a = true /\ space_byte b = true /\ space_byte c = true.
Proof.
  intros a b c H. unfold Text.space3 in H.
  repeat match goal with
  | H : _ || _ = true |- _ => apply orb_prop in H; destruct H as [H | H]
  | H : _ && _ = true |- _ =>
      let H' := fresh H in apply andb_prop in H; destruct H as [H H']
  end;
  repeat match goal with
  | H : (_ =? _)%nat = true |- _ => apply Nat.eqb_eq in H
  | H : (_ <=? _)%nat = true |- _ => apply Nat.leb_le in H
  end;
  repeat split; unfold space_byte;
    match goal with
    | |- _ || (128 <=? ?x)%nat = true =>
        assert (X : (128 <=? x)%nat = true) by (apply Nat.leb_le; lia);
        rewrite X; apply orb_true_r
    end.
Qed.

(** [strip] leaves a piece of the text, between two runs of bytes of white
    space. *)
Lemma strip_decompose : forall s,
  exists pre post,
    s = pre ++ Text.strip s ++ post /\
    forallb space_byte (list_ascii_of_string pre) = true /\
    forallb space_byte (list_ascii_of_string post) = true.
Proof.
  intros s. unfold Text.strip, Text.rstrip, Text.lstrip.
  destruct (skip_decompose Text.space1 Text.space2 Text.space3 space1_byte space2_bytes
              space3_bytes (String.length s) s (le_n _)) as (pre & Hs & Hpre).
  set (t := Text.skip Text.space1 Text.space2 Text.space3 s) in *.
  destruct (skip_decompose Text.space1 (fun b a => Text.space2 a b)
              (fun c b a => Text.space3 a b c) space1_byte
              (fun b a H => let (x, y) := space2_bytes a b H in conj y x)
              (fun c b a H => match space3_bytes a b c H with
                              | conj x (conj y z) => conj z (conj y x)
                              end)
              (String.length (Text.reverse t)) (Text.reverse t) (le_n _))
    as (post & Ht & Hpost).
  exists pre, (Text.reverse post). split; [| split; [exact Hpre |]].
  - rewrite <- reverse_app, <- Ht, reverse_reverse. exact Hs.
  - rewrite reverse_bytes, forallb_forall. intros x Hx. apply in_rev in Hx.
    rewrite forallb_forall in Hpost. now apply Hpost.
Qed.

Lemma contains_app : forall a s t,
  Text.contains a (s ++ t) = Text.contains a s || Text.contains a t.
Proof.
  intros a s t. unfold Text.contains. now rewrite list_ascii_of_string_app, existsb_app.
Qed.

(** A text with a byte that no white space has does not strip to nothing. *)
Lemma strip_not_empty : forall a s,
  space_byte a = false -> Text.contains a s = true ->
  Text.is_empty (Text.strip s) = false.
Proof.
  intros a s Ha Hs. destruct (strip_decompose s) as (pre & post & E & Hpre & Hpost).
  destruct (Text.strip s) eqn:Es; [| reflexivity]. exfalso.
  rewrite E in Hs. cbn [append] in Hs. rewrite contains_app in Hs.
  unfold Text.contains in Hs. apply orb_prop in Hs.
  destruct Hs as [Hs | Hs]; apply existsb_exists in Hs; destruct Hs as (x & Hx & Hax);
    apply Ascii.eqb_eq in Hax; subst x;
    [rewrite forallb_forall in Hpre; apply Hpre in Hx
    | rewrite forallb_forall in Hpost; apply Hpost in Hx]; congruence.
Qed.

(** What [strip] leaves has its bytes from the text. *)
Lemma strip_contains : forall a s,
  Text.contains a s = false -> Text.contains a (Text.strip s) = false.
Proof.
  intros a s H. destruct (strip_decompose s) as (pre & post & E & _).
  rewrite E in H. rewrite !contains_app in H.
  apply orb_false_iff in H. destruct H as [_ H]. apply orb_false_iff in H. tauto.
Qed.

(** [strip] is idempotent. *)
Lemma strip_strip : forall s, Text.strip (Text.strip s) = Text.strip s.
Proof.
  intros s. unfold Text.strip at 1. unfold Text.lstrip.
  set (t := Text.lstrip s).
  assert (Ht : Text.skip Text.space1 Text.space2 Text.space3 t = t)
    by (unfold t, Text.lstrip; now apply (skip_skip _ _ _ (String.length s))).
  set (r := Text.skip Text.space1 (fun b a => Text.space2 a b)
              (fun c b a => Text.space3 a b c) (Text.reverse t)).
  assert (Hu : Text.strip s = Text.reverse r) by reflexivity.
  destruct (skip_decompose Text.space1 (fun b a => Text.space2 a b)
              (fun c b a => Text.space3 a b c) space1_byte
              (fun b a H => let (x, y) := space2_bytes a b H in conj y x)
              (fun c b a H => match space3_bytes a b c H with
                              | conj x (conj y z) => conj z (conj y x)
                              end)
              (String.length (Text.reverse t)) (Text.reverse t) (le_n _))
    as (post & Hpost & _).
  fold r in Hpost.
  assert (Hprefix : t = Text.strip s ++ Text.reverse post).
  { rewrite Hu, <- reverse_app, <- Hpost. now rewrite reverse_reverse. }
  assert (Hl : Text.skip Text.space1 Text.space2 Text.space3 (Text.strip s) = Text.strip s).
  { apply (skip_prefix _ _ _ _ (Text.reverse post)). now rewrite <- Hprefix. }
  rewrite Hl. unfold Text.rstrip. rewrite Hu at 1. rewrite reverse_reverse.
  unfold r at 1. rewrite (skip_skip _ _ _ (String.length (Text.reverse t))) by lia.
  fold r. now rewrite Hu.
Qed.

(** ** Updating twice *)

Lemma assigns_assignment : forall name value,
  Text.startswith "#" name = false ->
  Text.is_empty name = false ->
  assigns name (assignment name value) = true.
Proof.
  intros name value Hc He. unfold assigns.
  rewrite startswith_assignment, andb_true_r.
  rewrite (strip_not_empty "="%char) by
    (try reflexivity; unfold assignment; rewrite !contains_app;
     change (Text.contains "=" "=") with true; now rewrite orb_true_r).
  cbn [negb andb]. destruct name as [|a name]; [discriminate He |].
  unfold assignment, Text.startswith in *. cbn [append String.prefix] in *.
  destruct (ascii_dec "#" a); [| reflexivity].
  destruct name; cbn [append String.prefix] in *; discriminate Hc.
Qed.

Lemma is_line_assignment : forall name value,
  no_break name = true -> no_break value = true ->
  is_line (assignment name value) = true.
Proof.
  intros name value Hn Hv. unfold assignment.
  rewrite <- !append_assoc. apply is_line_break.
  rewrite !no_break_app, Hn, Hv. reflexivity.
Qed.

Lemma updated_lines_again : forall name value lines,
  assigns name (assignment name value) = true ->
  updated_lines name value (updated_lines name value lines) =
  updated_lines name value lines.
Proof.
  intros name value lines Ha. rewrite !updated_lines_spec.
  set (f := fun line => if assigns name line then assignment name value else line).
  assert (Hf : forall line, f (f line) = f line).
  { intros line. unfold f. destruct (assigns name line) eqn:E; [now rewrite Ha | now rewrite E]. }
  assert (He : existsb (assigns name)
                 (map f lines ++
                  (if existsb (assigns name) lines then [] else [assignment name value]))
               = true).
  { rewrite existsb_app. destruct (existsb (assigns name) lines) eqn:E.
    - apply existsb_exists in E. destruct E as (line & Hin & Hl).
      apply orb_true_iff. left. apply existsb_exists. exists (f line).
      split; [now apply in_map |]. unfold f. now rewrite Hl.
    - cbn [existsb]. now rewrite Ha, orb_true_r. }
  rewrite He, app_nil_r, map_app, map_map.
  rewrite (map_ext _ f Hf). f_equal.
  destruct (existsb (assigns name) lines); [reflexivity |].
  cbn [map]. unfold f. now rewrite Ha.
Qed.

Lemma forallb_is_line_updated : forall name value lines,
  is_line (assignment name value) = true ->
  forallb is_line lines = true ->
  forallb is_line (updated_lines name value lines) = true.
Proof.
  intros name value lines Ha Hl. rewrite updated_lines_spec, forallb_app.
  apply andb_true_intro. split.
  - rewrite forallb_forall in *. intros line Hin. apply in_map_iff in Hin.
    destruct Hin as (l0 & <- & Hin). destruct (assigns name l0); [exact Ha | now apply Hl].
  - destruct (existsb (assigns name) lines); [reflexivity |]. cbn [forallb]. now rewrite Ha.
Qed.

Lemma filter_filter_name : forall (name : string) (l : list (string * string)),
  filter (fun kv => negb (fst kv =? name)%string)
         (filter (fun kv => negb (fst kv =? name)%string) l) =
  filter (fun kv => negb (fst kv =? name)%string) l.
Proof.
  intros name. induction l as [|kv l IH]; [reflexivity |].
  cbn [filter]. destruct (negb (fst kv =? name)%string) eqn:E; [| exact IH].
  cbn [filter]. now rewrite E, IH.
Qed.

(** X21: [_update_env_variable] is idempotent on a well-formed file.  When
    no call of [open] fails, [os.environ] accepts the name and the value,
    neither holds a line break, the name does not begin with ['#'], and the
    file .env, if there is one, is empty or ends with a line break, a second
    call with the same name and value returns [True] and leaves the file,
    the environment and the output exactly as the first call left them. *)
Theorem update_env_variable_idempotent :
  forall (variable_name new_value : string) (env : Env),
    open_faults env = [] ->
    valid_name variable_name = true ->
    Text.contains "000"%char new_value = false ->
    no_break variable_name = true ->
    no_break new_value = true ->
    Text.startswith "#" variable_name = false ->
    (forall text, dotenv env = Some text ->
                  ends_with_LF (Text.universal_newlines text) = true) ->
    let once := _update_env_variable variable_name new_value env in
    fst once = true /\
    _update_env_variable variable_name new_value (snd once) = (true, snd once).
Proof.
  intros name value [d e p f] Hf Hn Hv Hbn Hbv Hc Hd. cbn [open_faults] in Hf. subst f.
  assert (He : Text.is_empty name = false).
  { unfold valid_name in Hn. apply andb_prop in Hn. destruct Hn as [Hn _].
    apply andb_prop in Hn. destruct Hn as [Hn _]. now apply negb_true_iff in Hn. }
  pose proof (assigns_assignment name value Hc He) as Ha.
  pose proof (is_line_assignment name value Hbn Hbv) as Hl.
  cbv zeta. unfold _update_env_variable, _update_env_variable_try, open_dotenv.
  cbn [dotenv open_faults].
  destruct d as [text|].
  - rewrite environ_setitem_valid by assumption. cbn [fst snd].
    split; [reflexivity |]. cbn [dotenv set_environ set_dotenv open_faults environ printed].
    rewrite environ_setitem_valid by assumption.
    cbn [set_environ set_dotenv dotenv environ printed open_faults].
    assert (Hlines : forallb is_line (Text.readlines text) = true).
    { unfold Text.readlines. apply lines_of_lines.
      - apply universal_newlines_no_CR.
      - now apply Hd. }
    rewrite readlines_writelines by (now apply forallb_is_line_updated).
    rewrite updated_lines_again by exact Ha.
    cbn [filter fst]. rewrite String.eqb_refl. cbn [negb].
    now rewrite filter_filter_name.
  - rewrite environ_setitem_valid by assumption. cbn [fst snd].
    split; [reflexivity |]. cbn [dotenv set_environ set_dotenv open_faults environ printed].
    rewrite environ_setitem_valid by assumption.
    cbn [set_environ set_dotenv dotenv environ printed open_faults].
    change (assignment name value) with (Text.writelines [assignment name value]) at 1.
    rewrite readlines_writelines by (cbn [forallb]; now rewrite Hl).
    rewrite updated_lines_spec. cbn [map existsb]. rewrite Ha. cbn [orb app].
    cbn [filter fst]. rewrite String.eqb_refl. cbn [negb].
    now rewrite filter_filter_name.
Qed.

Lemma update_env_variable_idempotent_witness :
  let env := env_0 (Some (text_of ["# rates"; "USDT_RATE=10000"])) in
  let once := _update_env_variable "USD_RATE" "12500" env in
  dotenv (snd once) = Some (text_of ["# rates"; "USDT_RATE=10000"; "USD_RATE=12500"]) /\
  _update_env_variable "USD_RATE" "12500" (snd once) = (true, snd once).
Proof.
  intros env once.
  assert (H : forall text, dotenv env = Some text ->
                           ends_with_LF (Text.universal_newlines text) = true)
    by (intros text E; injection E as <-; reflexivity).
  split; [reflexivity |].
  exact (proj2 (update_env_variable_idempotent "USD_RATE" "12500" env eq_refl eq_refl
                  eq_refl eq_refl eq_refl eq_refl H)).
Defined.

(** ** A file that does not end with a line break *)

Lemma environ_setitem_dotenv : forall name value env,
  dotenv (snd (environ_setitem name value env)) = dotenv env.
Proof.
  intros name value env. unfold environ_setitem.
  repeat match goal with
  | |- context [if ?b then _ else _] => destruct b
  end; reflexivity.
Qed.

(** X22: when no line of .env counts as an assignment of the variable,
    [_update_env_variable] writes the assignment directly after the text
    that was there, with the line breaks of that text normalized and no
    line break put in between.  After a text whose last line is not ended,
    the assignment therefore continues that line. *)
Theorem update_env_variable_appends :
  forall (variable_name new_value text : string) (env : Env),
    open_faults env = [] ->
    dotenv env = Some text ->
    existsb (assigns variable_name) (Text.readlines text) = false ->
    dotenv (snd (_update_env_variable variable_name new_value env)) =
      Some (Text.universal_newlines text ++ assignment variable_name new_value).
Proof.
  intros name value text [d e p f] Hf Hd Hno. cbn [open_faults dotenv] in Hf, Hd.
  subst f d.
  assert (Hw : Text.writelines (updated_lines name value (Text.readlines text)) =
               Text.universal_newlines text ++ assignment name value).
  { rewrite updated_lines_spec, Hno. unfold Text.writelines. rewrite concat_app.
    rewrite (map_ext_in _ (fun line => line)).
    - rewrite map_id. fold (Text.writelines (Text.readlines text)).
      unfold Text.readlines. now rewrite concat_lines_of.
    - intros line Hin. destruct (assigns name line) eqn:E; [| reflexivity].
      assert (X : existsb (assigns name) (Text.readlines text) = true)
        by (apply existsb_exists; now exists line).
      congruence. }
  unfold _update_env_variable, _update_env_variable_try, open_dotenv.
  cbn [dotenv open_faults]. rewrite Hw.
  match goal with
  | |- context [environ_setitem name value ?env0] =>
      pose proof (environ_setitem_dotenv name value env0) as X;
      destruct (environ_setitem name value env0) as [[[]|x] env1]
  end; cbn [snd print dotenv] in *; exact X.
Qed.

Lemma update_env_variable_appends_witness :
  let text := "USD_RATE=10000" in
  let env := env_0 (Some text) in
  let r := _update_env_variable "USDT_RATE" "9000" env in
  open_faults env = [] /\
  existsb (assigns "USDT_RATE") (Text.readlines text) = false /\
  dotenv (snd r) = Some (text_of ["USD_RATE=10000USDT_RATE=9000"]) /\
  Text.readlines (text_of ["USD_RATE=10000USDT_RATE=9000"]) =
    [text_of ["USD_RATE=10000USDT_RATE=9000"]].
Proof.
  intros text env r.
  pose proof (update_env_variable_appends "USDT_RATE" "9000" text env eq_refl eq_refl
                eq_refl) as H.
  split; [reflexivity |]. split; [reflexivity |]. split; [exact H | reflexivity].
Defined.

(** ** Updates that fail *)

(** X23: [_update_env_variable] never raises, and a failure can leave the
    file and the environment apart.  When [open] fails, the method prints
    the error and returns [False] with the file and the environment as they
    were.  When the file is written and [os.environ] then refuses the value
    (it holds a NUL), the method prints the error and returns [False], the
    environment is as it was, and the file already holds the new
    assignment. *)
Theorem update_env_variable_failures :
  forall (variable_name new_value : string) (env : Env),
    let r := _update_env_variable variable_name new_value env in
    (forall what rest,
       open_faults env = Some what :: rest ->
       fst r = false /\ dotenv (snd r) = dotenv env /\ environ (snd r) = environ env /\
       printed (snd r) =
         (printed env ++
          [("Error updating " ++ variable_name ++ " in .env: " ++ what)%string])%list) /\
    (open_faults env = [] ->
     Text.contains "000"%char variable_name = false ->
     Text.contains "000"%char new_value = true ->
     fst r = false /\ environ (snd r) = environ env /\
     printed (snd r) =
       (printed env ++
        [("Error updating " ++ variable_name ++ " in .env: embedded null byte")%string])%list /\
     exists new_lines,
       dotenv (snd r) = Some (Text.writelines new_lines) /\
       In (assignment variable_name new_value) new_lines).
Proof.
  intros name value [d e p f]. cbv zeta.
  unfold _update_env_variable, _update_env_variable_try, open_dotenv.
  cbn [dotenv open_faults]. split.
  - intros what rest Hf. subst f. destruct d; now repeat split.
  - intros Hf Hn Hv. subst f. unfold environ_setitem. rewrite Hn, Hv. cbn [orb].
    destruct d as [text|]; cbn [fst snd environ printed dotenv set_dotenv print escaped_str
                                  exc_str].
    + repeat split. eexists. split; [reflexivity |].
      rewrite updated_lines_spec. apply in_or_app.
      destruct (existsb (assigns name) (Text.readlines text)) eqn:E.
      * left. apply existsb_exists in E. destruct E as (line & Hin & Ha).
        apply in_map_iff. exists line. split; [now rewrite Ha | exact Hin].
      * right. now left.
    + repeat split. exists [assignment name value]. split; [reflexivity | now left].
Qed.

Lemma update_env_variable_failures_witness :
  let env := set_open_faults [Some "[Errno 13] Permission denied: '.env'"]
               (env_0 (Some (text_of ["USD_RATE=10000"]))) in
  let r := _update_env_variable "USD_RATE" "12500" env in
  fst r = false /\ dotenv (snd r) = Some (text_of ["USD_RATE=10000"]) /\
  printed (snd r) =
    ["Error updating USD_RATE in .env: [Errno 13] Permission denied: '.env'"].
Proof.
  intros env r.
  destruct (update_env_variable_failures "USD_RATE" "12500" env) as [H _].
  destruct (H _ [] eq_refl) as (H1 & H2 & _ & H3).
  split; [exact H1 |]. split; [exact H2 | exact H3].
Defined.

(** ** Lists of numbers *)

Lemma split_not_nil : forall sep s, Text.split sep s <> [].
Proof.
  intros sep s. destruct s as [|a s]; [discriminate |].
  cbn [Text.split]. destruct (Text.split sep s); [discriminate |].
  destruct (a =? sep)%char; discriminate.
Qed.

Lemma split_no_sep : forall sep s,
  Text.contains sep s = false -> Text.split sep s = [s].
Proof.
  intros sep. induction s as [|a s IH]; intros H; [reflexivity |].
  unfold Text.contains in *. cbn [list_ascii_of_string existsb] in H.
  apply orb_false_iff in H. destruct H as [H1 H2].
  cbn [Text.split]. rewrite (IH H2). rewrite Ascii.eqb_sym in H1. now rewrite H1.
Qed.

Lemma split_piece : forall sep s rest,
  Text.contains sep s = false ->
  Text.split sep (s ++ String sep rest) = s :: Text.split sep rest.
Proof.
  intros sep. induction s as [|a s IH]; intros rest H.
  - cbn [append Text.split]. rewrite Ascii.eqb_refl.
    destruct (Text.split sep rest) eqn:E; [now apply split_not_nil in E | reflexivity].
  - unfold Text.contains in *. cbn [list_ascii_of_string existsb] in H.
    apply orb_false_iff in H. destruct H as [H1 H2].
    cbn [append Text.split]. rewrite (IH rest H2). rewrite Ascii.eqb_sym in H1.
    now rewrite H1.
Qed.

Lemma join_cons : forall sep x y l,
  Text.join sep (x :: y :: l) = x ++ sep ++ Text.join sep (y :: l).
Proof. reflexivity. Qed.

(** Pieces without the separator are split again as they were joined. *)
Lemma split_join : forall sep l,
  l <> [] ->
  (forall x, In x l -> Text.contains sep x = false) ->
  Text.split sep (Text.join (String sep "") l) = l.
Proof.
  intros sep. induction l as [|x l IH]; intros Hl H; [contradiction |].
  destruct l as [|y l].
  - cbn [Text.join String.concat]. apply split_no_sep. apply H. now left.
  - rewrite join_cons. cbn [append]. rewrite split_piece by (apply H; now left).
    f_equal. apply IH; [discriminate |]. intros z Hz. apply H. now right.
Qed.

Lemma contains_join : forall a sep l,
  Text.contains a sep = false ->
  (forall x, In x l -> Text.contains a x = false) ->
  Text.contains a (Text.join sep l) = false.
Proof.
  intros a sep. induction l as [|x l IH]; intros Hs H; [reflexivity |].
  destruct l as [|y l].
  - apply H. now left.
  - rewrite join_cons, !contains_app, Hs, (H x) by now left.
    cbn [orb]. apply IH; [exact Hs |]. intros z Hz. apply H. now right.
Qed.

Lemma stripped_numbers_in : forall numbers n,
  In n (stripped_numbers numbers) ->
  Text.is_empty n = false /\ exists given, In given numbers /\ n = Text.strip given.
Proof.
  intros numbers n H. unfold stripped_numbers in H. apply filter_In in H.
  destruct H as [H1 H2]. apply negb_true_iff in H2. split; [exact H2 |].
  apply in_map_iff in H1. destruct H1 as (given & <- & Hin). now exists given.
Qed.

(** A cleaned list is clean. *)
Lemma stripped_numbers_again : forall numbers,
  stripped_numbers (stripped_numbers numbers) = stripped_numbers numbers /\
  map Text.strip (stripped_numbers numbers) = stripped_numbers numbers.
Proof.
  intros numbers.
  assert (Hm : map Text.strip (stripped_numbers numbers) = stripped_numbers numbers).
  { rewrite <- (map_id (stripped_numbers numbers)) at 2. apply map_ext_in.
    intros n Hn. apply stripped_numbers_in in Hn.
    destruct Hn as (_ & given & _ & ->). apply strip_strip. }
  split; [| exact Hm]. unfold stripped_numbers at 1. rewrite Hm.
  apply forallb_filter_id. apply forallb_forall. intros n Hn.
  apply stripped_numbers_in in Hn. destruct Hn as [Hn _]. now rewrite Hn.
Qed.

Lemma update_env_variable_getenv : forall name value env,
  open_faults env = [] ->
  valid_name name = true ->
  Text.contains "000"%char value = false ->
  fst (_update_env_variable name value env) = true /\
  getenv name (snd (_update_env_variable name value env)) = Some value /\
  printed (snd (_update_env_variable name value env)) = printed env /\
  exists new_lines,
    dotenv (snd (_update_env_variable name value env)) = Some (Text.writelines new_lines) /\
    In (assignment name value) new_lines.
Proof.
  intros name value [d e p f] Hf Hn Hv. cbn [open_faults] in Hf. subst f.
  unfold _update_env_variable, _update_env_variable_try, open_dotenv.
  cbn [dotenv open_faults].
  destruct d as [text|]; rewrite environ_setitem_valid by assumption; cbn [fst snd];
    (split; [reflexivity |]);
    (split; [rewrite getenv_setitem; now rewrite String.eqb_refl |]);
    (split; [reflexivity |]).
  - eexists. split; [reflexivity |]. rewrite updated_lines_spec. apply in_or_app.
    destruct (existsb (assigns name) (Text.readlines text)) eqn:E.
    + left. apply existsb_exists in E. destruct E as (line & Hin & Ha).
      apply in_map_iff. exists line. split; [now rewrite Ha | exact Hin].
    + right. now left.
  - exists [assignment name value]. split; [reflexivity | now left].
Qed.

Lemma cleaned_numbers : forall numbers a,
  (forall n, In n numbers -> Text.contains a n = false) ->
  forall n, In n (stripped_numbers numbers) -> Text.contains a n = false.
Proof.
  intros numbers a H n Hn. apply stripped_numbers_in in Hn.
  destruct Hn as (_ & given & Hg & ->). apply strip_contains. now apply H.
Qed.

(** X24: what [update_syriatel_numbers] keeps is what a later load reads.
    When no call of [open] fails and no number holds a comma or a NUL, the
    method returns [True], the attribute is the list of the numbers
    stripped of white space with the blank ones left out, and
    [SYRIATEL_CASH_NUMBERS] as [_load_env_vars] computes it from the
    environment is that same list. *)
Theorem update_syriatel_numbers_round_trip :
  forall (numbers : list string) (c : Config) (env : Env),
    open_faults env = [] ->
    (forall n, In n numbers ->
       Text.contains "," n = false /\ Text.contains "000"%char n = false) ->
    let r := update_syriatel_numbers numbers c env in
    fst (fst r) = true /\
    SYRIATEL_CASH_NUMBERS (snd (fst r)) = stripped_numbers numbers /\
    load_syriatel_numbers (snd r) = SYRIATEL_CASH_NUMBERS (snd (fst r)).
Proof.
  intros numbers c env Hf Hn. cbv zeta. unfold update_syriatel_numbers.
  set (cleaned := stripped_numbers numbers).
  assert (Hv : Text.contains "000"%char (Text.join "," cleaned) = false).
  { apply contains_join; [reflexivity |].
    apply cleaned_numbers. intros n Hin. now apply Hn. }
  destruct (update_env_variable_getenv "SYRIATEL_CASH_NUMBERS" (Text.join "," cleaned)
              env Hf eq_refl Hv) as (H1 & H2 & _).
  destruct (_update_env_variable "SYRIATEL_CASH_NUMBERS" (Text.join "," cleaned) env)
    as [ok env1]. cbn [fst snd] in *. subst ok. cbn [fst snd SYRIATEL_CASH_NUMBERS].
  split; [reflexivity |]. split; [reflexivity |].
  unfold load_syriatel_numbers, getenv_default. rewrite H2.
  destruct cleaned as [|x l] eqn:E; [reflexivity |].
  rewrite split_join.
  - rewrite <- E. apply stripped_numbers_again.
  - discriminate.
  - rewrite <- E. apply cleaned_numbers. intros n Hin. now apply Hn.
Qed.

Lemma update_syriatel_numbers_round_trip_witness :
  let numbers := [" 0999111222 "; ""; "0933444555"] in
  let r := update_syriatel_numbers numbers config_0 (env_0 None) in
  fst (fst r) = true /\
  SYRIATEL_CASH_NUMBERS (snd (fst r)) = ["0999111222"; "0933444555"] /\
  load_syriatel_numbers (snd r) = ["0999111222"; "0933444555"] /\
  dotenv (snd r) = Some (text_of ["SYRIATEL_CASH_NUMBERS=0999111222,0933444555"]).
Proof.
  intros numbers r.
  assert (H : forall n, In n numbers ->
                Text.contains "," n = false /\ Text.contains "000"%char n = false).
  { intros n [<- | [<- | [<- | []]]]; split; reflexivity. }
  destruct (update_syriatel_numbers_round_trip numbers config_0 (env_0 None) eq_refl H)
    as (H1 & H2 & H3).
  split; [exact H1 |]. split; [exact H2 |]. split; [| reflexivity].
  fold r in H3. rewrite H3. exact H2.
Defined.

(** X25: [update_mtn_numbers] and [update_shamcash_numbers] write one list
    and keep another.  When no call of [open] fails and no number holds a
    comma or a NUL, they return [True] and the attribute is the list as it
    was given, blank entries and surrounding white space included, while
    the list [_load_env_vars] computes from the environment is the cleaned
    one, or the list of one empty number when nothing is left. *)
Theorem update_mtn_shamcash_numbers_keep_given :
  forall (numbers : list string) (c : Config) (env : Env),
    open_faults env = [] ->
    (forall n, In n numbers ->
       Text.contains "," n = false /\ Text.contains "000"%char n = false) ->
    let m := update_mtn_numbers numbers c env in
    let s := update_shamcash_numbers numbers c env in
    let loaded := match stripped_numbers numbers with
                  | [] => [""]
                  | cleaned => cleaned
                  end in
    fst (fst m) = true /\
    MTN_CASH_NUMBERS (snd (fst m)) = numbers /\
    load_numbers "MTN_CASH_NUMBERS" (snd m) = loaded /\
    fst (fst s) = true /\
    SHAMCASH_NUMBERS (snd (fst s)) = numbers /\
    load_numbers "SHAMCASH_NUMBERS" (snd s) = loaded.
Proof.
  intros numbers c env Hf Hn. cbv zeta. unfold update_mtn_numbers, update_shamcash_numbers.
  set (cleaned := stripped_numbers numbers).
  assert (Hv : Text.contains "000"%char (Text.join "," cleaned) = false).
  { apply contains_join; [reflexivity |].
    apply cleaned_numbers. intros n Hin. now apply Hn. }
  assert (Hl : Text.split "," (Text.join "," cleaned) =
               match cleaned with [] => [""] | _ => cleaned end).
  { destruct cleaned as [|x l] eqn:E; [reflexivity |]. apply split_join; [discriminate |].
    rewrite <- E. apply cleaned_numbers. intros n Hin. now apply Hn. }
  assert (Hm : map Text.strip match cleaned with [] => [""] | _ => cleaned end =
               match cleaned with [] => [""] | _ => cleaned end).
  { destruct cleaned as [|x l] eqn:E; [reflexivity |]. rewrite <- E.
    apply stripped_numbers_again. }
  destruct (update_env_variable_getenv "MTN_CASH_NUMBERS" (Text.join "," cleaned)
              env Hf eq_refl Hv) as (M1 & M2 & _).
  destruct (update_env_variable_getenv "SHAMCASH_NUMBERS" (Text.join "," cleaned)
              env Hf eq_refl Hv) as (S1 & S2 & _).
  destruct (_update_env_variable "MTN_CASH_NUMBERS" (Text.join "," cleaned) env)
    as [ok1 env1].
  destruct (_update_env_variable "SHAMCASH_NUMBERS" (Text.join "," cleaned) env)
    as [ok2 env2].
  cbn [fst snd] in *. subst ok1 ok2. cbn [fst snd MTN_CASH_NUMBERS SHAMCASH_NUMBERS].
  unfold load_numbers, getenv_default. rewrite M2, S2, Hl, Hm.
  repeat split; try reflexivity; clearbody cleaned; destruct cleaned; reflexivity.
Qed.

Lemma update_mtn_shamcash_numbers_keep_given_witness :
  let numbers := [" 0944111222 "; ""] in
  let m := update_mtn_numbers numbers config_0 (env_0 None) in
  let e := update_mtn_numbers [] config_0 (env_0 None) in
  MTN_CASH_NUMBERS (snd (fst m)) = [" 0944111222 "; ""] /\
  load_numbers "MTN_CASH_NUMBERS" (snd m) = ["0944111222"] /\
  MTN_CASH_NUMBERS (snd (fst e)) = [] /\
  load_numbers "MTN_CASH_NUMBERS" (snd e) = [""].
Proof.
  intros numbers m e.
  assert (H : forall n, In n numbers ->
                Text.contains "," n = false /\ Text.contains "000"%char n = false).
  { intros n [<- | [<- | []]]; split; reflexivity. }
  destruct (update_mtn_shamcash_numbers_keep_given numbers config_0 (env_0 None) eq_refl H)
    as (_ & H1 & H2 & _).
  destruct (update_mtn_shamcash_numbers_keep_given [] config_0 (env_0 None) eq_refl
              (fun n (F : In n []) => match F with end))
    as (_ & H3 & H4 & _).
  split; [exact H1 |]. split; [exact H2 |]. split; [exact H3 | exact H4].
Defined.

(** ** Loading the configuration *)

(** What [_load_env_vars] has assigned when it returns. *)
Lemma load_env_vars_returns :
  forall (int_ : string -> result Z) (Decimal_ : string -> result Decimal)
         (env : Env) (c : Config),
    fst (_load_env_vars int_ Decimal_ env c) = Ok tt ->
    let c' := snd (_load_env_vars int_ Decimal_ env c) in
    int_ (getenv_default "OWNER_ID" "1631827811" env) = Ok (OWNER_ID c') /\
    ints int_ (Text.split "," (getenv_default "ADMINS" (int_str (OWNER_ID c')) env))
      = Ok (ADMINS c') /\
    Decimal_ (getenv_default "USD_RATE" "10000" env) = Ok (USD_RATE c') /\
    Decimal_ (getenv_default "USDT_RATE" "10000" env) = Ok (USDT_RATE c') /\
    SYRIATEL_CASH_NUMBERS c' = load_syriatel_numbers env /\
    MTN_CASH_NUMBERS c' = load_numbers "MTN_CASH_NUMBERS" env /\
    SHAMCASH_NUMBERS c' = load_numbers "SHAMCASH_NUMBERS" env.
Proof.
  intros int_ Decimal_ env c.
  cbv beta iota zeta delta
    [_load_env_vars BOT_TOKEN BOT_USERNAME SUPPORT_USERNAME OWNER_ID ADMINS
     FORCED_CHANNEL_ID FORCED_CHANNEL_USERNAME RECHARGE_GROUP_ID PURCHASE_GROUP_ID
     USD_RATE USDT_RATE SYRIATEL_CASH_NUMBERS USDT_WALLET_COINEX USDT_WALLET_CWALLET
     USD_WALLET_PAYEER USDT_WALLET_PEB20 MTN_CASH_NUMBERS SHAMCASH_NUMBERS DB_PATH].
  destruct (int_ (getenv_default "OWNER_ID" "1631827811" env)) as [owner|e] eqn:E1;
    [| intros X; discriminate X].
  destruct (ints int_ (Text.split "," (getenv_default "ADMINS" (int_str owner) env)))
    as [admins|e] eqn:E2; [| intros X; discriminate X].
  destruct (int_ (getenv_default "FORCED_CHANNEL_ID" "-1001234567890" env));
    [| intros X; discriminate X].
  destruct (int_ (getenv_default "RECHARGE_GROUP_ID" "-1001234567890" env));
    [| intros X; discriminate X].
  destruct (int_ (getenv_default "PURCHASE_GROUP_ID" "-1001234567890" env));
    [| intros X; discriminate X].
  destruct (Decimal_ (getenv_default "USD_RATE" "10000" env)) eqn:E3;
    [| intros X; discriminate X].
  destruct (Decimal_ (getenv_default "USDT_RATE" "10000" env)) eqn:E4;
    [| intros X; discriminate X].
  intros _. cbn [fst snd]. now repeat split.
Qed.

(** X26: the three lists of numbers are not loaded alike.  When
    [_load_env_vars] returns, [SYRIATEL_CASH_NUMBERS] has no empty entry
    and is empty when its variable is not set, whereas [MTN_CASH_NUMBERS]
    and [SHAMCASH_NUMBERS] are never empty: they have one entry more than
    their variable has commas, and are the list of one empty number when
    the variable is not set. *)
Theorem load_env_vars_numbers :
  forall (int_ : string -> result Z) (Decimal_ : string -> result Decimal)
         (env : Env) (c : Config),
    fst (_load_env_vars int_ Decimal_ env c) = Ok tt ->
    let c' := snd (_load_env_vars int_ Decimal_ env c) in
    (forall n, In n (SYRIATEL_CASH_NUMBERS c') -> n <> "") /\
    (getenv "SYRIATEL_CASH_NUMBERS" env = None -> SYRIATEL_CASH_NUMBERS c' = []) /\
    MTN_CASH_NUMBERS c' <> [] /\ SHAMCASH_NUMBERS c' <> [] /\
    (getenv "MTN_CASH_NUMBERS" env = None -> MTN_CASH_NUMBERS c' = [""]) /\
    (getenv "SHAMCASH_NUMBERS" env = None -> SHAMCASH_NUMBERS c' = [""]).
Proof.
  intros int_ Decimal_ env c H.
  destruct (load_env_vars_returns int_ Decimal_ env c H) as (_ & _ & _ & _ & Hs & Hm & Hc).
  cbv zeta. rewrite Hs, Hm, Hc. unfold load_syriatel_numbers, load_numbers, getenv_default.
  split; [| split; [| split; [| split; [| split]]]].
  - intros n Hn. apply stripped_numbers_in in Hn. destruct Hn as [Hn _].
    intros ->. discriminate Hn.
  - intros ->. reflexivity.
  - intros X. apply map_eq_nil in X. now apply split_not_nil in X.
  - intros X. apply map_eq_nil in X. now apply split_not_nil in X.
  - intros ->. reflexivity.
  - intros ->. reflexivity.
Qed.

Lemma load_env_vars_numbers_witness :
  let c' := snd (_load_env_vars int_of_digits Decimal_of_str (env_0 None) config_0) in
  fst (_load_env_vars int_of_digits Decimal_of_str (env_0 None) config_0) = Ok tt /\
  SYRIATEL_CASH_NUMBERS c' = [] /\ MTN_CASH_NUMBERS c' = [""] /\
  SHAMCASH_NUMBERS c' = [""].
Proof.
  intros c'.
  assert (H : fst (_load_env_vars int_of_digits Decimal_of_str (env_0 None) config_0)
              = Ok tt) by (vm_compute; reflexivity).
  destruct (load_env_vars_numbers int_of_digits Decimal_of_str (env_0 None) config_0 H)
    as (_ & H1 & _ & _ & H2 & H3).
  split; [exact H |]. split; [exact (H1 eq_refl) |].
  split; [exact (H2 eq_refl) | exact (H3 eq_refl)].
Defined.

(** ** Admins *)

Lemma digit_not_comma : forall s, all_digits s = true -> Text.contains "," s = false.
Proof.
  induction s as [|a s IH]; intros H; [reflexivity |].
  cbn [all_digits] in H. apply andb_prop in H. destruct H as [H1 H2].
  unfold Text.contains in *. cbn [list_ascii_of_string existsb]. rewrite (IH H2).
  destruct (Ascii.eqb_spec "," a) as [<- | _]; [discriminate H1 | reflexivity].
Qed.

Lemma int_str_no_comma : forall z, Text.contains "," (int_str z) = false.
Proof.
  intros z. unfold int_str. rewrite contains_app, (digit_not_comma _ (digits_all _)).
  destruct (z <? 0); reflexivity.
Qed.

Lemma Ok_injective : forall (A : Type) (a b : A), Ok a = Ok b -> a = b.
Proof. intros A a b H. now injection H. Qed.

(** X27: the owner is an admin by default only.  When [_load_env_vars]
    returns and the variable ADMINS is not set, the only admin is the owner
    ([int] reading back what [str] wrote); when ADMINS is set, the admins
    are the integers between its commas and nothing else, so [is_admin]
    accepts the owner only if the variable lists the owner. *)
Theorem is_admin_owner_by_default :
  forall (int_ : string -> result Z) (Decimal_ : string -> result Decimal)
         (env : Env) (c : Config),
    fst (_load_env_vars int_ Decimal_ env c) = Ok tt ->
    let c' := snd (_load_env_vars int_ Decimal_ env c) in
    (getenv "ADMINS" env = None ->
     int_ (int_str (OWNER_ID c')) = Ok (OWNER_ID c') ->
     ADMINS c' = [OWNER_ID c'] /\
     forall user_id, is_admin c' user_id = (user_id =? OWNER_ID c')) /\
    (forall text,
       getenv "ADMINS" env = Some text ->
       ints int_ (Text.split "," text) = Ok (ADMINS c') /\
       (is_admin c' (OWNER_ID c') = true -> In (OWNER_ID c') (ADMINS c'))).
Proof.
  intros int_ Decimal_ env c H.
  destruct (load_env_vars_returns int_ Decimal_ env c H) as (_ & Ha & _).
  cbv zeta in *. set (c' := snd (_load_env_vars int_ Decimal_ env c)) in *.
  unfold getenv_default in Ha. split.
  - intros Hn Hi. rewrite Hn in Ha.
    rewrite (split_no_sep _ _ (int_str_no_comma _)) in Ha. cbn [ints] in Ha.
    rewrite Hi in Ha. injection Ha as Ha. split; [now symmetry |].
    intros user_id. unfold is_admin. rewrite <- Ha. cbn [existsb]. apply orb_false_r.
  - intros text Ht. rewrite Ht in Ha. split; [exact Ha |].
    unfold is_admin. intros X. apply existsb_exists in X. destruct X as (x & Hx & E).
    apply Z.eqb_eq in E. now subst.
Qed.

Lemma is_admin_owner_by_default_witness :
  let listed := mkEnv None [("OWNER_ID", "1001"); ("ADMINS", "2002,3003")] [] [] in
  let c0 := snd (_load_env_vars int_of_digits Decimal_of_str (env_0 None) config_0) in
  let c1 := snd (_load_env_vars int_of_digits Decimal_of_str listed config_0) in
  ADMINS c0 = [1631827811] /\ is_admin c0 1631827811 = true /\
  ADMINS c1 = [2002; 3003] /\ OWNER_ID c1 = 1001 /\ is_admin c1 1001 = false.
Proof.
  intros listed c0 c1.
  assert (H0 : fst (_load_env_vars int_of_digits Decimal_of_str (env_0 None) config_0)
               = Ok tt) by (vm_compute; reflexivity).
  assert (H1 : fst (_load_env_vars int_of_digits Decimal_of_str listed config_0) = Ok tt)
    by (vm_compute; reflexivity).
  destruct (is_admin_owner_by_default int_of_digits Decimal_of_str (env_0 None) config_0 H0)
    as [A _].
  destruct (A eq_refl eq_refl) as [A1 A2].
  destruct (is_admin_owner_by_default int_of_digits Decimal_of_str listed config_0 H1)
    as [_ B].
  destruct (B "2002,3003" eq_refl) as [B1 _].
  split; [exact A1 |]. split; [exact (A2 1631827811) |].
  assert (E : ints int_of_digits (Text.split "," "2002,3003") = Ok [2002; 3003])
    by (vm_compute; reflexivity).
  rewrite E in B1.
  split; [symmetry; exact (Ok_injective _ _ _ B1) |]. split; vm_compute; reflexivity.
Defined.

(** ** Rates *)

(** X28: [update_usd_rate] and [update_usdt_rate] write before they convert.
    When no call of [open] fails and the text holds no NUL, the file and
    the environment get the new text first.  If [Decimal] accepts it, the
    attribute becomes its value and the method returns [True].  If
    [Decimal] raises [InvalidOperation], which is neither a [ValueError]
    nor a [TypeError], the handler does not catch it: the exception escapes
    with nothing printed, the attributes are as they were, and the file and
    the environment keep the text that was rejected. *)
Theorem update_rates_write_first :
  forall (Decimal_ : string -> result Decimal) (new_rate : string)
         (c : Config) (env : Env),
    open_faults env = [] ->
    Text.contains "000"%char new_rate = false ->
    let usd := update_usd_rate Decimal_ new_rate c env in
    let usdt := update_usdt_rate Decimal_ new_rate c env in
    getenv "USD_RATE" (snd usd) = Some new_rate /\
    getenv "USDT_RATE" (snd usdt) = Some new_rate /\
    (exists new_lines, dotenv (snd usd) = Some (Text.writelines new_lines) /\
                       In (assignment "USD_RATE" new_rate) new_lines) /\
    (exists new_lines, dotenv (snd usdt) = Some (Text.writelines new_lines) /\
                       In (assignment "USDT_RATE" new_rate) new_lines) /\
    (forall rate, Decimal_ new_rate = Ok rate ->
       fst (fst usd) = Returned true /\ USD_RATE (snd (fst usd)) = rate /\
       fst (fst usdt) = Returned true /\ USDT_RATE (snd (fst usdt)) = rate) /\
    (forall e, Decimal_ new_rate = Raise e -> exc_class e = InvalidOperation ->
       fst (fst usd) = Escapes (Raised e) /\ snd (fst usd) = c /\
       printed (snd usd) = printed env /\
       fst (fst usdt) = Escapes (Raised e) /\ snd (fst usdt) = c /\
       printed (snd usdt) = printed env).
Proof.
  intros Decimal_ new_rate c env Hf Hv. cbv zeta.
  unfold update_usd_rate, update_usdt_rate.
  destruct (update_env_variable_getenv "USD_RATE" new_rate env Hf eq_refl Hv)
    as (U1 & U2 & U3 & U4).
  destruct (update_env_variable_getenv "USDT_RATE" new_rate env Hf eq_refl Hv)
    as (T1 & T2 & T3 & T4).
  destruct (_update_env_variable "USD_RATE" new_rate env) as [ok1 env1].
  destruct (_update_env_variable "USDT_RATE" new_rate env) as [ok2 env2].
  cbn [fst snd] in *. subst ok1 ok2.
  destruct (Decimal_ new_rate) as [rate|e] eqn:E.
  - cbn [fst snd USD_RATE USDT_RATE].
    split; [exact U2 |]. split; [exact T2 |]. split; [exact U4 |]. split; [exact T4 |].
    split.
    + intros rate' X. injection X as <-. now repeat split.
    + intros e X. discriminate X.
  - split; [destruct (exc_class e); exact U2 |].
    split; [destruct (exc_class e); exact T2 |].
    split; [destruct (exc_class e); exact U4 |].
    split; [destruct (exc_class e); exact T4 |].
    split.
    + intros rate X. discriminate X.
    + intros e' X Hc. injection X as <-. rewrite Hc. cbn [fst snd].
      now repeat split.
Qed.

Lemma update_rates_write_first_witness :
  let env := env_0 (Some (text_of ["USD_RATE=10000"])) in
  let r := update_usd_rate Decimal_of_str "12,5" config_0 env in
  open_faults env = [] /\
  Decimal_of_str "12,5" =
    Raise (mkException InvalidOperation "[<class 'decimal.ConversionSyntax'>]") /\
  fst (fst r) =
    Escapes (Raised (mkException InvalidOperation "[<class 'decimal.ConversionSyntax'>]")) /\
  USD_RATE (snd (fst r)) = DFinite false 10000 0 /\
  getenv "USD_RATE" (snd r) = Some "12,5" /\
  dotenv (snd r) = Some (text_of ["USD_RATE=12,5"]).
Proof.
  intros env r.
  assert (E : Decimal_of_str "12,5" =
              Raise (mkException InvalidOperation "[<class 'decimal.ConversionSyntax'>]"))
    by (vm_compute; reflexivity).
  destruct (update_rates_write_first Decimal_of_str "12,5" config_0 env eq_refl eq_refl)
    as (H1 & _ & _ & _ & _ & H2).
  destruct (H2 _ E eq_refl) as (H3 & H4 & _).
  split; [reflexivity |]. split; [exact E |]. split; [exact H3 |].
  split; [fold r in H4; now rewrite H4 |]. split; [exact H1 | reflexivity].
Defined.

(** ** Wallets *)

Lemma update_env_variable_chain : forall name value env,
  open_faults env = [] ->
  valid_name name = true ->
  Text.contains "000"%char value = false ->
  fst (_update_env_variable name value env) = true /\
  open_faults (snd (_update_env_variable name value env)) = [] /\
  getenv name (snd (_update_env_variable name value env)) = Some value /\
  forall other, (name =? other)%string = false ->
    getenv other (snd (_update_env_variable name value env)) = getenv other env.
Proof.
  intros name value [d e p f] Hf Hn Hv. cbn [open_faults] in Hf. subst f.
  unfold _update_env_variable, _update_env_variable_try, open_dotenv.
  cbn [dotenv open_faults].
  destruct d as [text|]; rewrite environ_setitem_valid by assumption; cbn [fst snd];
    (split; [reflexivity |]); (split; [reflexivity |]);
    (split; [rewrite getenv_setitem; now rewrite String.eqb_refl |]);
    intros other Ho; rewrite getenv_setitem; now rewrite Ho.
Qed.

(** One wallet of [update_usdt_wallets], when nothing fails. *)
Lemma update_wallet_step :
  forall wallets env_var key setattr success c env,
    open_faults env = [] ->
    valid_name env_var = true ->
    (forall value, wallets key = Some value -> Text.contains "000"%char value = false) ->
    let r := update_wallet wallets env_var key setattr (success, c, env) in
    fst (fst r) = success /\
    snd (fst r) = match wallets key with Some value => setattr value c | None => c end /\
    open_faults (snd r) = [] /\
    (forall value, wallets key = Some value -> getenv env_var (snd r) = Some value) /\
    (forall other, (env_var =? other)%string = false ->
       getenv other (snd r) = getenv other env) /\
    (wallets key = None -> snd r = env).
Proof.
  intros wallets env_var key setattr success c env Hf Hn Hv. cbv zeta.
  unfold update_wallet. destruct (wallets key) as [value|] eqn:E.
  - destruct (update_env_variable_chain env_var value env Hf Hn (Hv value eq_refl))
      as (H1 & H2 & H3 & H4).
    destruct (_update_env_variable env_var value env) as [ok env1].
    cbn [fst snd] in *. subst ok. cbn [fst snd].
    repeat split; try assumption.
    + intros v X. injection X as <-. exact H3.
    + intros X. discriminate X.
  - cbn [fst snd]. repeat split; try assumption; try reflexivity.
    intros v X. discriminate X.
Qed.

(** X29: [update_usdt_wallets] changes the wallets the dictionary names and
    no other.  When no call of [open] fails and no value holds a NUL, it
    returns [True]; each of the four wallets whose key ('coinex',
    'cwallet', 'payeer', 'peb20') is in the dictionary gets the value, as
    attribute and in the environment; each of the others keeps its
    attribute and its variable; and a dictionary with none of the four keys
    changes nothing, any other key being ignored. *)
Theorem update_usdt_wallets_named :
  forall (wallets : string -> option string) (c : Config) (env : Env),
    open_faults env = [] ->
    (forall key value, wallets key = Some value ->
       Text.contains "000"%char value = false) ->
    let r := update_usdt_wallets wallets c env in
    let c' := snd (fst r) in
    let kept new old := match new with Some value => Some value | None => old end in
    let variable name new := match new with
                             | Some value => Some value
                             | None => getenv name env
                             end in
    fst (fst r) = true /\
    USDT_WALLET_COINEX c' = kept (wallets "coinex") (USDT_WALLET_COINEX c) /\
    USDT_WALLET_CWALLET c' = kept (wallets "cwallet") (USDT_WALLET_CWALLET c) /\
    USD_WALLET_PAYEER c' = kept (wallets "payeer") (USD_WALLET_PAYEER c) /\
    USDT_WALLET_PEB20 c' = kept (wallets "peb20") (USDT_WALLET_PEB20 c) /\
    getenv "USDT_WALLET_COINEX" (snd r) = variable "USDT_WALLET_COINEX" (wallets "coinex") /\
    getenv "USDT_WALLET_CWALLET" (snd r)
      = variable "USDT_WALLET_CWALLET" (wallets "cwallet") /\
    getenv "USD_WALLET_PAYEER" (snd r) = variable "USD_WALLET_PAYEER" (wallets "payeer") /\
    getenv "USDT_WALLET_PEB20" (snd r) = variable "USDT_WALLET_PEB20" (wallets "peb20") /\
    (wallets "coinex" = None -> wallets "cwallet" = None -> wallets "payeer" = None ->
     wallets "peb20" = None -> r = (true, c, env)).
Proof.
  intros wallets c env Hf Hv. cbv zeta. unfold update_usdt_wallets.
  pose proof (update_wallet_step wallets "USDT_WALLET_COINEX" "coinex"
                set_USDT_WALLET_COINEX true c env Hf eq_refl (Hv "coinex")) as S1.
  cbv zeta in S1.
  destruct (update_wallet wallets "USDT_WALLET_COINEX" "coinex" set_USDT_WALLET_COINEX
              (true, c, env)) as [[ok1 c1] env1].
  cbn [fst snd] in S1. destruct S1 as (-> & -> & F1 & G1 & O1 & N1).
  pose proof (update_wallet_step wallets "USDT_WALLET_CWALLET" "cwallet"
                set_USDT_WALLET_CWALLET true
                match wallets "coinex" with
                | Some value => set_USDT_WALLET_COINEX value c
                | None => c
                end env1 F1 eq_refl (Hv "cwallet")) as S2.
  cbv zeta in S2.
  destruct (update_wallet wallets "USDT_WALLET_CWALLET" "cwallet" set_USDT_WALLET_CWALLET
              _) as [[ok2 c2] env2].
  cbn [fst snd] in S2. destruct S2 as (-> & -> & F2 & G2 & O2 & N2).
  match goal with
  | |- context [update_wallet wallets "USD_WALLET_PAYEER" "payeer" _ (true, ?c0, env2)] =>
      pose proof (update_wallet_step wallets "USD_WALLET_PAYEER" "payeer"
                    set_USD_WALLET_PAYEER true c0 env2 F2 eq_refl (Hv "payeer")) as S3;
      cbv zeta in S3;
      destruct (update_wallet wallets "USD_WALLET_PAYEER" "payeer" set_USD_WALLET_PAYEER
                  (true, c0, env2)) as [[ok3 c3] env3]
  end.
  cbn [fst snd] in S3. destruct S3 as (-> & -> & F3 & G3 & O3 & N3).
  match goal with
  | |- context [update_wallet wallets "USDT_WALLET_PEB20" "peb20" _ (true, ?c0, env3)] =>
      pose proof (update_wallet_step wallets "USDT_WALLET_PEB20" "peb20"
                    set_USDT_WALLET_PEB20 true c0 env3 F3 eq_refl (Hv "peb20")) as S4;
      cbv zeta in S4;
      destruct (update_wallet wallets "USDT_WALLET_PEB20" "peb20" set_USDT_WALLET_PEB20
                  (true, c0, env3)) as [[ok4 c4] env4]
  end.
  cbn [fst snd] in S4. destruct S4 as (-> & -> & F4 & G4 & O4 & N4).
  split; [reflexivity |].
  split; [destruct (wallets "coinex"), (wallets "cwallet"), (wallets "payeer"),
            (wallets "peb20"); reflexivity |].
  split; [destruct (wallets "coinex"), (wallets "cwallet"), (wallets "payeer"),
            (wallets "peb20"); reflexivity |].
  split; [destruct (wallets "coinex"), (wallets "cwallet"), (wallets "payeer"),
            (wallets "peb20"); reflexivity |].
  split; [destruct (wallets "coinex"), (wallets "cwallet"), (wallets "payeer"),
            (wallets "peb20"); reflexivity |].
  split.
  { rewrite O4, O3, O2 by reflexivity.
    destruct (wallets "coinex") as [v|] eqn:E; [now apply G1 | now rewrite N1]. }
  split.
  { rewrite O4, O3 by reflexivity.
    destruct (wallets "cwallet") as [v|] eqn:E; [now apply G2 |].
    rewrite N2 by reflexivity. now apply O1. }
  split.
  { rewrite O4 by reflexivity.
    destruct (wallets "payeer") as [v|] eqn:E; [now apply G3 |].
    rewrite N3 by reflexivity. rewrite O2 by reflexivity. now apply O1. }
  split.
  { destruct (wallets "peb20") as [v|] eqn:E; [now apply G4 |].
    rewrite N4 by reflexivity. rewrite O3, O2 by reflexivity. now apply O1. }
  intros E1 E2 E3 E4. rewrite N4, N3, N2, N1 by assumption.
  now rewrite E1, E2, E3, E4.
Qed.

Lemma update_usdt_wallets_named_witness :
  let wallets key := if (key =? "payeer")%string then Some "P1234567"
                     else if (key =? "binance")%string then Some "0xabc"
                     else None in
  let r := update_usdt_wallets wallets config_0 (env_0 None) in
  fst (fst r) = true /\
  USD_WALLET_PAYEER (snd (fst r)) = Some "P1234567" /\
  USDT_WALLET_COINEX (snd (fst r)) = None /\
  dotenv (snd r) = Some (text_of ["USD_WALLET_PAYEER=P1234567"]).
Proof.
  intros wallets r.
  assert (H : forall key value, wallets key = Some value ->
                Text.contains "000"%char value = false).
  { intros key value. unfold wallets.
    destruct (key =? "payeer")%string; [intros X; injection X as <-; reflexivity |].
    destruct (key =? "binance")%string; [intros X; injection X as <-; reflexivity |].
    intros X. discriminate X. }
  destruct (update_usdt_wallets_named wallets config_0 (env_0 None) eq_refl H)
    as (H1 & H2 & _ & H3 & _).
  split; [exact H1 |]. split; [exact H3 |]. split; [exact H2 | reflexivity].
Defined.

(** ** Keyboards *)

Lemma append_cancel : forall x a b : string, (x ++ a = x ++ b)%string -> a = b.
Proof.
  induction x as [|ch x IH]; intros a b H; cbn [append] in H; [exact H |].
  injection H as H. now apply IH.
Qed.

(** A text that has no underscore is read back from what follows it. *)
Lemma underscore_splits : forall a a' d d' : string,
  Text.contains "_"%char a = false ->
  Text.contains "_"%char a' = false ->
  (a ++ "_" ++ d = a' ++ "_" ++ d')%string ->
  a = a' /\ d = d'.
Proof.
  unfold Text.contains.
  induction a as [|ch a IH]; intros [|ch' a'] d d' Ha Ha' H; cbn [append] in H;
    cbn [list_ascii_of_string existsb] in Ha, Ha'.
  - injection H as H. now split.
  - injection H as H1 H2. subst ch'. rewrite Ascii.eqb_refl in Ha'. discriminate Ha'.
  - injection H as H1 H2. subst ch. rewrite Ascii.eqb_refl in Ha. discriminate Ha.
  - injection H as H1 H2. subst ch'.
    apply orb_false_elim in Ha. apply orb_false_elim in Ha'.
    destruct (IH a' d d' (proj2 Ha) (proj2 Ha') H2) as [-> ->]. now split.
Qed.

(** X30: the keyboard of [product_management] tells its arguments, that of
    [confirm_action] does not.  Two calls of [product_management] that build
    the same keyboard had the same category and the same product: the
    category is read from the data of the last button.  Two calls of
    [confirm_action] that build the same keyboard had the same action and
    data when neither action holds an underscore; otherwise they may differ,
    as [confirm_action("edit", "rate_usd")] and
    [confirm_action("edit_rate", "usd")] build the same keyboard. *)
Theorem keyboards_tell_their_arguments :
  (forall product_id category product_id' category',
     Keyboards.product_management product_id category
       = Keyboards.product_management product_id' category' ->
     product_id = product_id' /\ category = category') /\
  (forall action data action' data',
     Text.contains "_"%char action = false ->
     Text.contains "_"%char action' = false ->
     Keyboards.confirm_action action data = Keyboards.confirm_action action' data' ->
     action = action' /\ data = data') /\
  Keyboards.confirm_action "edit" "rate_usd" = Keyboards.confirm_action "edit_rate" "usd".
Proof.
  split; [| split; [| reflexivity]].
  - intros p c p' c' H. unfold Keyboards.product_management, callback_button in H.
    injection H as _ _ Hd Hm. subst c'.
    apply append_cancel in Hd. apply (append_cancel "_") in Hd. now split.
  - intros a d a' d' Ha Ha' H. unfold Keyboards.confirm_action, callback_button in H.
    injection H as H _. now apply underscore_splits.
Qed.
